(** * Fitness tracker: activity records and the activity store

    A shallow embedding of [Git_project.py]: the [FitnessActivity] record
    with its dictionary conversions, and the [FitnessTracker] store with its
    add / delete / query / aggregate operations and whole-file persistence,
    then the printing of the activities and the menu loop of [main] over a
    console of typed lines and written lines.

    Python is dynamically typed: whatever a JSON document holds can end up
    in a field of an activity.  Fields therefore carry values of the
    universe [value] below, and an operation that Python would abort with
    an exception returns [Raise].  Arguments that only the menu loop
    supplies (a query string, an index, a number of weeks) have the type
    their annotation gives them.

    What is taken from the libraries the program calls:
    - [json]: a file holds the document that [json.dump] wrote, and
      [json.load] returns it; the text of the file is not modelled;
    - [datetime]: a date-time is a day number and a time of day; parsing
      and formatting follow the regular expressions and the calendar
      arithmetic of the library for the one format the program uses, for
      dates written with the digits [0]..[9] (the [\d] of the library also
      takes the decimal digits of other scripts) and years written on four
      digits;
    - [str]: a string is held as its UTF-8 bytes, and [lower] is [str.lower]
      with the case tables of Unicode 14.0, the database of CPython 3.11;
    - files: a write succeeds; the clock is part of the world and is not
      moved by the methods themselves. *)

From Stdlib Require Import ZArith String Ascii List Bool Lia.
From Stdlib Require Import PrimFloat SpecFloat FloatOps.
From stdpp Require Import base option list gmap strings fin_maps.

#[local] Set Warnings "-register-all".
Local Open Scope Z_scope.

(** ** Python values, exceptions and the arithmetic of [sum] *)

Module Py.

(** The values a JSON document can denote, which are also the values of
    the annotated field types ([str], [float], [Optional[...]]).
    A string is held as its UTF-8 bytes. *)
Inductive value :=
| VNone
| VBool (b : bool)
| VInt (n : Z)
| VFloat (x : float)
| VStr (s : string)
| VList (l : list value)
| VDict (d : gmap string value).

Inductive exn :=
| KeyError (key : string)
| TypeError
| AttributeError
| ValueError
| OverflowError
| JSONDecodeError
| FileNotFoundError.

Inductive result (A : Type) :=
| Ok (a : A)
| Raise (e : exn).
Arguments Ok {A} a.
Arguments Raise {A} e.

Definition result_bind {A B} (f : A -> result B) (r : result A) : result B :=
  match r with
  | Ok a => f a
  | Raise e => Raise e
  end.

#[global] Instance result_ret : MRet result := fun _ a => Ok a.
#[global] Instance result_mbind : MBind result := fun _ _ f r => result_bind f r.

Definition is_Ok {A} (r : result A) : Prop := exists a, r = Ok a.

(** *** Text

    A [str] is a sequence of code points.  It is held as its UTF-8 bytes
    (a surrogate is written like any other code point of its size, so that
    every [str] has its bytes); equality of strings is equality of the
    bytes. *)

Definition byte_of (c : ascii) : Z := Z.of_nat (nat_of_ascii c).
Definition ascii_of (b : Z) : ascii := ascii_of_nat (Z.to_nat b).

Definition continuation (c : ascii) : option Z :=
  let b := byte_of c in
  if ((128 <=? b) && (b <? 192))%bool then Some (b - 128) else None.

Fixpoint utf8_decode (cs : list ascii) : option (list Z) :=
  match cs with
  | [] => Some []
  | c :: rest =>
      let b := byte_of c in
      if b <? 128 then cps ← utf8_decode rest; Some (b :: cps)
      else if b <? 192 then None
      else if b <? 224 then
        match rest with
        | c1 :: rest1 =>
            x1 ← continuation c1;
            let cp := (b - 192) * 64 + x1 in
            if cp <? 128 then None
            else cps ← utf8_decode rest1; Some (cp :: cps)
        | _ => None
        end
      else if b <? 240 then
        match rest with
        | c1 :: c2 :: rest2 =>
            x1 ← continuation c1;
            x2 ← continuation c2;
            let cp := ((b - 224) * 64 + x1) * 64 + x2 in
            if cp <? 2048 then None
            else cps ← utf8_decode rest2; Some (cp :: cps)
        | _ => None
        end
      else if b <? 248 then
        match rest with
        | c1 :: c2 :: c3 :: rest3 =>
            x1 ← continuation c1;
            x2 ← continuation c2;
            x3 ← continuation c3;
            let cp := (((b - 240) * 64 + x1) * 64 + x2) * 64 + x3 in
            if ((cp <? 65536) || (1114111 <? cp))%bool then None
            else cps ← utf8_decode rest3; Some (cp :: cps)
        | _ => None
        end
      else None
  end.

Definition utf8_encode_point (cp : Z) : list ascii :=
  if cp <? 128 then [ascii_of cp]
  else if cp <? 2048 then
    [ascii_of (192 + cp / 64); ascii_of (128 + cp mod 64)]
  else if cp <? 65536 then
    [ascii_of (224 + cp / 4096); ascii_of (128 + cp / 64 mod 64);
     ascii_of (128 + cp mod 64)]
  else
    [ascii_of (240 + cp / 262144); ascii_of (128 + cp / 4096 mod 64);
     ascii_of (128 + cp / 64 mod 64); ascii_of (128 + cp mod 64)].

(** The code points of a string (nothing for bytes that are no UTF-8 and
    so no [str]), and the string of a sequence of code points. *)
Definition code_points (s : string) : option (list Z) :=
  utf8_decode (list_ascii_of_string s).

Definition of_code_points (cps : list Z) : string :=
  string_of_list_ascii (concat (map utf8_encode_point cps)).

(** *** [str.lower]

    CPython lowers a string code point by code point with the full
    lowercase mapping of the Unicode database, except for the capital sigma
    U+03A3, whose lowering depends on what surrounds it.  The three tables
    are those of Unicode 14.0, the database of CPython 3.11: the code
    points whose lowercase mapping is not themselves, the cased code points
    and the case-ignorable ones, the last two as inclusive ranges. *)
Definition lower_table : list (Z * list Z) :=
  [
   (65, [97]); (66, [98]); (67, [99]); (68, [100]); (69, [101]); (70,
   [102]); (71, [103]); (72, [104]); (73, [105]); (74, [106]); (75, [107]);
   (76, [108]); (77, [109]); (78, [110]); (79, [111]); (80, [112]); (81,
   [113]); (82, [114]); (83, [115]); (84, [116]); (85, [117]); (86, [118]);
   (87, [119]); (88, [120]); (89, [121]); (90, [122]); (192, [224]); (193,
   [225]); (194, [226]); (195, [227]); (196, [228]); (197, [229]); (198,
   [230]); (199, [231]); (200, [232]); (201, [233]); (202, [234]); (203,
   [235]); (204, [236]); (205, [237]); (206, [238]); (207, [239]); (208,
   [240]); (209, [241]); (210, [242]); (211, [243]); (212, [244]); (213,
   [245]); (214, [246]); (216, [248]); (217, [249]); (218, [250]); (219,
   [251]); (220, [252]); (221, [253]); (222, [254]); (256, [257]); (258,
   [259]); (260, [261]); (262, [263]); (264, [265]); (266, [267]); (268,
   [269]); (270, [271]); (272, [273]); (274, [275]); (276, [277]); (278,
   [279]); (280, [281]); (282, [283]); (284, [285]); (286, [287]); (288,
   [289]); (290, [291]); (292, [293]); (294, [295]); (296, [297]); (298,
   [299]); (300, [301]); (302, [303]); (304, [105; 775]); (306, [307]);
   (308, [309]); (310, [311]); (313, [314]); (315, [316]); (317, [318]);
   (319, [320]); (321, [322]); (323, [324]); (325, [326]); (327, [328]);
   (330, [331]); (332, [333]); (334, [335]); (336, [337]); (338, [339]);
   (340, [341]); (342, [343]); (344, [345]); (346, [347]); (348, [349]);
   (350, [351]); (352, [353]); (354, [355]); (356, [357]); (358, [359]);
   (360, [361]); (362, [363]); (364, [365]); (366, [367]); (368, [369]);
   (370, [371]); (372, [373]); (374, [375]); (376, [255]); (377, [378]);
   (379, [380]); (381, [382]); (385, [595]); (386, [387]); (388, [389]);
   (390, [596]); (391, [392]); (393, [598]); (394, [599]); (395, [396]);
   (398, [477]); (399, [601]); (400, [603]); (401, [402]); (403, [608]);
   (404, [611]); (406, [617]); (407, [616]); (408, [409]); (412, [623]);
   (413, [626]); (415, [629]); (416, [417]); (418, [419]); (420, [421]);
   (422, [640]); (423, [424]); (425, [643]); (428, [429]); (430, [648]);
   (431, [432]); (433, [650]); (434, [651]); (435, [436]); (437, [438]);
   (439, [658]); (440, [441]); (444, [445]); (452, [454]); (453, [454]);
   (455, [457]); (456, [457]); (458, [460]); (459, [460]); (461, [462]);
   (463, [464]); (465, [466]); (467, [468]); (469, [470]); (471, [472]);
   (473, [474]); (475, [476]); (478, [479]); (480, [481]); (482, [483]);
   (484, [485]); (486, [487]); (488, [489]); (490, [491]); (492, [493]);
   (494, [495]); (497, [499]); (498, [499]); (500, [501]); (502, [405]);
   (503, [447]); (504, [505]); (506, [507]); (508, [509]); (510, [511]);
   (512, [513]); (514, [515]); (516, [517]); (518, [519]); (520, [521]);
   (522, [523]); (524, [525]); (526, [527]); (528, [529]); (530, [531]);
   (532, [533]); (534, [535]); (536, [537]); (538, [539]); (540, [541]);
   (542, [543]); (544, [414]); (546, [547]); (548, [549]); (550, [551]);
   (552, [553]); (554, [555]); (556, [557]); (558, [559]); (560, [561]);
   (562, [563]); (570, [11365]); (571, [572]); (573, [410]); (574, [11366]);
   (577, [578]); (579, [384]); (580, [649]); (581, [652]); (582, [583]);
   (584, [585]); (586, [587]); (588, [589]); (590, [591]); (880, [881]);
   (882, [883]); (886, [887]); (895, [1011]); (902, [940]); (904, [941]);
   (905, [942]); (906, [943]); (908, [972]); (910, [973]); (911, [974]);
   (913, [945]); (914, [946]); (915, [947]); (916, [948]); (917, [949]);
   (918, [950]); (919, [951]); (920, [952]); (921, [953]); (922, [954]);
   (923, [955]); (924, [956]); (925, [957]); (926, [958]); (927, [959]);
   (928, [960]); (929, [961]); (931, [963]); (932, [964]); (933, [965]);
   (934, [966]); (935, [967]); (936, [968]); (937, [969]); (938, [970]);
   (939, [971]); (975, [983]); (984, [985]); (986, [987]); (988, [989]);
   (990, [991]); (992, [993]); (994, [995]); (996, [997]); (998, [999]);
   (1000, [1001]); (1002, [1003]); (1004, [1005]); (1006, [1007]); (1012,
   [952]); (1015, [1016]); (1017, [1010]); (1018, [1019]); (1021, [891]);
   (1022, [892]); (1023, [893]); (1024, [1104]); (1025, [1105]); (1026,
   [1106]); (1027, [1107]); (1028, [1108]); (1029, [1109]); (1030, [1110]);
   (1031, [1111]); (1032, [1112]); (1033, [1113]); (1034, [1114]); (1035,
   [1115]); (1036, [1116]); (1037, [1117]); (1038, [1118]); (1039, [1119]);
   (1040, [1072]); (1041, [1073]); (1042, [1074]); (1043, [1075]); (1044,
   [1076]); (1045, [1077]); (1046, [1078]); (1047, [1079]); (1048, [1080]);
   (1049, [1081]); (1050, [1082]); (1051, [1083]); (1052, [1084]); (1053,
   [1085]); (1054, [1086]); (1055, [1087]); (1056, [1088]); (1057, [1089]);
   (1058, [1090]); (1059, [1091]); (1060, [1092]); (1061, [1093]); (1062,
   [1094]); (1063, [1095]); (1064, [1096]); (1065, [1097]); (1066, [1098]);
   (1067, [1099]); (1068, [1100]); (1069, [1101]); (1070, [1102]); (1071,
   [1103]); (1120, [1121]); (1122, [1123]); (1124, [1125]); (1126, [1127]);
   (1128, [1129]); (1130, [1131]); (1132, [1133]); (1134, [1135]); (1136,
   [1137]); (1138, [1139]); (1140, [1141]); (1142, [1143]); (1144, [1145]);
   (1146, [1147]); (1148, [1149]); (1150, [1151]); (1152, [1153]); (1162,
   [1163]); (1164, [1165]); (1166, [1167]); (1168, [1169]); (1170, [1171]);
   (1172, [1173]); (1174, [1175]); (1176, [1177]); (1178, [1179]); (1180,
   [1181]); (1182, [1183]); (1184, [1185]); (1186, [1187]); (1188, [1189]);
   (1190, [1191]); (1192, [1193]); (1194, [1195]); (1196, [1197]); (1198,
   [1199]); (1200, [1201]); (1202, [1203]); (1204, [1205]); (1206, [1207]);
   (1208, [1209]); (1210, [1211]); (1212, [1213]); (1214, [1215]); (1216,
   [1231]); (1217, [1218]); (1219, [1220]); (1221, [1222]); (1223, [1224]);
   (1225, [1226]); (1227, [1228]); (1229, [1230]); (1232, [1233]); (1234,
   [1235]); (1236, [1237]); (1238, [1239]); (1240, [1241]); (1242, [1243]);
   (1244, [1245]); (1246, [1247]); (1248, [1249]); (1250, [1251]); (1252,
   [1253]); (1254, [1255]); (1256, [1257]); (1258, [1259]); (1260, [1261]);
   (1262, [1263]); (1264, [1265]); (1266, [1267]); (1268, [1269]); (1270,
   [1271]); (1272, [1273]); (1274, [1275]); (1276, [1277]); (1278, [1279]);
   (1280, [1281]); (1282, [1283]); (1284, [1285]); (1286, [1287]); (1288,
   [1289]); (1290, [1291]); (1292, [1293]); (1294, [1295]); (1296, [1297]);
   (1298, [1299]); (1300, [1301]); (1302, [1303]); (1304, [1305]); (1306,
   [1307]); (1308, [1309]); (1310, [1311]); (1312, [1313]); (1314, [1315]);
   (1316, [1317]); (1318, [1319]); (1320, [1321]); (1322, [1323]); (1324,
   [1325]); (1326, [1327]); (1329, [1377]); (1330, [1378]); (1331, [1379]);
   (1332, [1380]); (1333, [1381]); (1334, [1382]); (1335, [1383]); (1336,
   [1384]); (1337, [1385]); (1338, [1386]); (1339, [1387]); (1340, [1388]);
   (1341, [1389]); (1342, [1390]); (1343, [1391]); (1344, [1392]); (1345,
   [1393]); (1346, [1394]); (1347, [1395]); (1348, [1396]); (1349, [1397]);
   (1350, [1398]); (1351, [1399]); (1352, [1400]); (1353, [1401]); (1354,
   [1402]); (1355, [1403]); (1356, [1404]); (1357, [1405]); (1358, [1406]);
   (1359, [1407]); (1360, [1408]); (1361, [1409]); (1362, [1410]); (1363,
   [1411]); (1364, [1412]); (1365, [1413]); (1366, [1414]); (4256, [11520]);
   (4257, [11521]); (4258, [11522]); (4259, [11523]); (4260, [11524]);
   (4261, [11525]); (4262, [11526]); (4263, [11527]); (4264, [11528]);
   (4265, [11529]); (4266, [11530]); (4267, [11531]); (4268, [11532]);
   (4269, [11533]); (4270, [11534]); (4271, [11535]); (4272, [11536]);
   (4273, [11537]); (4274, [11538]); (4275, [11539]); (4276, [11540]);
   (4277, [11541]); (4278, [11542]); (4279, [11543]); (4280, [11544]);
   (4281, [11545]); (4282, [11546]); (4283, [11547]); (4284, [11548]);
   (4285, [11549]); (4286, [11550]); (4287, [11551]); (4288, [11552]);
   (4289, [11553]); (4290, [11554]); (4291, [11555]); (4292, [11556]);
   (4293, [11557]); (4295, [11559]); (4301, [11565]); (5024, [43888]);
   (5025, [43889]); (5026, [43890]); (5027, [43891]); (5028, [43892]);
   (5029, [43893]); (5030, [43894]); (5031, [43895]); (5032, [43896]);
   (5033, [43897]); (5034, [43898]); (5035, [43899]); (5036, [43900]);
   (5037, [43901]); (5038, [43902]); (5039, [43903]); (5040, [43904]);
   (5041, [43905]); (5042, [43906]); (5043, [43907]); (5044, [43908]);
   (5045, [43909]); (5046, [43910]); (5047, [43911]); (5048, [43912]);
   (5049, [43913]); (5050, [43914]); (5051, [43915]); (5052, [43916]);
   (5053, [43917]); (5054, [43918]); (5055, [43919]); (5056, [43920]);
   (5057, [43921]); (5058, [43922]); (5059, [43923]); (5060, [43924]);
   (5061, [43925]); (5062, [43926]); (5063, [43927]); (5064, [43928]);
   (5065, [43929]); (5066, [43930]); (5067, [43931]); (5068, [43932]);
   (5069, [43933]); (5070, [43934]); (5071, [43935]); (5072, [43936]);
   (5073, [43937]); (5074, [43938]); (5075, [43939]); (5076, [43940]);
   (5077, [43941]); (5078, [43942]); (5079, [43943]); (5080, [43944]);
   (5081, [43945]); (5082, [43946]); (5083, [43947]); (5084, [43948]);
   (5085, [43949]); (5086, [43950]); (5087, [43951]); (5088, [43952]);
   (5089, [43953]); (5090, [43954]); (5091, [43955]); (5092, [43956]);
   (5093, [43957]); (5094, [43958]); (5095, [43959]); (5096, [43960]);
   (5097, [43961]); (5098, [43962]); (5099, [43963]); (5100, [43964]);
   (5101, [43965]); (5102, [43966]); (5103, [43967]); (5104, [5112]); (5105,
   [5113]); (5106, [5114]); (5107, [5115]); (5108, [5116]); (5109, [5117]);
   (7312, [4304]); (7313, [4305]); (7314, [4306]); (7315, [4307]); (7316,
   [4308]); (7317, [4309]); (7318, [4310]); (7319, [4311]); (7320, [4312]);
   (7321, [4313]); (7322, [4314]); (7323, [4315]); (7324, [4316]); (7325,
   [4317]); (7326, [4318]); (7327, [4319]); (7328, [4320]); (7329, [4321]);
   (7330, [4322]); (7331, [4323]); (7332, [4324]); (7333, [4325]); (7334,
   [4326]); (7335, [4327]); (7336, [4328]); (7337, [4329]); (7338, [4330]);
   (7339, [4331]); (7340, [4332]); (7341, [4333]); (7342, [4334]); (7343,
   [4335]); (7344, [4336]); (7345, [4337]); (7346, [4338]); (7347, [4339]);
   (7348, [4340]); (7349, [4341]); (7350, [4342]); (7351, [4343]); (7352,
   [4344]); (7353, [4345]); (7354, [4346]); (7357, [4349]); (7358, [4350]);
   (7359, [4351]); (7680, [7681]); (7682, [7683]); (7684, [7685]); (7686,
   [7687]); (7688, [7689]); (7690, [7691]); (7692, [7693]); (7694, [7695]);
   (7696, [7697]); (7698, [7699]); (7700, [7701]); (7702, [7703]); (7704,
   [7705]); (7706, [7707]); (7708, [7709]); (7710, [7711]); (7712, [7713]);
   (7714, [7715]); (7716, [7717]); (7718, [7719]); (7720, [7721]); (7722,
   [7723]); (7724, [7725]); (7726, [7727]); (7728, [7729]); (7730, [7731]);
   (7732, [7733]); (7734, [7735]); (7736, [7737]); (7738, [7739]); (7740,
   [7741]); (7742, [7743]); (7744, [7745]); (7746, [7747]); (7748, [7749]);
   (7750, [7751]); (7752, [7753]); (7754, [7755]); (7756, [7757]); (7758,
   [7759]); (7760, [7761]); (7762, [7763]); (7764, [7765]); (7766, [7767]);
   (7768, [7769]); (7770, [7771]); (7772, [7773]); (7774, [7775]); (7776,
   [7777]); (7778, [7779]); (7780, [7781]); (7782, [7783]); (7784, [7785]);
   (7786, [7787]); (7788, [7789]); (7790, [7791]); (7792, [7793]); (7794,
   [7795]); (7796, [7797]); (7798, [7799]); (7800, [7801]); (7802, [7803]);
   (7804, [7805]); (7806, [7807]); (7808, [7809]); (7810, [7811]); (7812,
   [7813]); (7814, [7815]); (7816, [7817]); (7818, [7819]); (7820, [7821]);
   (7822, [7823]); (7824, [7825]); (7826, [7827]); (7828, [7829]); (7838,
   [223]); (7840, [7841]); (7842, [7843]); (7844, [7845]); (7846, [7847]);
   (7848, [7849]); (7850, [7851]); (7852, [7853]); (7854, [7855]); (7856,
   [7857]); (7858, [7859]); (7860, [7861]); (7862, [7863]); (7864, [7865]);
   (7866, [7867]); (7868, [7869]); (7870, [7871]); (7872, [7873]); (7874,
   [7875]); (7876, [7877]); (7878, [7879]); (7880, [7881]); (7882, [7883]);
   (7884, [7885]); (7886, [7887]); (7888, [7889]); (7890, [7891]); (7892,
   [7893]); (7894, [7895]); (7896, [7897]); (7898, [7899]); (7900, [7901]);
   (7902, [7903]); (7904, [7905]); (7906, [7907]); (7908, [7909]); (7910,
   [7911]); (7912, [7913]); (7914, [7915]); (7916, [7917]); (7918, [7919]);
   (7920, [7921]); (7922, [7923]); (7924, [7925]); (7926, [7927]); (7928,
   [7929]); (7930, [7931]); (7932, [7933]); (7934, [7935]); (7944, [7936]);
   (7945, [7937]); (7946, [7938]); (7947, [7939]); (7948, [7940]); (7949,
   [7941]); (7950, [7942]); (7951, [7943]); (7960, [7952]); (7961, [7953]);
   (7962, [7954]); (7963, [7955]); (7964, [7956]); (7965, [7957]); (7976,
   [7968]); (7977, [7969]); (7978, [7970]); (7979, [7971]); (7980, [7972]);
   (7981, [7973]); (7982, [7974]); (7983, [7975]); (7992, [7984]); (7993,
   [7985]); (7994, [7986]); (7995, [7987]); (7996, [7988]); (7997, [7989]);
   (7998, [7990]); (7999, [7991]); (8008, [8000]); (8009, [8001]); (8010,
   [8002]); (8011, [8003]); (8012, [8004]); (8013, [8005]); (8025, [8017]);
   (8027, [8019]); (8029, [8021]); (8031, [8023]); (8040, [8032]); (8041,
   [8033]); (8042, [8034]); (8043, [8035]); (8044, [8036]); (8045, [8037]);
   (8046, [8038]); (8047, [8039]); (8072, [8064]); (8073, [8065]); (8074,
   [8066]); (8075, [8067]); (8076, [8068]); (8077, [8069]); (8078, [8070]);
   (8079, [8071]); (8088, [8080]); (8089, [8081]); (8090, [8082]); (8091,
   [8083]); (8092, [8084]); (8093, [8085]); (8094, [8086]); (8095, [8087]);
   (8104, [8096]); (8105, [8097]); (8106, [8098]); (8107, [8099]); (8108,
   [8100]); (8109, [8101]); (8110, [8102]); (8111, [8103]); (8120, [8112]);
   (8121, [8113]); (8122, [8048]); (8123, [8049]); (8124, [8115]); (8136,
   [8050]); (8137, [8051]); (8138, [8052]); (8139, [8053]); (8140, [8131]);
   (8152, [8144]); (8153, [8145]); (8154, [8054]); (8155, [8055]); (8168,
   [8160]); (8169, [8161]); (8170, [8058]); (8171, [8059]); (8172, [8165]);
   (8184, [8056]); (8185, [8057]); (8186, [8060]); (8187, [8061]); (8188,
   [8179]); (8486, [969]); (8490, [107]); (8491, [229]); (8498, [8526]);
   (8544, [8560]); (8545, [8561]); (8546, [8562]); (8547, [8563]); (8548,
   [8564]); (8549, [8565]); (8550, [8566]); (8551, [8567]); (8552, [8568]);
   (8553, [8569]); (8554, [8570]); (8555, [8571]); (8556, [8572]); (8557,
   [8573]); (8558, [8574]); (8559, [8575]); (8579, [8580]); (9398, [9424]);
   (9399, [9425]); (9400, [9426]); (9401, [9427]); (9402, [9428]); (9403,
   [9429]); (9404, [9430]); (9405, [9431]); (9406, [9432]); (9407, [9433]);
   (9408, [9434]); (9409, [9435]); (9410, [9436]); (9411, [9437]); (9412,
   [9438]); (9413, [9439]); (9414, [9440]); (9415, [9441]); (9416, [9442]);
   (9417, [9443]); (9418, [9444]); (9419, [9445]); (9420, [9446]); (9421,
   [9447]); (9422, [9448]); (9423, [9449]); (11264, [11312]); (11265,
   [11313]); (11266, [11314]); (11267, [11315]); (11268, [11316]); (11269,
   [11317]); (11270, [11318]); (11271, [11319]); (11272, [11320]); (11273,
   [11321]); (11274, [11322]); (11275, [11323]); (11276, [11324]); (11277,
   [11325]); (11278, [11326]); (11279, [11327]); (11280, [11328]); (11281,
   [11329]); (11282, [11330]); (11283, [11331]); (11284, [11332]); (11285,
   [11333]); (11286, [11334]); (11287, [11335]); (11288, [11336]); (11289,
   [11337]); (11290, [11338]); (11291, [11339]); (11292, [11340]); (11293,
   [11341]); (11294, [11342]); (11295, [11343]); (11296, [11344]); (11297,
   [11345]); (11298, [11346]); (11299, [11347]); (11300, [11348]); (11301,
   [11349]); (11302, [11350]); (11303, [11351]); (11304, [11352]); (11305,
   [11353]); (11306, [11354]); (11307, [11355]); (11308, [11356]); (11309,
   [11357]); (11310, [11358]); (11311, [11359]); (11360, [11361]); (11362,
   [619]); (11363, [7549]); (11364, [637]); (11367, [11368]); (11369,
   [11370]); (11371, [11372]); (11373, [593]); (11374, [625]); (11375,
   [592]); (11376, [594]); (11378, [11379]); (11381, [11382]); (11390,
   [575]); (11391, [576]); (11392, [11393]); (11394, [11395]); (11396,
   [11397]); (11398, [11399]); (11400, [11401]); (11402, [11403]); (11404,
   [11405]); (11406, [11407]); (11408, [11409]); (11410, [11411]); (11412,
   [11413]); (11414, [11415]); (11416, [11417]); (11418, [11419]); (11420,
   [11421]); (11422, [11423]); (11424, [11425]); (11426, [11427]); (11428,
   [11429]); (11430, [11431]); (11432, [11433]); (11434, [11435]); (11436,
   [11437]); (11438, [11439]); (11440, [11441]); (11442, [11443]); (11444,
   [11445]); (11446, [11447]); (11448, [11449]); (11450, [11451]); (11452,
   [11453]); (11454, [11455]); (11456, [11457]); (11458, [11459]); (11460,
   [11461]); (11462, [11463]); (11464, [11465]); (11466, [11467]); (11468,
   [11469]); (11470, [11471]); (11472, [11473]); (11474, [11475]); (11476,
   [11477]); (11478, [11479]); (11480, [11481]); (11482, [11483]); (11484,
   [11485]); (11486, [11487]); (11488, [11489]); (11490, [11491]); (11499,
   [11500]); (11501, [11502]); (11506, [11507]); (42560, [42561]); (42562,
   [42563]); (42564, [42565]); (42566, [42567]); (42568, [42569]); (42570,
   [42571]); (42572, [42573]); (42574, [42575]); (42576, [42577]); (42578,
   [42579]); (42580, [42581]); (42582, [42583]); (42584, [42585]); (42586,
   [42587]); (42588, [42589]); (42590, [42591]); (42592, [42593]); (42594,
   [42595]); (42596, [42597]); (42598, [42599]); (42600, [42601]); (42602,
   [42603]); (42604, [42605]); (42624, [42625]); (42626, [42627]); (42628,
   [42629]); (42630, [42631]); (42632, [42633]); (42634, [42635]); (42636,
   [42637]); (42638, [42639]); (42640, [42641]); (42642, [42643]); (42644,
   [42645]); (42646, [42647]); (42648, [42649]); (42650, [42651]); (42786,
   [42787]); (42788, [42789]); (42790, [42791]); (42792, [42793]); (42794,
   [42795]); (42796, [42797]); (42798, [42799]); (42802, [42803]); (42804,
   [42805]); (42806, [42807]); (42808, [42809]); (42810, [42811]); (42812,
   [42813]); (42814, [42815]); (42816, [42817]); (42818, [42819]); (42820,
   [42821]); (42822, [42823]); (42824, [42825]); (42826, [42827]); (42828,
   [42829]); (42830, [42831]); (42832, [42833]); (42834, [42835]); (42836,
   [42837]); (42838, [42839]); (42840, [42841]); (42842, [42843]); (42844,
   [42845]); (42846, [42847]); (42848, [42849]); (42850, [42851]); (42852,
   [42853]); (42854, [42855]); (42856, [42857]); (42858, [42859]); (42860,
   [42861]); (42862, [42863]); (42873, [42874]); (42875, [42876]); (42877,
   [7545]); (42878, [42879]); (42880, [42881]); (42882, [42883]); (42884,
   [42885]); (42886, [42887]); (42891, [42892]); (42893, [613]); (42896,
   [42897]); (42898, [42899]); (42902, [42903]); (42904, [42905]); (42906,
   [42907]); (42908, [42909]); (42910, [42911]); (42912, [42913]); (42914,
   [42915]); (42916, [42917]); (42918, [42919]); (42920, [42921]); (42922,
   [614]); (42923, [604]); (42924, [609]); (42925, [620]); (42926, [618]);
   (42928, [670]); (42929, [647]); (42930, [669]); (42931, [43859]); (42932,
   [42933]); (42934, [42935]); (42936, [42937]); (42938, [42939]); (42940,
   [42941]); (42942, [42943]); (42944, [42945]); (42946, [42947]); (42948,
   [42900]); (42949, [642]); (42950, [7566]); (42951, [42952]); (42953,
   [42954]); (42960, [42961]); (42966, [42967]); (42968, [42969]); (42997,
   [42998]); (65313, [65345]); (65314, [65346]); (65315, [65347]); (65316,
   [65348]); (65317, [65349]); (65318, [65350]); (65319, [65351]); (65320,
   [65352]); (65321, [65353]); (65322, [65354]); (65323, [65355]); (65324,
   [65356]); (65325, [65357]); (65326, [65358]); (65327, [65359]); (65328,
   [65360]); (65329, [65361]); (65330, [65362]); (65331, [65363]); (65332,
   [65364]); (65333, [65365]); (65334, [65366]); (65335, [65367]); (65336,
   [65368]); (65337, [65369]); (65338, [65370]); (66560, [66600]); (66561,
   [66601]); (66562, [66602]); (66563, [66603]); (66564, [66604]); (66565,
   [66605]); (66566, [66606]); (66567, [66607]); (66568, [66608]); (66569,
   [66609]); (66570, [66610]); (66571, [66611]); (66572, [66612]); (66573,
   [66613]); (66574, [66614]); (66575, [66615]); (66576, [66616]); (66577,
   [66617]); (66578, [66618]); (66579, [66619]); (66580, [66620]); (66581,
   [66621]); (66582, [66622]); (66583, [66623]); (66584, [66624]); (66585,
   [66625]); (66586, [66626]); (66587, [66627]); (66588, [66628]); (66589,
   [66629]); (66590, [66630]); (66591, [66631]); (66592, [66632]); (66593,
   [66633]); (66594, [66634]); (66595, [66635]); (66596, [66636]); (66597,
   [66637]); (66598, [66638]); (66599, [66639]); (66736, [66776]); (66737,
   [66777]); (66738, [66778]); (66739, [66779]); (66740, [66780]); (66741,
   [66781]); (66742, [66782]); (66743, [66783]); (66744, [66784]); (66745,
   [66785]); (66746, [66786]); (66747, [66787]); (66748, [66788]); (66749,
   [66789]); (66750, [66790]); (66751, [66791]); (66752, [66792]); (66753,
   [66793]); (66754, [66794]); (66755, [66795]); (66756, [66796]); (66757,
   [66797]); (66758, [66798]); (66759, [66799]); (66760, [66800]); (66761,
   [66801]); (66762, [66802]); (66763, [66803]); (66764, [66804]); (66765,
   [66805]); (66766, [66806]); (66767, [66807]); (66768, [66808]); (66769,
   [66809]); (66770, [66810]); (66771, [66811]); (66928, [66967]); (66929,
   [66968]); (66930, [66969]); (66931, [66970]); (66932, [66971]); (66933,
   [66972]); (66934, [66973]); (66935, [66974]); (66936, [66975]); (66937,
   [66976]); (66938, [66977]); (66940, [66979]); (66941, [66980]); (66942,
   [66981]); (66943, [66982]); (66944, [66983]); (66945, [66984]); (66946,
   [66985]); (66947, [66986]); (66948, [66987]); (66949, [66988]); (66950,
   [66989]); (66951, [66990]); (66952, [66991]); (66953, [66992]); (66954,
   [66993]); (66956, [66995]); (66957, [66996]); (66958, [66997]); (66959,
   [66998]); (66960, [66999]); (66961, [67000]); (66962, [67001]); (66964,
   [67003]); (66965, [67004]); (68736, [68800]); (68737, [68801]); (68738,
   [68802]); (68739, [68803]); (68740, [68804]); (68741, [68805]); (68742,
   [68806]); (68743, [68807]); (68744, [68808]); (68745, [68809]); (68746,
   [68810]); (68747, [68811]); (68748, [68812]); (68749, [68813]); (68750,
   [68814]); (68751, [68815]); (68752, [68816]); (68753, [68817]); (68754,
   [68818]); (68755, [68819]); (68756, [68820]); (68757, [68821]); (68758,
   [68822]); (68759, [68823]); (68760, [68824]); (68761, [68825]); (68762,
   [68826]); (68763, [68827]); (68764, [68828]); (68765, [68829]); (68766,
   [68830]); (68767, [68831]); (68768, [68832]); (68769, [68833]); (68770,
   [68834]); (68771, [68835]); (68772, [68836]); (68773, [68837]); (68774,
   [68838]); (68775, [68839]); (68776, [68840]); (68777, [68841]); (68778,
   [68842]); (68779, [68843]); (68780, [68844]); (68781, [68845]); (68782,
   [68846]); (68783, [68847]); (68784, [68848]); (68785, [68849]); (68786,
   [68850]); (71840, [71872]); (71841, [71873]); (71842, [71874]); (71843,
   [71875]); (71844, [71876]); (71845, [71877]); (71846, [71878]); (71847,
   [71879]); (71848, [71880]); (71849, [71881]); (71850, [71882]); (71851,
   [71883]); (71852, [71884]); (71853, [71885]); (71854, [71886]); (71855,
   [71887]); (71856, [71888]); (71857, [71889]); (71858, [71890]); (71859,
   [71891]); (71860, [71892]); (71861, [71893]); (71862, [71894]); (71863,
   [71895]); (71864, [71896]); (71865, [71897]); (71866, [71898]); (71867,
   [71899]); (71868, [71900]); (71869, [71901]); (71870, [71902]); (71871,
   [71903]); (93760, [93792]); (93761, [93793]); (93762, [93794]); (93763,
   [93795]); (93764, [93796]); (93765, [93797]); (93766, [93798]); (93767,
   [93799]); (93768, [93800]); (93769, [93801]); (93770, [93802]); (93771,
   [93803]); (93772, [93804]); (93773, [93805]); (93774, [93806]); (93775,
   [93807]); (93776, [93808]); (93777, [93809]); (93778, [93810]); (93779,
   [93811]); (93780, [93812]); (93781, [93813]); (93782, [93814]); (93783,
   [93815]); (93784, [93816]); (93785, [93817]); (93786, [93818]); (93787,
   [93819]); (93788, [93820]); (93789, [93821]); (93790, [93822]); (93791,
   [93823]); (125184, [125218]); (125185, [125219]); (125186, [125220]);
   (125187, [125221]); (125188, [125222]); (125189, [125223]); (125190,
   [125224]); (125191, [125225]); (125192, [125226]); (125193, [125227]);
   (125194, [125228]); (125195, [125229]); (125196, [125230]); (125197,
   [125231]); (125198, [125232]); (125199, [125233]); (125200, [125234]);
   (125201, [125235]); (125202, [125236]); (125203, [125237]); (125204,
   [125238]); (125205, [125239]); (125206, [125240]); (125207, [125241]);
   (125208, [125242]); (125209, [125243]); (125210, [125244]); (125211,
   [125245]); (125212, [125246]); (125213, [125247]); (125214, [125248]);
   (125215, [125249]); (125216, [125250]); (125217, [125251])
  ].

Definition cased_ranges : list (Z * Z) :=
  [
   (65, 90); (97, 122); (170, 170); (181, 181); (186, 186); (192, 214);
   (216, 246); (248, 442); (444, 447); (452, 659); (661, 696); (704, 705);
   (736, 740); (837, 837); (880, 883); (886, 887); (890, 893); (895, 895);
   (902, 902); (904, 906); (908, 908); (910, 929); (931, 1013); (1015,
   1153); (1162, 1327); (1329, 1366); (1376, 1416); (4256, 4293); (4295,
   4295); (4301, 4301); (4304, 4346); (4349, 4351); (5024, 5109); (5112,
   5117); (7296, 7304); (7312, 7354); (7357, 7359); (7424, 7615); (7680,
   7957); (7960, 7965); (7968, 8005); (8008, 8013); (8016, 8023); (8025,
   8025); (8027, 8027); (8029, 8029); (8031, 8061); (8064, 8116); (8118,
   8124); (8126, 8126); (8130, 8132); (8134, 8140); (8144, 8147); (8150,
   8155); (8160, 8172); (8178, 8180); (8182, 8188); (8305, 8305); (8319,
   8319); (8336, 8348); (8450, 8450); (8455, 8455); (8458, 8467); (8469,
   8469); (8473, 8477); (8484, 8484); (8486, 8486); (8488, 8488); (8490,
   8493); (8495, 8500); (8505, 8505); (8508, 8511); (8517, 8521); (8526,
   8526); (8544, 8575); (8579, 8580); (9398, 9449); (11264, 11492); (11499,
   11502); (11506, 11507); (11520, 11557); (11559, 11559); (11565, 11565);
   (42560, 42605); (42624, 42653); (42786, 42887); (42891, 42894); (42896,
   42954); (42960, 42961); (42963, 42963); (42965, 42969); (42997, 42998);
   (43000, 43002); (43824, 43866); (43868, 43880); (43888, 43967); (64256,
   64262); (64275, 64279); (65313, 65338); (65345, 65370); (66560, 66639);
   (66736, 66771); (66776, 66811); (66928, 66938); (66940, 66954); (66956,
   66962); (66964, 66965); (66967, 66977); (66979, 66993); (66995, 67001);
   (67003, 67004); (67456, 67456); (67459, 67461); (67463, 67504); (67506,
   67514); (68736, 68786); (68800, 68850); (71840, 71903); (93760, 93823);
   (119808, 119892); (119894, 119964); (119966, 119967); (119970, 119970);
   (119973, 119974); (119977, 119980); (119982, 119993); (119995, 119995);
   (119997, 120003); (120005, 120069); (120071, 120074); (120077, 120084);
   (120086, 120092); (120094, 120121); (120123, 120126); (120128, 120132);
   (120134, 120134); (120138, 120144); (120146, 120485); (120488, 120512);
   (120514, 120538); (120540, 120570); (120572, 120596); (120598, 120628);
   (120630, 120654); (120656, 120686); (120688, 120712); (120714, 120744);
   (120746, 120770); (120772, 120779); (122624, 122633); (122635, 122654);
   (125184, 125251); (127280, 127305); (127312, 127337); (127344, 127369)
  ].

Definition case_ignorable_ranges : list (Z * Z) :=
  [
   (39, 39); (46, 46); (58, 58); (94, 94); (96, 96); (168, 168); (173, 173);
   (175, 175); (180, 180); (183, 184); (688, 879); (884, 885); (890, 890);
   (900, 901); (903, 903); (1155, 1161); (1369, 1369); (1375, 1375); (1425,
   1469); (1471, 1471); (1473, 1474); (1476, 1477); (1479, 1479); (1524,
   1524); (1536, 1541); (1552, 1562); (1564, 1564); (1600, 1600); (1611,
   1631); (1648, 1648); (1750, 1757); (1759, 1768); (1770, 1773); (1807,
   1807); (1809, 1809); (1840, 1866); (1958, 1968); (2027, 2037); (2042,
   2042); (2045, 2045); (2070, 2093); (2137, 2139); (2184, 2184); (2192,
   2193); (2200, 2207); (2249, 2306); (2362, 2362); (2364, 2364); (2369,
   2376); (2381, 2381); (2385, 2391); (2402, 2403); (2417, 2417); (2433,
   2433); (2492, 2492); (2497, 2500); (2509, 2509); (2530, 2531); (2558,
   2558); (2561, 2562); (2620, 2620); (2625, 2626); (2631, 2632); (2635,
   2637); (2641, 2641); (2672, 2673); (2677, 2677); (2689, 2690); (2748,
   2748); (2753, 2757); (2759, 2760); (2765, 2765); (2786, 2787); (2810,
   2815); (2817, 2817); (2876, 2876); (2879, 2879); (2881, 2884); (2893,
   2893); (2901, 2902); (2914, 2915); (2946, 2946); (3008, 3008); (3021,
   3021); (3072, 3072); (3076, 3076); (3132, 3132); (3134, 3136); (3142,
   3144); (3146, 3149); (3157, 3158); (3170, 3171); (3201, 3201); (3260,
   3260); (3263, 3263); (3270, 3270); (3276, 3277); (3298, 3299); (3328,
   3329); (3387, 3388); (3393, 3396); (3405, 3405); (3426, 3427); (3457,
   3457); (3530, 3530); (3538, 3540); (3542, 3542); (3633, 3633); (3636,
   3642); (3654, 3662); (3761, 3761); (3764, 3772); (3782, 3782); (3784,
   3789); (3864, 3865); (3893, 3893); (3895, 3895); (3897, 3897); (3953,
   3966); (3968, 3972); (3974, 3975); (3981, 3991); (3993, 4028); (4038,
   4038); (4141, 4144); (4146, 4151); (4153, 4154); (4157, 4158); (4184,
   4185); (4190, 4192); (4209, 4212); (4226, 4226); (4229, 4230); (4237,
   4237); (4253, 4253); (4348, 4348); (4957, 4959); (5906, 5908); (5938,
   5939); (5970, 5971); (6002, 6003); (6068, 6069); (6071, 6077); (6086,
   6086); (6089, 6099); (6103, 6103); (6109, 6109); (6155, 6159); (6211,
   6211); (6277, 6278); (6313, 6313); (6432, 6434); (6439, 6440); (6450,
   6450); (6457, 6459); (6679, 6680); (6683, 6683); (6742, 6742); (6744,
   6750); (6752, 6752); (6754, 6754); (6757, 6764); (6771, 6780); (6783,
   6783); (6823, 6823); (6832, 6862); (6912, 6915); (6964, 6964); (6966,
   6970); (6972, 6972); (6978, 6978); (7019, 7027); (7040, 7041); (7074,
   7077); (7080, 7081); (7083, 7085); (7142, 7142); (7144, 7145); (7149,
   7149); (7151, 7153); (7212, 7219); (7222, 7223); (7288, 7293); (7376,
   7378); (7380, 7392); (7394, 7400); (7405, 7405); (7412, 7412); (7416,
   7417); (7468, 7530); (7544, 7544); (7579, 7679); (8125, 8125); (8127,
   8129); (8141, 8143); (8157, 8159); (8173, 8175); (8189, 8190); (8203,
   8207); (8216, 8217); (8228, 8228); (8231, 8231); (8234, 8238); (8288,
   8292); (8294, 8303); (8305, 8305); (8319, 8319); (8336, 8348); (8400,
   8432); (11388, 11389); (11503, 11505); (11631, 11631); (11647, 11647);
   (11744, 11775); (11823, 11823); (12293, 12293); (12330, 12333); (12337,
   12341); (12347, 12347); (12441, 12446); (12540, 12542); (40981, 40981);
   (42232, 42237); (42508, 42508); (42607, 42610); (42612, 42621); (42623,
   42623); (42652, 42655); (42736, 42737); (42752, 42785); (42864, 42864);
   (42888, 42890); (42994, 42996); (43000, 43001); (43010, 43010); (43014,
   43014); (43019, 43019); (43045, 43046); (43052, 43052); (43204, 43205);
   (43232, 43249); (43263, 43263); (43302, 43309); (43335, 43345); (43392,
   43394); (43443, 43443); (43446, 43449); (43452, 43453); (43471, 43471);
   (43493, 43494); (43561, 43566); (43569, 43570); (43573, 43574); (43587,
   43587); (43596, 43596); (43632, 43632); (43644, 43644); (43696, 43696);
   (43698, 43700); (43703, 43704); (43710, 43711); (43713, 43713); (43741,
   43741); (43756, 43757); (43763, 43764); (43766, 43766); (43867, 43871);
   (43881, 43883); (44005, 44005); (44008, 44008); (44013, 44013); (64286,
   64286); (64434, 64450); (65024, 65039); (65043, 65043); (65056, 65071);
   (65106, 65106); (65109, 65109); (65279, 65279); (65287, 65287); (65294,
   65294); (65306, 65306); (65342, 65342); (65344, 65344); (65392, 65392);
   (65438, 65439); (65507, 65507); (65529, 65531); (66045, 66045); (66272,
   66272); (66422, 66426); (67456, 67461); (67463, 67504); (67506, 67514);
   (68097, 68099); (68101, 68102); (68108, 68111); (68152, 68154); (68159,
   68159); (68325, 68326); (68900, 68903); (69291, 69292); (69446, 69456);
   (69506, 69509); (69633, 69633); (69688, 69702); (69744, 69744); (69747,
   69748); (69759, 69761); (69811, 69814); (69817, 69818); (69821, 69821);
   (69826, 69826); (69837, 69837); (69888, 69890); (69927, 69931); (69933,
   69940); (70003, 70003); (70016, 70017); (70070, 70078); (70089, 70092);
   (70095, 70095); (70191, 70193); (70196, 70196); (70198, 70199); (70206,
   70206); (70367, 70367); (70371, 70378); (70400, 70401); (70459, 70460);
   (70464, 70464); (70502, 70508); (70512, 70516); (70712, 70719); (70722,
   70724); (70726, 70726); (70750, 70750); (70835, 70840); (70842, 70842);
   (70847, 70848); (70850, 70851); (71090, 71093); (71100, 71101); (71103,
   71104); (71132, 71133); (71219, 71226); (71229, 71229); (71231, 71232);
   (71339, 71339); (71341, 71341); (71344, 71349); (71351, 71351); (71453,
   71455); (71458, 71461); (71463, 71467); (71727, 71735); (71737, 71738);
   (71995, 71996); (71998, 71998); (72003, 72003); (72148, 72151); (72154,
   72155); (72160, 72160); (72193, 72202); (72243, 72248); (72251, 72254);
   (72263, 72263); (72273, 72278); (72281, 72283); (72330, 72342); (72344,
   72345); (72752, 72758); (72760, 72765); (72767, 72767); (72850, 72871);
   (72874, 72880); (72882, 72883); (72885, 72886); (73009, 73014); (73018,
   73018); (73020, 73021); (73023, 73029); (73031, 73031); (73104, 73105);
   (73109, 73109); (73111, 73111); (73459, 73460); (78896, 78904); (92912,
   92916); (92976, 92982); (92992, 92995); (94031, 94031); (94095, 94111);
   (94176, 94177); (94179, 94180); (110576, 110579); (110581, 110587);
   (110589, 110590); (113821, 113822); (113824, 113827); (118528, 118573);
   (118576, 118598); (119143, 119145); (119155, 119170); (119173, 119179);
   (119210, 119213); (119362, 119364); (121344, 121398); (121403, 121452);
   (121461, 121461); (121476, 121476); (121499, 121503); (121505, 121519);
   (122880, 122886); (122888, 122904); (122907, 122913); (122915, 122916);
   (122918, 122922); (123184, 123197); (123566, 123566); (123628, 123631);
   (125136, 125142); (125252, 125259); (127995, 127999); (917505, 917505);
   (917536, 917631); (917760, 917999)
  ].

Fixpoint lookup_point (c : Z) (table : list (Z * list Z)) : option (list Z) :=
  match table with
  | [] => None
  | (c', mapped) :: rest => if c' =? c then Some mapped else lookup_point c rest
  end.

Definition in_ranges (c : Z) (ranges : list (Z * Z)) : bool :=
  existsb (fun r => ((fst r <=? c) && (c <=? snd r))%bool) ranges.

(** [_PyUnicode_ToLowerFull], [_PyUnicode_IsCased] and
    [_PyUnicode_IsCaseIgnorable] *)
Definition to_lower_full (c : Z) : list Z :=
  match lookup_point c lower_table with
  | Some mapped => mapped
  | None => [c]
  end.

Definition is_cased (c : Z) : bool := in_ranges c cased_ranges.

Definition is_case_ignorable (c : Z) : bool := in_ranges c case_ignorable_ranges.

Fixpoint skip_case_ignorable (cps : list Z) : list Z :=
  match cps with
  | c :: rest => if is_case_ignorable c then skip_case_ignorable rest else cps
  | [] => []
  end.

(** [handle_capital_sigma]: a capital sigma is final, and lowered to
    U+03C2, when a cased code point comes before it and none after it,
    case-ignorable code points in between not counting.  [before] holds
    the code points before the sigma, the nearest first. *)
Definition final_sigma (before after : list Z) : bool :=
  match skip_case_ignorable before with
  | c :: _ =>
      (is_cased c
       && match skip_case_ignorable after with
          | c' :: _ => negb (is_cased c')
          | [] => true
          end)%bool
  | [] => false
  end.

Fixpoint lower_points (before cps : list Z) : list Z :=
  match cps with
  | [] => []
  | c :: rest =>
      (if c =? 931 then [if final_sigma before rest then 962 else 963]
       else to_lower_full c)
      ++ lower_points (c :: before) rest
  end.

(** [s.lower()]  (Bytes that are no UTF-8, and so no [str], are left as
    they are.) *)
Definition lower (s : string) : string :=
  match code_points s with
  | Some cps => of_code_points (lower_points [] cps)
  | None => s
  end.

(** *** Operations on values *)

(** [bool(v)]: the truth value Python gives to [v]. *)
Definition truthy (v : value) : bool :=
  match v with
  | VNone => false
  | VBool b => b
  | VInt n => negb (n =? 0)
  | VFloat x => negb (PrimFloat.eqb x 0%float)
  | VStr s => negb (String.eqb s "")
  | VList l => match l with [] => false | _ => true end
  | VDict d => match map_to_list d with [] => false | _ => true end
  end.

(** [data[key]] for a string key. *)
Definition subscript (data : value) (key : string) : result value :=
  match data with
  | VDict d =>
      match d !! key with
      | Some v => Ok v
      | None => Raise (KeyError key)
      end
  | _ => Raise TypeError
  end.

(** [data.get(key)]: [None] when the key is absent. *)
Definition dict_get (data : value) (key : string) : result value :=
  match data with
  | VDict d => Ok (default VNone (d !! key))
  | _ => Raise AttributeError
  end.

(** [v == s] for a string [s]: only an equal string is equal to it. *)
Definition eq_str (v : value) (s : string) : bool :=
  match v with
  | VStr s' => String.eqb s' s
  | _ => false
  end.

(** [for item in data]: the items a value yields when iterated (a
    dictionary yields its keys, a string its characters). *)
Definition iterate (data : value) : result (list value) :=
  match data with
  | VList l => Ok l
  | VDict d => Ok (map (fun kv => VStr (fst kv)) (map_to_list d))
  | VStr s =>
      Ok (match code_points s with
          | Some cps => map (fun c => VStr (of_code_points [c])) cps
          | None => map (fun c => VStr (String c EmptyString)) (list_ascii_of_string s)
          end)
  | _ => Raise TypeError
  end.

(** [v.lower()]: only strings have the method. *)
Definition str_lower (v : value) : result string :=
  match v with
  | VStr s => Ok (lower s)
  | _ => Raise AttributeError
  end.

(** Numbers: [int] (and [bool], its subclass) and [float]. *)
Inductive number :=
| NInt (n : Z)
| NFloat (x : float).

Definition as_number (v : value) : option number :=
  match v with
  | VBool b => Some (NInt (if b then 1 else 0))
  | VInt n => Some (NInt n)
  | VFloat x => Some (NFloat x)
  | _ => None
  end.

Definition of_number (a : number) : value :=
  match a with
  | NInt n => VInt n
  | NFloat x => VFloat x
  end.

(** An [int] operand of a float addition is rounded to the nearest
    double; one too large for a double raises [OverflowError]. *)
Definition float_of_int (n : Z) : result float :=
  let x := SF2Prim (binary_normalize 53 1024 n 0 false) in
  if PrimFloat.is_infinity x then Raise OverflowError else Ok x.

(** [acc + v] where [acc] is a number, as in every step of [sum]. *)
Definition num_add (acc : number) (v : value) : result number :=
  match acc, as_number v with
  | NInt a, Some (NInt b) => Ok (NInt (a + b))
  | NInt a, Some (NFloat y) => x ← float_of_int a; Ok (NFloat (PrimFloat.add x y))
  | NFloat x, Some (NInt b) => y ← float_of_int b; Ok (NFloat (PrimFloat.add x y))
  | NFloat x, Some (NFloat y) => Ok (NFloat (PrimFloat.add x y))
  | _, None => Raise TypeError
  end.

Fixpoint sum_from (acc : number) (items : list value) : result number :=
  match items with
  | [] => Ok acc
  | v :: rest => acc' ← num_add acc v; sum_from acc' rest
  end.

(** [sum(items)]: left to right from the integer [0].  (Interpreters from
    3.12 on compensate the rounding of float partial sums; the plain fold
    is the documented meaning and the value on exact inputs.) *)
Definition sum (items : list value) : result value :=
  total ← sum_from (NInt 0) items; Ok (of_number total).

End Py.

(** ** Naive local date-times, as far as the tracker uses them *)

Module Datetime.
Import Py.

(** A [datetime.datetime] is its proleptic Gregorian day number
    ([toordinal()], day 1 is 0001-01-01) and the microsecond of that day.
    Comparison of two date-times is the lexicographic one on the pair. *)
Record datetime := { ordinal : Z; usec : Z }.

Definition MAXORDINAL : Z := 3652059.
Definition USEC_PER_DAY : Z := 86400000000.

Definition valid (dt : datetime) : Prop :=
  1 <= ordinal dt <= MAXORDINAL /\ 0 <= usec dt < USEC_PER_DAY.

(** The tracker only builds whole-day durations. *)
Record timedelta := { days : Z }.

(** [timedelta(days=n)] and [timedelta(weeks=n)]: more than 999999999 days
    either way is an [OverflowError]. *)
Definition timedelta_days (n : Z) : result timedelta :=
  if (Z.abs n <=? 999999999) then Ok {| days := n |} else Raise OverflowError.

Definition timedelta_weeks (n : Z) : result timedelta :=
  timedelta_days (7 * n).

(** [dt - td]: the time of day is kept; a day outside years 1..9999 is an
    [OverflowError]. *)
Definition sub (dt : datetime) (td : timedelta) : result datetime :=
  let o := ordinal dt - days td in
  if ((1 <=? o) && (o <=? MAXORDINAL))%bool
  then Ok {| ordinal := o; usec := usec dt |}
  else Raise OverflowError.

(** [a <= b] *)
Definition le (a b : datetime) : bool :=
  ((ordinal a <? ordinal b) || ((ordinal a =? ordinal b) && (usec a <=? usec b)))%bool.

(** *** The calendar *)

Definition is_leap (year : Z) : bool :=
  ((year mod 4 =? 0) && (negb (year mod 100 =? 0) || (year mod 400 =? 0)))%bool.

Definition days_in_month (year month : Z) : Z :=
  if month =? 2 then (if is_leap year then 29 else 28)
  else if ((month =? 4) || (month =? 6) || (month =? 9) || (month =? 11))%bool then 30
  else 31.

(** Days of the year before the first of [month], in a common year. *)
Definition days_before_month_common (month : Z) : Z :=
  nth (Z.to_nat month) [0; 0; 31; 59; 90; 120; 151; 181; 212; 243; 273; 304; 334] 0.

Definition days_before_month (year month : Z) : Z :=
  days_before_month_common month
  + (if ((2 <? month) && is_leap year)%bool then 1 else 0).

Definition days_before_year (year : Z) : Z :=
  let y := year - 1 in
  y * 365 + y / 4 - y / 100 + y / 400.

Definition ymd2ord (year month day : Z) : Z :=
  days_before_year year + days_before_month year month + day.

(** The date of a day number, by 400-, 100-, 4- and 1-year cycles. *)
Definition ord2ymd (n : Z) : Z * Z * Z :=
  let n := n - 1 in
  let n400 := n / 146097 in
  let n := n mod 146097 in
  let n100 := n / 36524 in
  let n := n mod 36524 in
  let n4 := n / 1461 in
  let n := n mod 1461 in
  let n1 := n / 365 in
  let n := n mod 365 in
  let year := n400 * 400 + 1 + n100 * 100 + n4 * 4 + n1 in
  if ((n1 =? 4) || (n100 =? 4))%bool then (year - 1, 12, 31)
  else
    let leapyear := ((n1 =? 3) && (negb (n4 =? 24) || (n100 =? 3)))%bool in
    let month := Z.shiftr (n + 50) 5 in
    let preceding :=
      days_before_month_common month
      + (if ((2 <? month) && leapyear)%bool then 1 else 0) in
    if n <? preceding then
      let month := month - 1 in
      let preceding :=
        preceding
        - (days_in_month 1 month + (if ((month =? 2) && leapyear)%bool then 1 else 0)) in
      (year, month, n - preceding + 1)
    else (year, month, n - preceding + 1).

(** *** Formatting and parsing with ["%Y-%m-%d"] *)

Definition digit_char (d : Z) : ascii := ascii_of_nat (48 + Z.to_nat d).

Definition pad2 (n : Z) : string :=
  String (digit_char (n / 10 mod 10)) (String (digit_char (n mod 10)) EmptyString).

Definition pad4 (n : Z) : string :=
  String (digit_char (n / 1000 mod 10)) (String (digit_char (n / 100 mod 10)) (pad2 n)).

(** [dt.strftime("%Y-%m-%d")], the year on four digits.  The library leaves
    the year to the C library: from the year 1000 on every C library
    writes its four digits; for an earlier year some pad it with zeros and
    glibc writes the digits it has (["874-02-05"]).  The program formats
    the day of the clock, and the bounds of a weekly summary, which lie
    before the year 1000 only for a week more than a thousand years
    back. *)
Definition strftime (dt : datetime) : string :=
  let '(y, m, d) := ord2ymd (ordinal dt) in
  (pad4 y ++ String "-" (pad2 m ++ String "-" (pad2 d)))%string.

Definition digit (c : ascii) : option Z :=
  let n := Z.of_nat (nat_of_ascii c) in
  if ((48 <=? n) && (n <=? 57))%bool then Some (n - 48) else None.

(** The month field: ["10".."12"], ["01".."09"] or ["1".."9"]. *)
Definition parse_month (cs : list ascii) : option Z :=
  match cs with
  | [c] => d ← digit c; if 1 <=? d then Some d else None
  | [c1; c2] =>
      d1 ← digit c1; d2 ← digit c2;
      let m := 10 * d1 + d2 in
      if ((1 <=? m) && (m <=? 12))%bool then Some m else None
  | _ => None
  end.

(** The day field: ["01".."31"], ["1".."9"] or a blank and ["1".."9"]. *)
Definition parse_day (cs : list ascii) : option Z :=
  match cs with
  | [c] => d ← digit c; if 1 <=? d then Some d else None
  | [c1; c2] =>
      if Ascii.eqb c1 " " then d ← digit c2; if 1 <=? d then Some d else None
      else
        d1 ← digit c1; d2 ← digit c2;
        let d := 10 * d1 + d2 in
        if ((1 <=? d) && (d <=? 31))%bool then Some d else None
  | _ => None
  end.

(** The three fields of a text that matches the format: four digits, a
    dash, the month, a dash, the day, and nothing after it. *)
Definition parse_fields (s : string) : option (Z * Z * Z) :=
  match list_ascii_of_string s with
  | y1 :: y2 :: y3 :: y4 :: dash :: rest =>
      a ← digit y1; b ← digit y2; c ← digit y3; d ← digit y4;
      if negb (Ascii.eqb dash "-") then None
      else
        let year := 1000 * a + 100 * b + 10 * c + d in
        match rest with
        | m1 :: dash' :: rest' =>
            if Ascii.eqb dash' "-" then
              month ← parse_month [m1]; day ← parse_day rest'; Some (year, month, day)
            else
              match rest' with
              | dash'' :: rest'' =>
                  if Ascii.eqb dash'' "-" then
                    month ← parse_month [m1; dash']; day ← parse_day rest'';
                    Some (year, month, day)
                  else None
              | [] => None
              end
        | _ => None
        end
  | _ => None
  end.

(** [datetime.strptime(v, "%Y-%m-%d")]: midnight of the day the text
    names.  A text that does not match, year 0 and a day the month does not
    have are a [ValueError]; anything but a string is a [TypeError]. *)
Definition strptime (v : value) : result datetime :=
  match v with
  | VStr s =>
      match parse_fields s with
      | Some (year, month, day) =>
          if ((1 <=? year) && (day <=? days_in_month year month))%bool
          then Ok {| ordinal := ymd2ord year month day; usec := 0 |}
          else Raise ValueError
      | None => Raise ValueError
      end
  | _ => Raise TypeError
  end.

(** A date-time written out by its calendar fields. *)
Definition at_time (year month day hour minute second : Z) : datetime :=
  {| ordinal := ymd2ord year month day;
     usec := ((hour * 60 + minute) * 60 + second) * 1000000 |}.

End Datetime.

(** ** The activity record *)

Module FitnessActivity.
Import Py Datetime.

Record t := mk {
  activity_type : value;
  duration : value;
  calories : value;
  distance : value;
  notes : value;
  date : value
}.

(** The constructor.  [now] is what [datetime.datetime.now()] returns
    should the constructor ask for it; an omitted argument is [VNone]. *)
Definition __init__ (now : datetime)
    (activity_type duration calories date distance notes : value) : t :=
  {| activity_type := activity_type;
     duration := duration;
     calories := calories;
     distance := distance;
     notes := notes;
     date := if truthy date then date else VStr (strftime now) |}.

Definition to_dict (self : t) : value :=
  VDict (list_to_map
    [("activity_type"%string, activity_type self);
     ("duration"%string, duration self);
     ("calories"%string, calories self);
     ("distance"%string, distance self);
     ("date"%string, date self);
     ("notes"%string, notes self)]).

Definition from_dict (now : datetime) (data : value) : result t :=
  activity_type ← subscript data "activity_type";
  duration ← subscript data "duration";
  calories ← subscript data "calories";
  distance ← dict_get data "distance";
  date ← dict_get data "date";
  notes ← dict_get data "notes";
  Ok (__init__ now activity_type duration calories date distance notes).

End FitnessActivity.

(** ** The store *)

Module FitnessTracker.
Import Py Datetime.

Record t := { data_file : string; activities : list FitnessActivity.t }.

(** What a file holds: the JSON document its text denotes, or text that is
    no JSON document.  [json.dump] writes the document of a value and
    [json.load] reads it back; the text in between is not modelled. *)
Inductive content :=
| Document (v : value)
| Garbage.

(** Everything a method can read or change: the tracker object itself, the
    files by path, and the clock. *)
Record world := {
  self : t;
  files : gmap string content;
  clock : datetime
}.

(** A method runs from a world to a result or an exception, and the world
    it leaves behind. *)
Definition M (A : Type) : Type := world -> result A * world.

Definition M_ret {A} (a : A) : M A := fun w => (Ok a, w).

Definition M_bind {A B} (f : A -> M B) (m : M A) : M B :=
  fun w =>
    match m w with
    | (Ok a, w') => f a w'
    | (Raise e, w') => (Raise e, w')
    end.

#[global] Instance M_mret : MRet M := @M_ret.
#[global] Instance M_mbind : MBind M := @M_bind.

(** An expression without effect on the world, which may still raise. *)
Definition eval {A} (r : result A) : M A := fun w => (r, w).

Definition get_self : M t := fun w => (Ok (self w), w).

Definition get_activities : M (list FitnessActivity.t) :=
  fun w => (Ok (activities (self w)), w).

Definition set_activities (l : list FitnessActivity.t) : M unit :=
  fun w =>
    (Ok tt,
     {| self := {| data_file := data_file (self w); activities := l |};
        files := files w;
        clock := clock w |}).

Definition now : M datetime := fun w => (Ok (clock w), w).

(** [os.path.exists(path)] *)
Definition path_exists (path : string) : M bool :=
  fun w => (Ok (bool_decide (is_Some (files w !! path))), w).

(** [with open(path, 'w') as f: json.dump(v, f)].  Opening a file for
    writing and writing to it are taken to succeed. *)
Definition write_json (path : string) (v : value) : M unit :=
  fun w =>
    (Ok tt,
     {| self := self w; files := <[path := Document v]> (files w); clock := clock w |}).

(** [with open(path, 'r') as f: json.load(f)] *)
Definition read_json (path : string) : M value :=
  fun w =>
    match files w !! path with
    | Some (Document v) => (Ok v, w)
    | Some Garbage => (Raise JSONDecodeError, w)
    | None => (Raise FileNotFoundError, w)
    end.

(** A list comprehension [[x for x in items if cond(x)]] whose condition
    may raise. *)
Fixpoint select {A} (cond : A -> result bool) (items : list A) : result (list A) :=
  match items with
  | [] => Ok []
  | x :: rest =>
      keep ← cond x;
      kept ← select cond rest;
      Ok (if keep : bool then x :: kept else kept)
  end.

(** A list comprehension [[f(x) for x in items]] whose body may raise. *)
Fixpoint collect {A B} (f : A -> result B) (items : list A) : result (list B) :=
  match items with
  | [] => Ok []
  | x :: rest => y ← f x; ys ← collect f rest; Ok (y :: ys)
  end.

Definition save_data : M unit :=
  this ← get_self;
  write_json (data_file this)
    (VList (map FitnessActivity.to_dict (activities this))).

(** The clock is read once: it does not advance while the records of one
    file are rebuilt. *)
Definition load_data : M unit :=
  this ← get_self;
  found ← path_exists (data_file this);
  if found : bool then
    data ← read_json (data_file this);
    today ← now;
    loaded ← eval (items ← iterate data; collect (FitnessActivity.from_dict today) items);
    set_activities loaded
  else mret tt.

(** The constructor: run on a fresh object with the given path. *)
Definition __init__ (data_file : string) : M unit :=
  fun w =>
    load_data
      {| self := {| data_file := data_file; activities := [] |};
         files := files w;
         clock := clock w |}.

Definition add_activity (activity : FitnessActivity.t) : M unit :=
  acts ← get_activities;
  set_activities (acts ++ [activity]);;
  save_data.

Definition delete_activity (index : Z) : M bool :=
  acts ← get_activities;
  if ((0 <=? index) && (index <? Z.of_nat (length acts)))%bool then
    set_activities (delete (Z.to_nat index) acts);;
    save_data;;
    mret true
  else mret false.

Definition get_activities_by_date (date : string) : M (list FitnessActivity.t) :=
  acts ← get_activities;
  mret (List.filter (fun activity => eq_str (FitnessActivity.date activity) date) acts).

(** The condition of the comprehension in [get_activities_by_type]. *)
Definition type_matches (activity_type : string) (activity : FitnessActivity.t)
    : result bool :=
  lowered ← str_lower (FitnessActivity.activity_type activity);
  Ok (String.eqb lowered (lower activity_type)).

Definition get_activities_by_type (activity_type : string)
    : M (list FitnessActivity.t) :=
  acts ← get_activities;
  eval (select (type_matches activity_type) acts).

Definition get_total_calories : M value :=
  acts ← get_activities;
  eval (sum (map FitnessActivity.calories acts)).

Definition get_total_duration : M value :=
  acts ← get_activities;
  eval (sum (map FitnessActivity.duration acts)).

(** The condition of the comprehension in [get_weekly_summary]: the date is
    parsed once, and compared with [end_date] only if [start_date] is not
    after it. *)
Definition in_week (start_date end_date : datetime) (activity : FitnessActivity.t)
    : result bool :=
  d ← strptime (FitnessActivity.date activity);
  Ok (if Datetime.le start_date d then Datetime.le d end_date else false).

(** The dictionary [get_weekly_summary] returns, by its keys. *)
Record summary := {
  start_date : string;
  end_date : string;
  total_calories : value;
  total_duration : value;
  activity_count : Z
}.

(** The two bounds of the week [weeks_ago] weeks before [today]. *)
Definition week_bounds (today : datetime) (weeks_ago : Z) : result (datetime * datetime) :=
  weeks ← timedelta_weeks weeks_ago;
  end_date ← Datetime.sub today weeks;
  seven ← timedelta_days 7;
  start_date ← Datetime.sub end_date seven;
  Ok (start_date, end_date).

Definition get_weekly_summary (weeks_ago : Z) : M summary :=
  today ← now;
  '(start_date, end_date) ← eval (week_bounds today weeks_ago);
  acts ← get_activities;
  weekly_activities ← eval (select (in_week start_date end_date) acts);
  total_calories ← eval (sum (map FitnessActivity.calories weekly_activities));
  total_duration ← eval (sum (map FitnessActivity.duration weekly_activities));
  mret {| start_date := strftime start_date;
          end_date := strftime end_date;
          total_calories := total_calories;
          total_duration := total_duration;
          activity_count := Z.of_nat (length weekly_activities) |}.

End FitnessTracker.

(** ** The console: printing the store, and the menu loop *)

Module Console.
Import Py Datetime.

(** What [print] is given: literal text, and values that an f-string
    formats with [str].  How [str] spells a number is not modelled, so a
    formatted value stays a value. *)
Inductive piece :=
| Text (s : string)
| Shown (v : value).

(** What reaches the terminal: the lines of [print], and the prompts of
    [input]. *)
Inductive output :=
| Printed (text : list piece)
| Prompted (text : string).

(** How a program ends early: with an exception nobody catches, or with
    the [EOFError] of [input] when there is no more input. *)
Inductive failure :=
| Uncaught (e : exn)
| EOFError.

Inductive outcome (A : Type) :=
| Returned (a : A)
| Failed (f : failure).
Arguments Returned {A} a.
Arguments Failed {A} f.

(** The world of the tracker, the lines still to be typed, and what has
    been written so far. *)
Record process := {
  world : FitnessTracker.world;
  stdin : list string;
  stdout : list output
}.

Definition IO (A : Type) : Type := process -> outcome A * process.

Definition IO_ret {A} (a : A) : IO A := fun p => (Returned a, p).

Definition IO_bind {A B} (f : A -> IO B) (m : IO A) : IO B :=
  fun p =>
    match m p with
    | (Returned a, p') => f a p'
    | (Failed e, p') => (Failed e, p')
    end.

#[global] Instance IO_mret : MRet IO := @IO_ret.
#[global] Instance IO_mbind : MBind IO := @IO_bind.

Definition fail {A} (f : failure) : IO A := fun p => (Failed f, p).

(** [print(text)] *)
Definition print (text : list piece) : IO unit :=
  fun p =>
    (Returned tt,
     {| world := world p; stdin := stdin p; stdout := stdout p ++ [Printed text] |}).

(** [input(prompt)]: the prompt is written, then a line is read. *)
Definition input (prompt : string) : IO string :=
  fun p =>
    let written := stdout p ++ [Prompted prompt] in
    match stdin p with
    | line :: rest => (Returned line, {| world := world p; stdin := rest; stdout := written |})
    | [] => (Failed EOFError, {| world := world p; stdin := []; stdout := written |})
    end.

(** A method of the tracker, called from the console. *)
Definition call {A} (m : FitnessTracker.M A) : IO A :=
  fun p =>
    let '(r, w) := m (world p) in
    (match r with Ok a => Returned a | Raise e => Failed (Uncaught e) end,
     {| world := w; stdin := stdin p; stdout := stdout p |}).

Definition newline : string := String (ascii_of_nat 10) EmptyString.

(** [s * n] *)
Fixpoint times (s : string) (n : nat) : string :=
  match n with
  | O => EmptyString
  | S n' => (s ++ times s n')%string
  end.

Definition rule : string := times "-" 50.

(** The body of the loop of [display_all_activities], from number [i]. *)
Fixpoint display_from (i : Z) (activities : list FitnessActivity.t) : IO unit :=
  match activities with
  | [] => mret tt
  | activity :: rest =>
      print [Shown (VInt i); Text ". "; Shown (FitnessActivity.date activity);
             Text " - "; Shown (FitnessActivity.activity_type activity)];;
      print [Text "   Duration: "; Shown (FitnessActivity.duration activity);
             Text " min | Calories: "; Shown (FitnessActivity.calories activity)];;
      (if truthy (FitnessActivity.distance activity)
       then print [Text "   Distance: "; Shown (FitnessActivity.distance activity); Text " km"]
       else mret tt);;
      (if truthy (FitnessActivity.notes activity)
       then print [Text "   Notes: "; Shown (FitnessActivity.notes activity)]
       else mret tt);;
      print [Text rule];;
      display_from (i + 1) rest
  end.

Definition display_all_activities : IO unit :=
  print [Text newline; Text "All Fitness Activities:"];;
  print [Text rule];;
  activities ← call FitnessTracker.get_activities;
  display_from 1 activities.

(** The loops of choices 3 and 4 over what a query found. *)
Fixpoint list_by_date (i : Z) (activities : list FitnessActivity.t) : IO unit :=
  match activities with
  | [] => mret tt
  | activity :: rest =>
      print [Shown (VInt i); Text ". "; Shown (FitnessActivity.activity_type activity);
             Text " - "; Shown (FitnessActivity.duration activity); Text " min, ";
             Shown (FitnessActivity.calories activity); Text " cal"];;
      list_by_date (i + 1) rest
  end.

Fixpoint list_by_type (i : Z) (activities : list FitnessActivity.t) : IO unit :=
  match activities with
  | [] => mret tt
  | activity :: rest =>
      print [Shown (VInt i); Text ". "; Shown (FitnessActivity.date activity);
             Text " - "; Shown (FitnessActivity.duration activity); Text " min, ";
             Shown (FitnessActivity.calories activity); Text " cal"];;
      list_by_type (i + 1) rest
  end.

Section Menu.

(** [float(s)] and [int(s)] for a line that was typed: the number it
    spells, or nothing where Python raises [ValueError]. *)
Variable to_float : string -> option float.
Variable to_int : string -> option Z.

Definition float_of (s : string) : IO float :=
  match to_float s with
  | Some x => mret x
  | None => fail (Uncaught ValueError)
  end.

Definition int_of (s : string) : IO Z :=
  match to_int s with
  | Some n => mret n
  | None => fail (Uncaught ValueError)
  end.

Definition print_menu : IO unit :=
  print [Text newline; Text "Fitness Tracker Menu:"];;
  print [Text "1. Add new activity"];;
  print [Text "2. View all activities"];;
  print [Text "3. View activities by date"];;
  print [Text "4. View activities by type"];;
  print [Text "5. View weekly summary"];;
  print [Text "6. Delete an activity"];;
  print [Text "7. View total statistics"];;
  print [Text "8. Exit"].

Definition choice_add : IO unit :=
  print [Text newline; Text "Add New Activity"];;
  activity_type ← input "Activity type (e.g., Running, Swimming): ";
  duration_line ← input "Duration (minutes): ";
  duration ← float_of duration_line;
  calories_line ← input "Calories burned: ";
  calories ← float_of calories_line;
  distance ← input "Distance (km, optional - press enter to skip): ";
  notes ← input "Notes (optional - press enter to skip): ";
  distance_value ←
    (if String.eqb distance "" then mret VNone
     else x ← float_of distance; mret (VFloat x));
  today ← call FitnessTracker.now;
  call (FitnessTracker.add_activity
          (FitnessActivity.__init__ today
             (VStr activity_type) (VFloat duration) (VFloat calories) VNone
             distance_value
             (if String.eqb notes "" then VNone else VStr notes)));;
  print [Text "Activity added successfully!"].

Definition choice_by_date : IO unit :=
  date ← input "Enter date (YYYY-MM-DD): ";
  activities ← call (FitnessTracker.get_activities_by_date date);
  match activities with
  | _ :: _ =>
      print [Text newline; Text "Activities on "; Text date; Text ":"];;
      list_by_date 1 activities
  | [] => print [Text "No activities found for this date."]
  end.

Definition choice_by_type : IO unit :=
  activity_type ← input "Enter activity type: ";
  activities ← call (FitnessTracker.get_activities_by_type activity_type);
  match activities with
  | _ :: _ =>
      print [Text newline; Text "All "; Text activity_type; Text " activities:"];;
      list_by_type 1 activities
  | [] => print [Text "No "; Text activity_type; Text " activities found."]
  end.

Definition choice_week : IO unit :=
  line ← input "Enter how many weeks ago (0 for current week): ";
  weeks_ago ← int_of line;
  summary ← call (FitnessTracker.get_weekly_summary weeks_ago);
  print [Text newline; Text "Weekly Summary (";
         Text (FitnessTracker.start_date summary); Text " to ";
         Text (FitnessTracker.end_date summary); Text "):"];;
  print [Text "Total Activities: "; Shown (VInt (FitnessTracker.activity_count summary))];;
  print [Text "Total Duration: "; Shown (FitnessTracker.total_duration summary);
         Text " minutes"];;
  print [Text "Total Calories Burned: "; Shown (FitnessTracker.total_calories summary)].

Definition choice_delete : IO unit :=
  display_all_activities;;
  activities ← call FitnessTracker.get_activities;
  match activities with
  | _ :: _ =>
      line ← input "Enter activity number to delete: ";
      number ← int_of line;
      deleted ← call (FitnessTracker.delete_activity (number - 1));
      if deleted : bool
      then print [Text "Activity deleted successfully!"]
      else print [Text "Invalid activity number."]
  | [] => mret tt
  end.

Definition choice_totals : IO unit :=
  print [Text newline; Text "Total Statistics:"];;
  activities ← call FitnessTracker.get_activities;
  print [Text "Total Activities: "; Shown (VInt (Z.of_nat (length activities)))];;
  minutes ← call FitnessTracker.get_total_duration;
  print [Text "Total Duration: "; Shown minutes; Text " minutes"];;
  calories ← call FitnessTracker.get_total_calories;
  print [Text "Total Calories Burned: "; Shown calories].

(** One turn of the loop of [main]: [false] when the loop is left. *)
Definition menu_turn : IO bool :=
  print_menu;;
  choice ← input "Enter your choice (1-8): ";
  if String.eqb choice "1" then choice_add;; mret true
  else if String.eqb choice "2" then display_all_activities;; mret true
  else if String.eqb choice "3" then choice_by_date;; mret true
  else if String.eqb choice "4" then choice_by_type;; mret true
  else if String.eqb choice "5" then choice_week;; mret true
  else if String.eqb choice "6" then choice_delete;; mret true
  else if String.eqb choice "7" then choice_totals;; mret true
  else if String.eqb choice "8" then
    print [Text "Exiting Fitness Tracker. Goodbye!"];; mret false
  else
    print [Text "Invalid choice. Please enter a number between 1 and 8."];; mret true.

(** [while True] for at most [turns] turns: [true] when the loop was left
    by [break], [false] when the turns ran out first. *)
Fixpoint menu_loop (turns : nat) : IO bool :=
  match turns with
  | O => mret false
  | S turns' =>
      again ← menu_turn;
      if again : bool then menu_loop turns' else mret true
  end.

(** Every turn reads a line, so one turn more than there are lines to
    read is as good as [while True]. *)
Definition menu_forever : IO bool :=
  fun p => menu_loop (S (length (stdin p))) p.

(** [main()] *)
Definition main : IO bool :=
  call (FitnessTracker.__init__ "fitness_data.json");;
  menu_forever.

End Menu.

End Console.

(** ** Vocabulary of the statements *)

Import Py Datetime.

(** The constructor never leaves the date of an activity unset. *)
Definition date_is_set (a : FitnessActivity.t) : Prop :=
  truthy (FitnessActivity.date a) = true.

(** The annotation [activity_type: str]. *)
Definition type_is_str (a : FitnessActivity.t) : Prop :=
  exists s, FitnessActivity.activity_type a = VStr s.

(** The data-model invariant: the date parses as [YYYY-MM-DD]. *)
Definition date_parses (a : FitnessActivity.t) : Prop :=
  is_Ok (strptime (FitnessActivity.date a)).

(** Case-insensitive equality of a stored type and a query. *)
Definition same_type (activity_type : string) (a : FitnessActivity.t) : bool :=
  match FitnessActivity.activity_type a with
  | VStr s => String.eqb (lower s) (lower activity_type)
  | _ => false
  end.




(** The activity's day, at midnight, lies between the two bounds. *)
Definition within (start_date end_date : datetime) (a : FitnessActivity.t) : bool :=
  match strptime (FitnessActivity.date a) with
  | Ok d => (Datetime.le start_date d && Datetime.le d end_date)%bool
  | Raise _ => false
  end.

(** The same world at another reading of the clock. *)
Definition at_clock (c : datetime) (w : FitnessTracker.world) : FitnessTracker.world :=
  {| FitnessTracker.self := FitnessTracker.self w;
     FitnessTracker.files := FitnessTracker.files w;
     FitnessTracker.clock := c |}.

(** A method that leaves the world as it found it, whatever it returns. *)
Definition read_only {A} (m : FitnessTracker.M A) : Prop :=
  forall w, snd (m w) = w.

(** The keys [from_dict] subscripts. *)
Definition required_keys : list string :=
  ["activity_type"; "duration"; "calories"]%string.

Definition lacks_required (d : gmap string value) : Prop :=
  exists key, key ∈ required_keys /\ d !! key = None.

(** The annotations [duration: float] and [calories: float]. *)
Definition amounts_are_float (a : FitnessActivity.t) : Prop :=
  exists c d, FitnessActivity.calories a = VFloat c /\ FitnessActivity.duration a = VFloat d.

(** ** A sample store *)

(** Monday 8 January 2024, at noon and at midnight. *)
Definition noon : datetime := at_time 2024 1 8 12 0 0.
Definition midnight : datetime := at_time 2024 1 8 0 0 0.

(** A run seven days before that Monday, a swim eight days before it, and
    a run on the day. *)
Definition run_day7 : FitnessActivity.t :=
  FitnessActivity.__init__ noon
    (VStr "Running") (VFloat 30) (VFloat 300) (VStr "2024-01-01") VNone VNone.

Definition swim_day8 : FitnessActivity.t :=
  FitnessActivity.__init__ noon
    (VStr "SWIMMING") (VFloat 45) (VFloat 400) (VStr "2023-12-31") VNone (VStr "pool").

Definition run_today : FitnessActivity.t :=
  FitnessActivity.__init__ noon
    (VStr "running") (VFloat 20) (VFloat 250) VNone (VFloat 5) VNone.

Definition sample_at (clock : datetime) : FitnessTracker.world :=
  {| FitnessTracker.self :=
       {| FitnessTracker.data_file := "fitness_data.json";
          FitnessTracker.activities := [run_day7; swim_day8; run_today] |};
     FitnessTracker.files := ∅;
     FitnessTracker.clock := clock |}.




(** A record without [calories], and a file that holds it after a sound
    record. *)
Definition no_calories : gmap string value :=
  list_to_map [("activity_type"%string, VStr "Running"); ("duration"%string, VFloat 30)].

Definition broken_file : FitnessTracker.world :=
  {| FitnessTracker.self :=
       {| FitnessTracker.data_file := "fitness_data.json";
          FitnessTracker.activities := [] |};
     FitnessTracker.files :=
       {[ "fitness_data.json"%string :=
            FitnessTracker.Document
              (VList [FitnessActivity.to_dict run_day7; VDict no_calories]) ]};
     FitnessTracker.clock := noon |}.

(** A tracker that has just been created where no file exists, and a
    short session with it: one activity is added, the total duration and
    the activities of its day are asked for, and position 0 is deleted
    twice. *)
Definition fresh_store : FitnessTracker.world :=
  {| FitnessTracker.self :=
       {| FitnessTracker.data_file := "fitness_data.json";
          FitnessTracker.activities := [] |};
     FitnessTracker.files := ∅;
     FitnessTracker.clock := noon |}.

Definition session : FitnessTracker.M (value * nat * bool * bool * nat) :=
  FitnessTracker.__init__ "fitness_data.json";;
  FitnessTracker.add_activity
    (FitnessActivity.__init__ noon
       (VStr "Running") (VInt 30) (VInt 300) (VStr "2024-01-01") VNone VNone);;
  minutes ← FitnessTracker.get_total_duration;
  that_day ← FitnessTracker.get_activities_by_date "2024-01-01";
  first ← FitnessTracker.delete_activity 0;
  left ← FitnessTracker.get_activities;
  second ← FitnessTracker.delete_activity 0;
  mret (minutes, length that_day, first, second, length left).

(** ** Further vocabulary *)

(** The six keys of a stored record. *)
Definition known_keys : list string :=
  ["activity_type"; "duration"; "calories"; "distance"; "date"; "notes"]%string.

(** The file of the tracker holds the sequence that is in memory. *)
Definition mirrored (w : FitnessTracker.world) : Prop :=
  FitnessTracker.files w !! FitnessTracker.data_file (FitnessTracker.self w)
  = Some (FitnessTracker.Document
            (VList (map FitnessActivity.to_dict
                      (FitnessTracker.activities (FitnessTracker.self w))))).

(** The activity's date is the string asked for. *)
Definition dated (date : string) (a : FitnessActivity.t) : bool :=
  match FitnessActivity.date a with
  | VStr s => String.eqb s date
  | _ => false
  end.

(** A value that [sum] can add: an [int], a [bool] or a [float]. *)
Definition is_number (v : value) : Prop := exists a, as_number v = Some a.

(** The month and the day of the month of day [n] of a year (counted from
    0), as [ord2ymd] finds them once the year is known. *)
Definition month_day (leapyear : bool) (n : Z) : Z * Z :=
  let month := Z.shiftr (n + 50) 5 in
  let preceding :=
    days_before_month_common month
    + (if ((2 <? month) && leapyear)%bool then 1 else 0) in
  if n <? preceding then
    let month := month - 1 in
    let preceding :=
      preceding
      - (days_in_month 1 month + (if ((month =? 2) && leapyear)%bool then 1 else 0)) in
    (month, n - preceding + 1)
  else (month, n - preceding + 1).

Definition month_length (leapyear : bool) (m : Z) : Z :=
  if m =? 2 then (if leapyear then 29 else 28)
  else if ((m =? 4) || (m =? 6) || (m =? 9) || (m =? 11))%bool then 30
  else 31.

(** [month_day] names a day that exists and that is day [n]. *)
Definition month_day_ok (leapyear : bool) (n : Z) : bool :=
  let '(m, d) := month_day leapyear n in
  ((1 <=? m) && (m <=? 12) && (1 <=? d) && (d <=? month_length leapyear m)
   && (days_before_month_common m
       + (if ((2 <? m) && leapyear)%bool then 1 else 0) + d =? n + 1))%bool.

(** Whether the weekly summary for [weeks_ago], asked for at [today],
    counts an activity: the bounds of [get_weekly_summary] and the
    condition of its comprehension, for one activity. *)
Definition counted_in_week (today : datetime) (weeks_ago : Z) (a : FitnessActivity.t)
    : result bool :=
  '(start_date, end_date) ← FitnessTracker.week_bounds today weeks_ago;
  FitnessTracker.in_week start_date end_date a.

(** ** More samples *)

(** A tracker on [fitness_data.json] with the given sequence in memory and
    the given content of the file, if there is one. *)
Definition tracker_with (acts : list FitnessActivity.t)
    (file : option FitnessTracker.content) (clock : datetime) : FitnessTracker.world :=
  {| FitnessTracker.self :=
       {| FitnessTracker.data_file := "fitness_data.json";
          FitnessTracker.activities := acts |};
     FitnessTracker.files :=
       match file with
       | Some c => {[ "fitness_data.json"%string := c ]}
       | None => ∅
       end;
     FitnessTracker.clock := clock |}.

(** A record as another program might have written it: the three required
    keys, no date, and a key of its own. *)
Definition foreign_record : gmap string value :=
  list_to_map
    [("activity_type"%string, VStr "Rowing"); ("duration"%string, VInt 25);
     ("calories"%string, VInt 180); ("heart_rate"%string, VInt 140)].

Definition foreign_file : FitnessTracker.world :=
  tracker_with []
    (Some (FitnessTracker.Document
             (VList [FitnessActivity.to_dict run_day7; VDict foreign_record])))
    noon.

(** Amounts in whole numbers, an amount that is missing, and a date in
    words. *)
Definition walk (calories : Z) : FitnessActivity.t :=
  FitnessActivity.__init__ noon
    (VStr "Walking") (VInt 30) (VInt calories) (VStr "2024-01-05") VNone VNone.

Definition no_amount : FitnessActivity.t :=
  FitnessActivity.__init__ noon
    (VStr "Yoga") (VInt 60) VNone (VStr "2024-01-06") VNone VNone.

Definition dated_in_words : FitnessActivity.t :=
  FitnessActivity.__init__ noon
    (VStr "Running") (VFloat 30) (VFloat 300) (VStr "yesterday") VNone VNone.

(** ** Vocabulary of the console *)

(** The lines [display_all_activities] writes for the activity numbered
    [i]. *)
Definition display_block (i : Z) (a : FitnessActivity.t) : list Console.output :=
  [Console.Printed
     [Console.Shown (VInt i); Console.Text ". "; Console.Shown (FitnessActivity.date a);
      Console.Text " - "; Console.Shown (FitnessActivity.activity_type a)];
   Console.Printed
     [Console.Text "   Duration: "; Console.Shown (FitnessActivity.duration a);
      Console.Text " min | Calories: "; Console.Shown (FitnessActivity.calories a)]]
  ++ (if truthy (FitnessActivity.distance a)
      then [Console.Printed
              [Console.Text "   Distance: "; Console.Shown (FitnessActivity.distance a);
               Console.Text " km"]]
      else [])
  ++ (if truthy (FitnessActivity.notes a)
      then [Console.Printed
              [Console.Text "   Notes: "; Console.Shown (FitnessActivity.notes a)]]
      else [])
  ++ [Console.Printed [Console.Text Console.rule]].

Fixpoint display_lines (i : Z) (acts : list FitnessActivity.t) : list Console.output :=
  match acts with
  | [] => []
  | a :: rest => display_block i a ++ display_lines (i + 1) rest
  end.

Definition display_heading : list Console.output :=
  [Console.Printed [Console.Text Console.newline; Console.Text "All Fitness Activities:"];
   Console.Printed [Console.Text Console.rule]].

Definition activities_of (p : Console.process) : list FitnessActivity.t :=
  FitnessTracker.activities (FitnessTracker.self (Console.world p)).

(** An activity as choice 1 of the menu records it: a string for the type,
    floats for the amounts, a date that parses. *)
Definition menu_made (a : FitnessActivity.t) : Prop :=
  type_is_str a /\ amounts_are_float a /\ date_parses a.

(** A process whose clock is a date-time and whose store the menu could
    have built. *)
Definition sound (p : Console.process) : Prop :=
  valid (FitnessTracker.clock (Console.world p)) /\ Forall menu_made (activities_of p).

(** The ways a turn of the menu ends early that sound data cannot
    prevent: no more input, a line that is no number, a week outside the
    calendar. *)
Definition expected (f : Console.failure) : Prop :=
  f = Console.EOFError
  \/ f = Console.Uncaught ValueError
  \/ f = Console.Uncaught OverflowError.

(** A command that keeps a sound process sound, fails only in an expected
    way, and reads input without ever putting any back. *)
Definition keeps {A} (m : Console.IO A) : Prop :=
  forall p, sound p ->
    sound (snd (m p))
    /\ (length (Console.stdin (snd (m p))) <= length (Console.stdin p))%nat
    /\ (forall f, fst (m p) = Console.Failed f -> expected f).

(** A command that, whatever the store holds, only consumes input. *)
Definition reads {A} (m : Console.IO A) : Prop :=
  forall p, (length (Console.stdin (snd (m p))) <= length (Console.stdin p))%nat.

(** A command that leaves the tracker, the files and the clock alone. *)
Definition quiet {A} (m : Console.IO A) : Prop :=
  forall p, Console.world (snd (m p)) = Console.world p.

(** A reading of typed numbers that is enough for the samples: unsigned
    decimal digits. *)
Fixpoint digits_value (acc : Z) (cs : list ascii) : option Z :=
  match cs with
  | [] => Some acc
  | c :: rest => d ← digit c; digits_value (10 * acc + d) rest
  end.

Definition sample_int (s : string) : option Z :=
  match list_ascii_of_string s with
  | [] => None
  | cs => digits_value 0 cs
  end.

Definition sample_float (s : string) : option float :=
  n ← sample_int s; Some (SF2Prim (binary_normalize 53 1024 n 0 false)).

(** A console session on the sample store. *)
Definition typing (lines : list string) (w : FitnessTracker.world) : Console.process :=
  {| Console.world := w; Console.stdin := lines; Console.stdout := [] |}.

(** What a turn of the menu has written when the choice has been read,
    and the process at that point. *)
Definition menu_lines : list Console.output :=
  [Console.Printed [Console.Text Console.newline; Console.Text "Fitness Tracker Menu:"];
   Console.Printed [Console.Text "1. Add new activity"];
   Console.Printed [Console.Text "2. View all activities"];
   Console.Printed [Console.Text "3. View activities by date"];
   Console.Printed [Console.Text "4. View activities by type"];
   Console.Printed [Console.Text "5. View weekly summary"];
   Console.Printed [Console.Text "6. Delete an activity"];
   Console.Printed [Console.Text "7. View total statistics"];
   Console.Printed [Console.Text "8. Exit"];
   Console.Prompted "Enter your choice (1-8): "].

Definition after_choice (p : Console.process) (rest : list string) : Console.process :=
  {| Console.world := Console.world p;
     Console.stdin := rest;
     Console.stdout := Console.stdout p ++ menu_lines |}.

(** A command that does nothing but write. *)
Definition only_writes {A} (m : Console.IO A) : Prop :=
  forall p, exists a out,
    m p = (Console.Returned a,
           {| Console.world := Console.world p;
              Console.stdin := Console.stdin p;
              Console.stdout := Console.stdout p ++ out |}).

(** The file [main] opens is absent, or holds a store the menu wrote. *)
Definition own_file (w : FitnessTracker.world) : Prop :=
  FitnessTracker.files w !! "fitness_data.json"%string = None
  \/ exists acts,
       FitnessTracker.files w !! "fitness_data.json"%string
       = Some (FitnessTracker.Document (VList (map FitnessActivity.to_dict acts)))
       /\ Forall menu_made acts.

(** ** The activity record: construction and the dictionary round trip *)

Section Activity.
Import FitnessActivity.

Lemma strftime_not_empty (dt : datetime) : truthy (VStr (strftime dt)) = true.
Proof.
  unfold strftime. destruct (ord2ymd (ordinal dt)) as [[y m] d]. reflexivity.
Qed.

(** A formatted date has ten characters with the dashes where
    [YYYY-MM-DD] puts them. *)
Lemma strftime_shape (dt : datetime) :
  String.length (strftime dt) = 10%nat
  /\ String.get 4 (strftime dt) = Some "-"%char
  /\ String.get 7 (strftime dt) = Some "-"%char.
Proof.
  unfold strftime. destruct (ord2ymd (ordinal dt)) as [[y m] d].
  repeat split.
Qed.

Lemma init_date_is_set now ty dur cal d dist nt :
  date_is_set (__init__ now ty dur cal d dist nt).
Proof.
  unfold date_is_set, __init__; simpl.
  destruct (truthy d) eqn:E; [exact E | apply strftime_not_empty].
Qed.

Lemma init_date_kept now ty dur cal d dist nt :
  truthy d = true ->
  __init__ now ty dur cal d dist nt = mk ty dur cal dist nt d.
Proof. intros E. unfold __init__. now rewrite E. Qed.

(** Reading back the dictionary of any record whose date is set. *)
Lemma from_dict_to_dict now (a : t) :
  date_is_set a -> from_dict now (to_dict a) = Ok a.
Proof.
  intros Hd. destruct a as [ty dur cal dist nt d].
  unfold date_is_set in Hd; simpl in Hd.
  unfold from_dict, to_dict; simpl.
  change (Ok (__init__ now ty dur cal d dist nt) = Ok (mk ty dur cal dist nt d)).
  now rewrite init_date_kept.
Qed.

(** C2: an activity, however it was constructed, is rebuilt field for field
    from its own dictionary.  The clock at the time of reading back plays
    no part. *)
Theorem from_dict_to_dict_roundtrip :
  forall (now now' : datetime) (activity_type duration calories date distance notes : value),
    let a := __init__ now activity_type duration calories date distance notes in
    from_dict now' (to_dict a) = Ok a.
Proof.
  intros. apply from_dict_to_dict. apply init_date_is_set.
Qed.

(** C8: an empty date string is treated as an omitted date: either way the
    record holds today's date in the form [YYYY-MM-DD], and so does every
    record built from a date that counts as false. *)
Theorem init_empty_date_is_today :
  forall (now : datetime) (activity_type duration calories distance notes : value),
    __init__ now activity_type duration calories (VStr "") distance notes
    = __init__ now activity_type duration calories VNone distance notes
    /\ date (__init__ now activity_type duration calories (VStr "") distance notes)
       = VStr (strftime now)
    /\ date (__init__ now activity_type duration calories (VStr "") distance notes)
       <> VStr ""
    /\ String.length (strftime now) = 10%nat
    /\ forall d, truthy d = false ->
         date (__init__ now activity_type duration calories d distance notes)
         = VStr (strftime now).
Proof.
  intros. repeat split.
  - simpl. intros E. pose proof (strftime_not_empty now) as H.
    rewrite E in H. discriminate.
  - apply strftime_shape.
  - intros d E. unfold __init__; simpl. now rewrite E.
Qed.

End Activity.

(** ** The store: running methods *)

Section Store.
Import FitnessTracker.

(** Unfolds the plumbing of [M] so that a method applied to a world
    computes. *)
Ltac run :=
  unfold mbind, mret, M_mbind, M_mret, M_bind, M_ret, eval,
    get_self, get_activities, set_activities, now, path_exists,
    write_json, read_json; simpl.

Lemma save_data_spec (w : world) :
  save_data w =
  (Ok tt,
   {| self := self w;
      files := <[data_file (self w) :=
                 Document (VList (map FitnessActivity.to_dict (activities (self w))))]>
               (files w);
      clock := clock w |}).
Proof. reflexivity. Qed.

(** *** Deleting by position *)

(** C3: an index below zero or not below the length is answered with
    [False], without an exception, and nothing changes: neither the
    sequence nor the file. *)
Theorem delete_activity_out_of_range :
  forall (w : world) (index : Z),
    index < 0 \/ index >= Z.of_nat (length (activities (self w))) ->
    delete_activity index w = (Ok false, w).
Proof.
  intros w index Hout. unfold delete_activity. run.
  destruct (0 <=? index) eqn:E0; simpl; [|reflexivity].
  destruct (index <? Z.of_nat (length (activities (self w)))) eqn:E1; [|reflexivity].
  apply Z.leb_le in E0. apply Z.ltb_lt in E1. lia.
Qed.

(** C7: deleting at a position [k] inside the sequence answers [True] and
    leaves a sequence one shorter, in which the positions below [k] are as
    before and every position from [k] on holds what was one further up;
    the file is rewritten with exactly that sequence. *)
Theorem delete_activity_shifts :
  forall (w : world) (k : Z),
    0 <= k < Z.of_nat (length (activities (self w))) ->
    exists w',
      delete_activity k w = (Ok true, w')
      /\ Z.of_nat (length (activities (self w')))
         = Z.of_nat (length (activities (self w))) - 1
      /\ activities (self w') !! Z.to_nat k = activities (self w) !! Z.to_nat (k + 1)
      /\ (forall j : nat, Z.of_nat j < k ->
            activities (self w') !! j = activities (self w) !! j)
      /\ (forall j : nat, k <= Z.of_nat j ->
            activities (self w') !! j = activities (self w) !! S j)
      /\ files w' !! data_file (self w') =
         Some (Document (VList (map FitnessActivity.to_dict (activities (self w'))))).
Proof.
  intros w k [Hlo Hhi]. unfold delete_activity. run.
  destruct (Z.leb_spec 0 k); [|lia].
  destruct (Z.ltb_spec k (Z.of_nat (length (activities (self w))))); [|lia].
  simpl. eexists. split; [reflexivity|]. simpl.
  repeat split.
  - rewrite length_delete; [lia|]. apply lookup_lt_is_Some. lia.
  - rewrite list_lookup_delete_ge by lia. f_equal. lia.
  - intros j Hj. apply list_lookup_delete_lt. lia.
  - intros j Hj. apply list_lookup_delete_ge. lia.
  - apply lookup_insert_eq.
Qed.

(** *** Persistence *)

Lemma collect_from_dict_to_dict today (acts : list FitnessActivity.t) :
  Forall date_is_set acts ->
  collect (FitnessActivity.from_dict today) (map FitnessActivity.to_dict acts) = Ok acts.
Proof.
  induction 1 as [|a acts Ha _ IH]; [reflexivity|].
  cbn [map collect]. rewrite from_dict_to_dict by exact Ha.
  cbn [mbind result_mbind result_bind]. now rewrite IH.
Qed.

(** Every activity the constructor made has its date set, and the methods
    of the store keep it so. *)
Lemma from_dict_date_is_set today data a :
  FitnessActivity.from_dict today data = Ok a -> date_is_set a.
Proof.
  unfold FitnessActivity.from_dict.
  destruct (subscript data "activity_type"); [|discriminate].
  destruct (subscript data "duration"); [|discriminate].
  destruct (subscript data "calories"); [|discriminate].
  destruct (dict_get data "distance"); [|discriminate].
  destruct (dict_get data "date"); [|discriminate].
  destruct (dict_get data "notes"); [|discriminate].
  cbn. intros [= <-]. apply init_date_is_set.
Qed.

Lemma collect_from_dict_date_is_set today items :
  forall acts,
    collect (FitnessActivity.from_dict today) items = Ok acts -> Forall date_is_set acts.
Proof.
  induction items as [|item items IH]; intros acts; cbn [collect].
  - intros [= <-]. constructor.
  - destruct (FitnessActivity.from_dict today item) as [a|] eqn:Ea; [|discriminate].
    cbn [mbind result_mbind result_bind].
    destruct (collect _ items) as [rest|]; [|discriminate].
    cbn. intros [= <-]. constructor; eauto using from_dict_date_is_set.
Qed.

(** Loading a file that holds a JSON list: all records or none. *)
Lemma load_data_list (w : world) (items : list value) :
  files w !! data_file (self w) = Some (Document (VList items)) ->
  load_data w =
  match collect (FitnessActivity.from_dict (clock w)) items with
  | Ok acts =>
      (Ok tt,
       {| self := {| data_file := data_file (self w); activities := acts |};
          files := files w;
          clock := clock w |})
  | Raise e => (Raise e, w)
  end.
Proof.
  intros Hfile. unfold load_data. run.
  rewrite bool_decide_eq_true_2 by eauto. simpl.
  rewrite Hfile. unfold result_mbind; simpl.
  now destruct (collect _ items).
Qed.

(** The methods of the store keep every date set. *)
Lemma add_activity_dates_set (w : world) (a : FitnessActivity.t) :
  date_is_set a ->
  Forall date_is_set (activities (self w)) ->
  Forall date_is_set (activities (self (snd (add_activity a w)))).
Proof.
  intros Ha Hw. unfold add_activity. run.
  apply Forall_app. split; [exact Hw | by constructor].
Qed.

Lemma delete_activity_dates_set (w : world) (index : Z) :
  Forall date_is_set (activities (self w)) ->
  Forall date_is_set (activities (self (snd (delete_activity index w)))).
Proof.
  intros Hw. unfold delete_activity. run.
  destruct (_ && _)%bool; simpl; [|exact Hw].
  by apply Forall_delete.
Qed.

Lemma load_data_dates_set (w : world) :
  Forall date_is_set (activities (self w)) ->
  Forall date_is_set (activities (self (snd (load_data w)))).
Proof.
  intros Hw. unfold load_data. run.
  destruct (bool_decide _); simpl; [|exact Hw].
  destruct (files w !! data_file (self w)) as [[v|]|]; simpl; try exact Hw.
  unfold result_mbind, result_bind.
  destruct (iterate v) as [items|]; simpl; [|exact Hw].
  destruct (collect _ items) as [acts|] eqn:E; simpl; [|exact Hw].
  eapply collect_from_dict_date_is_set, E.
Qed.


(** *** Records with a missing field *)

Lemma lacks_required_iff (d : gmap string value) :
  lacks_required d <->
  d !! "activity_type"%string = None
  \/ d !! "duration"%string = None
  \/ d !! "calories"%string = None.
Proof.
  unfold lacks_required, required_keys. split.
  - intros (key & Hin & Hnone). rewrite !elem_of_cons, elem_of_nil in Hin.
    destruct Hin as [->|[->|[->|[]]]]; auto.
  - intros [H|[H|H]]; eexists; (split; [|exact H]); rewrite !elem_of_cons; auto.
Qed.

Lemma from_dict_lacking today (d : gmap string value) :
  lacks_required d ->
  exists key, FitnessActivity.from_dict today (VDict d) = Raise (KeyError key)
              /\ key ∈ required_keys /\ d !! key = None.
Proof.
  intros Hlack. apply lacks_required_iff in Hlack.
  unfold FitnessActivity.from_dict, required_keys; simpl.
  destruct (d !! "activity_type"%string) as [ty|] eqn:E1; simpl.
  2:{ exists "activity_type"%string. rewrite !elem_of_cons. repeat split; auto. }
  destruct (d !! "duration"%string) as [dur|] eqn:E2; simpl.
  2:{ exists "duration"%string. rewrite !elem_of_cons. repeat split; auto. }
  destruct (d !! "calories"%string) as [cal|] eqn:E3; simpl.
  2:{ exists "calories"%string. rewrite !elem_of_cons. repeat split; auto. }
  exfalso. destruct Hlack as [H|[H|H]]; discriminate.
Qed.

Lemma from_dict_complete today (d : gmap string value) ty dur cal :
  d !! "activity_type"%string = Some ty ->
  d !! "duration"%string = Some dur ->
  d !! "calories"%string = Some cal ->
  FitnessActivity.from_dict today (VDict d) =
  Ok (FitnessActivity.__init__ today ty dur cal
        (default VNone (d !! "date"%string))
        (default VNone (d !! "distance"%string))
        (default VNone (d !! "notes"%string))).
Proof.
  intros E1 E2 E3. unfold FitnessActivity.from_dict; simpl.
  now rewrite E1, E2, E3.
Qed.

Lemma lacking_or_complete (d : gmap string value) :
  lacks_required d
  \/ exists ty dur cal,
       d !! "activity_type"%string = Some ty
       /\ d !! "duration"%string = Some dur
       /\ d !! "calories"%string = Some cal.
Proof.
  rewrite lacks_required_iff.
  destruct (d !! "activity_type"%string); [|auto].
  destruct (d !! "duration"%string); [|auto].
  destruct (d !! "calories"%string); [|auto].
  right. by repeat eexists.
Qed.

Lemma not_lacking_complete (d : gmap string value) :
  ~ lacks_required d ->
  exists ty dur cal,
    d !! "activity_type"%string = Some ty
    /\ d !! "duration"%string = Some dur
    /\ d !! "calories"%string = Some cal.
Proof. intros Hall. destruct (lacking_or_complete d); [contradiction | assumption]. Qed.

(** One failing item fails the whole comprehension. *)
Lemma collect_fails {A B} (f : A -> result B) (items : list A) x e :
  x ∈ items -> f x = Raise e -> exists e', collect f items = Raise e'.
Proof.
  intros Hin Hx. induction items as [|y items IH]; [by apply elem_of_nil in Hin|].
  cbn [collect]. destruct (f y) as [b|e1] eqn:Ey; [|by eexists].
  apply elem_of_cons in Hin as [->|Hin]; [congruence|].
  destruct (IH Hin) as [e' ->]. by eexists.
Qed.

(** The exception of the first failing item is the one that comes out. *)
Lemma collect_first_failure {A B} (f : A -> result B) (before after : list A) x ys e :
  collect f before = Ok ys -> f x = Raise e ->
  collect f (before ++ x :: after) = Raise e.
Proof.
  revert ys. induction before as [|y before IH]; intros ys; cbn [collect app].
  - intros _ ->. reflexivity.
  - destruct (f y) as [b|]; [|discriminate]. cbn [mbind result_mbind result_bind].
    destruct (collect f before) as [bs|] eqn:E; [|discriminate].
    intros _ Hx. by rewrite (IH bs).
Qed.

(** C5: rebuilding a record from a dictionary fails, with a [KeyError],
    exactly when [activity_type], [duration] or [calories] is not a key of
    it, and a list in the file with one such record makes the whole
    [load_data] fail, with nothing loaded.  A dictionary with the three keys
    gives a record in which a missing [distance] or [notes] is [None] and a
    missing [date] is today's. *)
Theorem from_dict_missing_field :
  forall (today : datetime) (d : gmap string value),
    ((exists key, FitnessActivity.from_dict today (VDict d) = Raise (KeyError key))
     <-> lacks_required d)
    /\ (forall e, FitnessActivity.from_dict today (VDict d) = Raise e ->
          exists key, e = KeyError key /\ key ∈ required_keys /\ d !! key = None)
    /\ (~ lacks_required d ->
          exists a,
            FitnessActivity.from_dict today (VDict d) = Ok a
            /\ d !! "activity_type"%string = Some (FitnessActivity.activity_type a)
            /\ d !! "duration"%string = Some (FitnessActivity.duration a)
            /\ d !! "calories"%string = Some (FitnessActivity.calories a)
            /\ FitnessActivity.distance a = default VNone (d !! "distance"%string)
            /\ FitnessActivity.notes a = default VNone (d !! "notes"%string)
            /\ FitnessActivity.date a =
                 (if truthy (default VNone (d !! "date"%string))
                  then default VNone (d !! "date"%string)
                  else VStr (strftime today)))
    /\ (forall (w : world) (items : list value),
          files w !! data_file (self w) = Some (Document (VList items)) ->
          VDict d ∈ items ->
          lacks_required d ->
          exists e, load_data w = (Raise e, w))
    /\ (forall (w : world) (before after : list value) acts,
          files w !! data_file (self w)
          = Some (Document (VList (before ++ VDict d :: after))) ->
          collect (FitnessActivity.from_dict (clock w)) before = Ok acts ->
          lacks_required d ->
          exists key,
            key ∈ required_keys /\ d !! key = None
            /\ load_data w = (Raise (KeyError key), w)).
Proof.
  intros today d.
  assert (Hcases : lacks_required d \/ ~ lacks_required d).
  { destruct (lacking_or_complete d) as [|(ty & dur & cal & E1 & E2 & E3)]; [by left|].
    right. rewrite lacks_required_iff. intros [H|[H|H]]; congruence. }
  split; [|split; [|split; [|split]]].
  - split.
    + intros [key Hkey]. destruct Hcases as [|Hall]; [done|].
      destruct (not_lacking_complete d Hall) as (ty & dur & cal & E1 & E2 & E3).
      rewrite (from_dict_complete today d ty dur cal) in Hkey by done. discriminate.
    + intros Hlack. destruct (from_dict_lacking today d Hlack) as (key & -> & _).
      by eexists.
  - intros e He. destruct Hcases as [Hlack|Hall].
    + destruct (from_dict_lacking today d Hlack) as (key & Hkey & Hin & Hnone).
      exists key. rewrite Hkey in He. by injection He as <-.
    + destruct (not_lacking_complete d Hall) as (ty & dur & cal & E1 & E2 & E3).
      rewrite (from_dict_complete today d ty dur cal) in He by done. discriminate.
  - intros Hall.
    destruct (not_lacking_complete d Hall) as (ty & dur & cal & E1 & E2 & E3).
    eexists. split; [by apply from_dict_complete|]. simpl. by repeat split.
  - intros w items Hfile Hin Hlack.
    destruct (from_dict_lacking (clock w) d Hlack) as (key & Hkey & _).
    destruct (collect_fails _ _ _ _ Hin Hkey) as [e' He'].
    exists e'. rewrite (load_data_list w items Hfile). by rewrite He'.
  - intros w before after acts Hfile Hbefore Hlack.
    destruct (from_dict_lacking (clock w) d Hlack) as (key & Hkey & Hin & Hnone).
    exists key. split; [exact Hin|]. split; [exact Hnone|].
    rewrite (load_data_list w _ Hfile).
    by rewrite (collect_first_failure _ before after _ acts _ Hbefore Hkey).
Qed.

End Store.

(** ** The store: queries *)

Section Queries.
Import FitnessTracker.

(** *** List comprehensions *)

(** A condition that never raises selects what the plain filter does. *)
Lemma select_filter {A} (cond : A -> result bool) (p : A -> bool) (items : list A) :
  Forall (fun x => cond x = Ok (p x)) items ->
  select cond items = Ok (List.filter p items).
Proof.
  induction 1 as [|x items Hx _ IH]; [reflexivity|].
  cbn [select List.filter]. rewrite Hx, IH. cbn.
  now destruct (p x).
Qed.


Lemma elem_of_List_filter {A} (p : A -> bool) (l : list A) (x : A) :
  x ∈ List.filter p l <-> x ∈ l /\ p x = true.
Proof. rewrite !list_elem_of_In. apply filter_In. Qed.

Lemma List_filter_sublist {A} (p : A -> bool) (l : list A) :
  List.filter p l `sublist_of` l.
Proof.
  induction l as [|x l IH]; cbn [List.filter]; [constructor|].
  destruct (p x); now constructor.
Qed.

Lemma sublist_lookup {A} (l k : list A) :
  l `sublist_of` k ->
  forall i x, l !! i = Some x -> exists i', (i <= i')%nat /\ k !! i' = Some x.
Proof.
  induction 1 as [|y l k _ IH|y l k _ IH]; intros i x Hi.
  - discriminate.
  - destruct i as [|i]; [exists 0%nat; split; [lia | exact Hi]|].
    destruct (IH i x Hi) as (i' & Hle & Hi'). exists (S i'). split; [lia | exact Hi'].
  - destruct (IH i x Hi) as (i' & Hle & Hi'). exists (S i'). split; [lia | exact Hi'].
Qed.

(** Two elements of a sublist stand in the list in the same order. *)
Lemma sublist_order {A} (l k : list A) :
  l `sublist_of` k ->
  forall i j x y,
    (i < j)%nat -> l !! i = Some x -> l !! j = Some y ->
    exists i' j', (i' < j')%nat /\ k !! i' = Some x /\ k !! j' = Some y.
Proof.
  induction 1 as [|z l k Hsub IH|z l k Hsub IH]; intros i j x y Hij Hi Hj.
  - discriminate.
  - destruct j as [|j]; [lia|]. destruct i as [|i].
    + destruct (sublist_lookup _ _ Hsub j y Hj) as (j' & _ & Hj').
      exists 0%nat, (S j'). repeat split; [lia | exact Hi | exact Hj'].
    + destruct (IH i j x y ltac:(lia) Hi Hj) as (i' & j' & Hlt & Hi' & Hj').
      exists (S i'), (S j'). repeat split; [lia | exact Hi' | exact Hj'].
  - destruct (IH i j x y Hij Hi Hj) as (i' & j' & Hlt & Hi' & Hj').
    exists (S i'), (S j'). repeat split; [lia | exact Hi' | exact Hj'].
Qed.

(** *** Filtering by type *)

Lemma type_matches_same_type activity_type (a : FitnessActivity.t) :
  type_is_str a -> type_matches activity_type a = Ok (same_type activity_type a).
Proof.
  intros [s Hs]. unfold type_matches, same_type. now rewrite Hs.
Qed.


Lemma get_activities_by_type_filter (w : world) (activity_type : string) :
  Forall type_is_str (activities (self w)) ->
  get_activities_by_type activity_type w
  = (Ok (List.filter (same_type activity_type) (activities (self w))), w).
Proof.
  intros Hstr. unfold get_activities_by_type, mbind, M_mbind, M_bind, get_activities, eval.
  rewrite (select_filter _ (same_type activity_type)); [reflexivity|].
  eapply Forall_impl; [exact Hstr|]. intros a. apply type_matches_same_type.
Qed.

(** A stored type that is no string has no [lower]: the query raises. *)
Lemma select_type_untyped (activity_type : string) (acts : list FitnessActivity.t) :
  ~ Forall type_is_str acts ->
  select (type_matches activity_type) acts = Raise AttributeError.
Proof.
  induction acts as [|a acts IH]; intros Hnot.
  - destruct Hnot. constructor.
  - cbn [select]. destruct (type_matches activity_type a) as [keep|e] eqn:Ea.
    + cbn [mbind result_mbind result_bind]. rewrite IH; [reflexivity|].
      intros Hacts. apply Hnot. constructor; [|exact Hacts].
      unfold type_matches in Ea.
      destruct (FitnessActivity.activity_type a) as [| | | |s| |] eqn:Et;
        try discriminate.
      by exists s.
    + unfold type_matches in Ea.
      destruct (FitnessActivity.activity_type a); cbn in Ea; try discriminate;
        injection Ea as <-; reflexivity.
Qed.

Lemma get_activities_by_type_untyped (w : world) (activity_type : string) :
  ~ Forall type_is_str (activities (self w)) ->
  get_activities_by_type activity_type w = (Raise AttributeError, w).
Proof.
  intros Hnot.
  unfold get_activities_by_type, mbind, M_mbind, M_bind, get_activities, eval.
  by rewrite select_type_untyped.
Qed.

(** *** Lowering and letter case *)









(** C9: the answer of [get_activities_by_type] is a subsequence of the
    store's sequence: the matching activities, each as often as it occurs,
    and any two of them in the order they have in the store. *)
Theorem get_activities_by_type_keeps_order :
  forall (w : world) (activity_type : string),
    Forall type_is_str (activities (self w)) ->
    exists found,
      get_activities_by_type activity_type w = (Ok found, w)
      /\ found = List.filter (same_type activity_type) (activities (self w))
      /\ found `sublist_of` activities (self w)
      /\ (forall (i j : nat) x y,
            (i < j)%nat -> found !! i = Some x -> found !! j = Some y ->
            exists i' j',
              (i' < j')%nat
              /\ activities (self w) !! i' = Some x
              /\ activities (self w) !! j' = Some y).
Proof.
  intros w activity_type Hstr. eexists. split; [by apply get_activities_by_type_filter|].
  split; [reflexivity|]. split; [apply List_filter_sublist|].
  apply sublist_order, List_filter_sublist.
Qed.

End Queries.

(** ** The store: queries read and do not write *)

Section Frame.
Import FitnessTracker.

Lemma read_only_ret {A} (a : A) : read_only (mret a : M A).
Proof. intros w. reflexivity. Qed.

Lemma read_only_eval {A} (r : result A) : read_only (eval r).
Proof. intros w. reflexivity. Qed.

Lemma read_only_get_activities : read_only get_activities.
Proof. intros w. reflexivity. Qed.

Lemma read_only_now : read_only now.
Proof. intros w. reflexivity. Qed.

Lemma read_only_bind {A B} (m : M A) (f : A -> M B) :
  read_only m -> (forall a, read_only (f a)) -> read_only (m ≫= f).
Proof.
  intros Hm Hf w. unfold mbind, M_mbind, M_bind.
  specialize (Hm w). destruct (m w) as [[a|e] w']; simpl in Hm; subst w'.
  - apply Hf.
  - reflexivity.
Qed.

Create HintDb reads.
#[local] Hint Resolve read_only_ret read_only_eval read_only_get_activities
  read_only_now read_only_bind : reads.

Lemma read_only_get_activities_by_date date : read_only (get_activities_by_date date).
Proof. unfold get_activities_by_date. auto with reads. Qed.

Lemma read_only_get_activities_by_type ty : read_only (get_activities_by_type ty).
Proof. unfold get_activities_by_type. auto with reads. Qed.

Lemma read_only_get_total_calories : read_only get_total_calories.
Proof. unfold get_total_calories. auto with reads. Qed.

Lemma read_only_get_total_duration : read_only get_total_duration.
Proof. unfold get_total_duration. auto with reads. Qed.

Lemma read_only_get_weekly_summary weeks_ago : read_only (get_weekly_summary weeks_ago).
Proof.
  unfold get_weekly_summary.
  apply read_only_bind; [auto with reads|]. intros today.
  apply read_only_bind; [auto with reads|]. intros [start_date end_date].
  auto 10 with reads.
Qed.

(** C10: each of the five queries, whether it returns or raises, leaves the
    world as it was: the same sequence in memory, the same files, the same
    tracker. *)
Theorem queries_are_read_only :
  forall (w : world) (date activity_type : string) (weeks_ago : Z),
    snd (get_activities_by_date date w) = w
    /\ snd (get_activities_by_type activity_type w) = w
    /\ snd (get_total_calories w) = w
    /\ snd (get_total_duration w) = w
    /\ snd (get_weekly_summary weeks_ago w) = w.
Proof.
  intros w date activity_type weeks_ago.
  split; [|split; [|split; [|split]]].
  - apply read_only_get_activities_by_date.
  - apply read_only_get_activities_by_type.
  - apply read_only_get_total_calories.
  - apply read_only_get_total_duration.
  - apply read_only_get_weekly_summary.
Qed.

End Frame.

(** ** The store: the weekly summary *)

Section Week.
Import FitnessTracker.

Lemma week_bounds_spec (today : datetime) (weeks_ago : Z) :
  0 <= weeks_ago -> valid today -> 7 * weeks_ago + 7 < ordinal today ->
  week_bounds today weeks_ago =
  Ok ({| ordinal := ordinal today - 7 * weeks_ago - 7; usec := usec today |},
      {| ordinal := ordinal today - 7 * weeks_ago; usec := usec today |}).
Proof.
  intros Hw [[Hlo Hhi] _] Hfit. unfold MAXORDINAL in Hhi.
  unfold week_bounds, timedelta_weeks, timedelta_days.
  rewrite (proj2 (Z.leb_le (Z.abs (7 * weeks_ago)) _)) by lia.
  cbn [mbind result_mbind result_bind]. unfold Datetime.sub, MAXORDINAL.
  cbn [days ordinal usec].
  rewrite (proj2 (Z.leb_le 1 (ordinal today - 7 * weeks_ago))) by lia.
  rewrite (proj2 (Z.leb_le (ordinal today - 7 * weeks_ago) _)) by lia.
  cbn [andb mbind result_mbind result_bind].
  rewrite (proj2 (Z.leb_le (Z.abs 7) _)) by lia.
  cbn [mbind result_mbind result_bind days ordinal usec].
  rewrite (proj2 (Z.leb_le 1 (ordinal today - 7 * weeks_ago - 7))) by lia.
  rewrite (proj2 (Z.leb_le (ordinal today - 7 * weeks_ago - 7) _)) by lia.
  reflexivity.
Qed.

Lemma strptime_midnight (v : value) (d : datetime) :
  strptime v = Ok d -> usec d = 0.
Proof.
  unfold strptime. destruct v; try discriminate.
  destruct (parse_fields s) as [[[year month] day]|]; [|discriminate].
  destruct (_ && _)%bool; [|discriminate].
  now intros [= <-].
Qed.

Lemma in_week_within start_date end_date (a : FitnessActivity.t) :
  date_parses a -> in_week start_date end_date a = Ok (within start_date end_date a).
Proof.
  intros [d Hd]. unfold in_week, within. rewrite Hd. cbn.
  now destruct (Datetime.le start_date d).
Qed.

Lemma float_of_int_0 : float_of_int 0 = Ok 0%float.
Proof. reflexivity. Qed.

Lemma sum_from_floats (items : list value) :
  Forall (fun v => exists x, v = VFloat x) items ->
  forall acc, exists total, sum_from (NFloat acc) items = Ok total.
Proof.
  induction 1 as [|v items [x ->] _ IH]; intros acc; [by eexists|].
  cbn. apply IH.
Qed.

(** Adding up floats never raises. *)
Lemma sum_floats (items : list value) :
  Forall (fun v => exists x, v = VFloat x) items -> is_Ok (sum items).
Proof.
  intros Hfl. unfold sum, is_Ok. destruct Hfl as [|v items [x ->] Hrest].
  - by eexists.
  - cbn [sum_from num_add as_number]. rewrite float_of_int_0.
    cbn [mbind result_mbind result_bind].
    destruct (sum_from_floats items Hrest (PrimFloat.add 0 x)) as [total ->].
    by eexists.
Qed.

Lemma get_weekly_summary_spec (w : world) (weeks_ago : Z) :
  0 <= weeks_ago -> valid (clock w) -> 7 * weeks_ago + 7 < ordinal (clock w) ->
  Forall date_parses (activities (self w)) ->
  let end_date := {| ordinal := ordinal (clock w) - 7 * weeks_ago; usec := usec (clock w) |} in
  let start_date := {| ordinal := ordinal end_date - 7; usec := usec end_date |} in
  let chosen := List.filter (within start_date end_date) (activities (self w)) in
  get_weekly_summary weeks_ago w =
  (total_calories ← sum (map FitnessActivity.calories chosen);
   total_duration ← sum (map FitnessActivity.duration chosen);
   Ok {| FitnessTracker.start_date := strftime start_date;
         FitnessTracker.end_date := strftime end_date;
         total_calories := total_calories;
         total_duration := total_duration;
         activity_count := Z.of_nat (length chosen) |},
   w).
Proof.
  intros Hw Hnow Hfit Hparse end_date start_date chosen.
  unfold get_weekly_summary, mbind at 1 2 3 4 5 6, M_mbind, M_bind, now, eval,
    get_activities.
  rewrite week_bounds_spec by assumption.
  rewrite (select_filter _ (within start_date end_date)).
  2:{ eapply Forall_impl; [exact Hparse|]. intros a. apply in_week_within. }
  fold chosen.
  destruct (sum (map FitnessActivity.calories chosen)); [|reflexivity].
  destruct (sum (map FitnessActivity.duration chosen)); reflexivity.
Qed.

(** C1: the week [weeks_ago] weeks back ends at the present moment moved
    back by [7 * weeks_ago] days and starts seven days before that, both
    bounds keeping the present time of day.  The summary counts and adds up
    exactly the activities whose day, taken at midnight, is not before the
    start and not after the end.  For the current week an activity dated
    eight days before today is left out, and one dated seven days before
    today is counted precisely when the clock reads midnight. *)
Theorem get_weekly_summary_window :
  forall (w : world) (weeks_ago : Z),
    0 <= weeks_ago -> valid (clock w) -> 7 * weeks_ago + 7 < ordinal (clock w) ->
    Forall date_parses (activities (self w)) ->
    let end_date := {| ordinal := ordinal (clock w) - 7 * weeks_ago; usec := usec (clock w) |} in
    let start_date := {| ordinal := ordinal end_date - 7; usec := usec end_date |} in
    let chosen := List.filter (within start_date end_date) (activities (self w)) in
    get_weekly_summary weeks_ago w =
    (total_calories ← sum (map FitnessActivity.calories chosen);
     total_duration ← sum (map FitnessActivity.duration chosen);
     Ok {| FitnessTracker.start_date := strftime start_date;
           FitnessTracker.end_date := strftime end_date;
           total_calories := total_calories;
           total_duration := total_duration;
           activity_count := Z.of_nat (length chosen) |},
     w)
    /\ (forall a,
          a ∈ chosen <->
          a ∈ activities (self w)
          /\ exists d, strptime (FitnessActivity.date a) = Ok d
                       /\ Datetime.le start_date d = true
                       /\ Datetime.le d end_date = true)
    /\ (Forall amounts_are_float (activities (self w)) ->
          exists s, fst (get_weekly_summary weeks_ago w) = Ok s
                    /\ activity_count s = Z.of_nat (length chosen))
    /\ (weeks_ago = 0 ->
          forall a d,
            a ∈ activities (self w) ->
            strptime (FitnessActivity.date a) = Ok d ->
            (ordinal d = ordinal (clock w) - 8 -> a ∉ chosen)
            /\ (ordinal d = ordinal (clock w) - 7 ->
                  (a ∈ chosen <-> usec (clock w) = 0))).
Proof.
  intros w weeks_ago Hw Hnow Hfit Hparse end_date start_date chosen.
  assert (Hchosen : forall a,
            a ∈ chosen <->
            a ∈ activities (self w)
            /\ exists d, strptime (FitnessActivity.date a) = Ok d
                         /\ Datetime.le start_date d = true
                         /\ Datetime.le d end_date = true).
  { intros a. unfold chosen. rewrite elem_of_List_filter. unfold within. split.
    - intros [Hin Hwithin]. split; [exact Hin|].
      destruct (strptime (FitnessActivity.date a)) as [d|]; [|discriminate].
      apply andb_true_iff in Hwithin. by exists d.
    - intros [Hin (d & -> & Hs & He)]. split; [exact Hin|]. by rewrite Hs, He. }
  pose proof (get_weekly_summary_spec w weeks_ago Hw Hnow Hfit Hparse) as Hspec.
  cbv zeta in Hspec. fold end_date start_date chosen in Hspec.
  split; [exact Hspec|]. split; [exact Hchosen|]. split.
  - intros Hfloat. rewrite Hspec. cbn [fst].
    assert (Hsub : Forall amounts_are_float chosen).
    { apply Forall_forall. intros a Ha. apply Hchosen in Ha as [Ha _].
      revert a Ha. by apply Forall_forall. }
    destruct (sum_floats (map FitnessActivity.calories chosen)) as [tc ->].
    { apply Forall_fmap. eapply Forall_impl; [exact Hsub|].
      intros a (c & d & Hc & _). by exists c. }
    destruct (sum_floats (map FitnessActivity.duration chosen)) as [td ->].
    { apply Forall_fmap. eapply Forall_impl; [exact Hsub|].
      intros a (c & d & _ & Hd). by exists d. }
    eexists. split; reflexivity.
  - intros -> a d Hin Hd. pose proof (strptime_midnight _ _ Hd) as Hmid.
    destruct Hnow as [_ [Hus _]].
    split.
    + intros Hord Ha. apply Hchosen in Ha as (_ & d' & Hd' & Hs & _).
      rewrite Hd in Hd'. injection Hd' as <-.
      unfold Datetime.le, start_date, end_date in Hs. cbn [ordinal usec] in Hs.
      rewrite Hord in Hs.
      apply orb_true_iff in Hs as [Hs|Hs].
      * apply Z.ltb_lt in Hs. lia.
      * apply andb_true_iff in Hs as [Hs _]. apply Z.eqb_eq in Hs. lia.
    + intros Hord. rewrite Hchosen. split.
      * intros (_ & d' & Hd' & Hs & _). rewrite Hd in Hd'. injection Hd' as <-.
        unfold Datetime.le, start_date, end_date in Hs. cbn [ordinal usec] in Hs.
        rewrite Hord, Hmid in Hs.
        apply orb_true_iff in Hs as [Hs|Hs].
        -- apply Z.ltb_lt in Hs. lia.
        -- apply andb_true_iff in Hs as [_ Hs]. apply Z.leb_le in Hs. lia.
      * intros Hzero. split; [exact Hin|]. exists d. split; [exact Hd|].
        unfold Datetime.le, start_date, end_date. cbn [ordinal usec].
        rewrite Hord, Hmid, Hzero. split.
        -- apply orb_true_iff. right. apply andb_true_iff.
           split; [apply Z.eqb_eq; lia | reflexivity].
        -- apply orb_true_iff. left. apply Z.ltb_lt. lia.
Qed.

End Week.

(** ** The theorems at work on the sample store *)

Section Samples.
Import FitnessTracker.

Example strftime_noon : strftime noon = "2024-01-08"%string.
Proof. reflexivity. Qed.

Example strptime_new_year :
  strptime (VStr "2024-01-01") = Ok {| ordinal := ordinal noon - 7; usec := 0 |}.
Proof. reflexivity. Qed.

Example lower_running : lower "RUNNING" = lower "running".
Proof. reflexivity. Qed.

Example total_calories_sample :
  fst (get_total_calories (sample_at noon)) = Ok (VFloat 950).
Proof. reflexivity. Qed.

Example sum_of_three : sum [VInt 100; VInt 250; VInt 0] = Ok (VInt 350).
Proof. reflexivity. Qed.

Example sum_of_none : sum [] = Ok (VInt 0).
Proof. reflexivity. Qed.

Example session_runs :
  fst (session fresh_store) = Ok (VInt 30, 1%nat, true, false, 0%nat).
Proof. reflexivity. Qed.

Example by_type_sample :
  fst (get_activities_by_type "RUNNING" (sample_at noon)) = Ok [run_day7; run_today].
Proof. reflexivity. Qed.

Example strptime_rejects :
  map (fun s => strptime (VStr s)) ["2024-02-30"; "2024-13-01"; "24-01-05"; "2024-01-05 "]%string
  = [Raise ValueError; Raise ValueError; Raise ValueError; Raise ValueError].
Proof. reflexivity. Qed.

Example strptime_accepts :
  strptime (VStr "2024-1-8") = strptime (VStr "2024-01-08")
  /\ strptime (VStr "2024-01-08") = Ok midnight.
Proof. split; reflexivity. Qed.


Lemma sample_types_str clock : Forall type_is_str (activities (self (sample_at clock))).
Proof. repeat constructor; eexists; reflexivity. Qed.

Lemma sample_dates_parse clock : Forall date_parses (activities (self (sample_at clock))).
Proof. repeat constructor; eexists; reflexivity. Qed.

Lemma midnight_valid : valid midnight.
Proof. repeat split; vm_compute; congruence. Qed.

Lemma no_calories_lacks : lacks_required no_calories.
Proof.
  exists "calories"%string. split; [|reflexivity].
  unfold required_keys. rewrite !elem_of_cons. auto.
Qed.

(** At noon of 8 January the run of 1 January, seven days earlier, is not
    in the current week: only the run of the day is counted, although the
    summary names 1 January as the start of the week. *)
Lemma get_weekly_summary_noon_leaves_out_day7 :
  strptime (FitnessActivity.date run_day7)
  = Ok {| ordinal := ordinal noon - 7; usec := 0 |}
  /\ get_weekly_summary 0 (sample_at noon)
     = (Ok {| start_date := "2024-01-01";
              end_date := "2024-01-08";
              total_calories := VFloat 250;
              total_duration := VFloat 20;
              activity_count := 1 |},
        sample_at noon)
  /\ select (in_week {| ordinal := ordinal noon - 7; usec := usec noon |} noon)
        (activities (self (sample_at noon)))
     = Ok [run_today]
  /\ run_day7 ∉ [run_today].
Proof.
  split; [reflexivity|]. split; [reflexivity|]. split; [reflexivity|].
  intros Hin. apply list_elem_of_singleton in Hin. discriminate Hin.
Qed.

Lemma get_weekly_summary_window_witness :
  (0 <= 0 /\ valid midnight /\ 7 * 0 + 7 < ordinal midnight
   /\ Forall date_parses (activities (self (sample_at midnight))))
  /\ (run_day7 ∈ List.filter
        (within {| ordinal := ordinal midnight - 7; usec := 0 |} midnight)
        (activities (self (sample_at midnight)))
      <-> usec midnight = 0)
  /\ swim_day8 ∉ List.filter
        (within {| ordinal := ordinal midnight - 7; usec := 0 |} midnight)
        (activities (self (sample_at midnight))).
Proof.
  assert (H7 : 7 * 0 + 7 < ordinal midnight) by reflexivity.
  pose proof (get_weekly_summary_window (sample_at midnight) 0
                (Z.le_refl 0) midnight_valid H7 (sample_dates_parse midnight))
    as (_ & _ & _ & Hweek).
  split.
  { split; [lia|]. split; [apply midnight_valid|]. split; [exact H7|].
    apply sample_dates_parse. }
  assert (Hrun : run_day7 ∈ activities (self (sample_at midnight)))
    by (simpl; rewrite !elem_of_cons; auto).
  assert (Hswim : swim_day8 ∈ activities (self (sample_at midnight)))
    by (simpl; rewrite !elem_of_cons; auto).
  split.
  - exact (proj2 (Hweek eq_refl run_day7 {| ordinal := ordinal midnight - 7; usec := 0 |}
                    Hrun eq_refl) eq_refl).
  - exact (proj1 (Hweek eq_refl swim_day8 {| ordinal := ordinal midnight - 8; usec := 0 |}
                    Hswim eq_refl) eq_refl).
Defined.

Lemma delete_activity_out_of_range_witness :
  (3 < 0 \/ 3 >= Z.of_nat (length (activities (self (sample_at noon)))))
  /\ delete_activity 3 (sample_at noon) = (Ok false, sample_at noon).
Proof.
  assert (H : 3 < 0 \/ 3 >= Z.of_nat (length (activities (self (sample_at noon)))))
    by (right; simpl; lia).
  split; [exact H | exact (delete_activity_out_of_range (sample_at noon) 3 H)].
Defined.

Lemma delete_activity_shifts_witness :
  0 <= 0 < Z.of_nat (length (activities (self (sample_at noon))))
  /\ exists w',
      delete_activity 0 (sample_at noon) = (Ok true, w')
      /\ activities (self w') !! 0%nat = Some swim_day8.
Proof.
  assert (H : 0 <= 0 < Z.of_nat (length (activities (self (sample_at noon)))))
    by (simpl; lia).
  split; [exact H|].
  destruct (delete_activity_shifts (sample_at noon) 0 H) as (w' & Hrun & _ & Hk & _).
  exists w'. split; [exact Hrun | exact Hk].
Defined.


Lemma from_dict_missing_field_witness :
  lacks_required no_calories
  /\ (exists key, FitnessActivity.from_dict noon (VDict no_calories) = Raise (KeyError key))
  /\ (exists e, load_data broken_file = (Raise e, broken_file))
  /\ (exists key, load_data broken_file = (Raise (KeyError key), broken_file)).
Proof.
  destruct (from_dict_missing_field noon no_calories) as (Hiff & _ & _ & Hload & Hfirst).
  split; [exact no_calories_lacks|]. split; [|split].
  - apply Hiff, no_calories_lacks.
  - apply (Hload broken_file [FitnessActivity.to_dict run_day7; VDict no_calories]).
    + reflexivity.
    + rewrite !elem_of_cons. auto.
    + exact no_calories_lacks.
  - destruct (Hfirst broken_file [FitnessActivity.to_dict run_day7] [] [run_day7]
                eq_refl eq_refl no_calories_lacks) as (key & _ & _ & Hkey).
    exists key. exact Hkey.
Defined.



Lemma get_activities_by_type_keeps_order_witness :
  Forall type_is_str (activities (self (sample_at noon)))
  /\ exists found,
      get_activities_by_type "Running" (sample_at noon) = (Ok found, sample_at noon)
      /\ found `sublist_of` [run_day7; swim_day8; run_today].
Proof.
  split; [apply sample_types_str|].
  destruct (get_activities_by_type_keeps_order (sample_at noon) "Running"
              (sample_types_str noon)) as (found & Hrun & _ & Hsub & _).
  exists found. split; [exact Hrun | exact Hsub].
Defined.

Lemma init_empty_date_is_today_witness :
  truthy VNone = false
  /\ FitnessActivity.date
       (FitnessActivity.__init__ noon (VStr "Running") (VFloat 30) (VFloat 300)
          (VStr "") VNone VNone)
     = VStr "2024-01-08"
  /\ FitnessActivity.date
       (FitnessActivity.__init__ noon (VStr "Running") (VFloat 30) (VFloat 300)
          VNone VNone VNone)
     = VStr "2024-01-08".
Proof.
  destruct (init_empty_date_is_today noon (VStr "Running") (VFloat 30) (VFloat 300)
              VNone VNone) as (_ & Hempty & _ & _ & Hfalsy).
  split; [reflexivity|]. split; [exact Hempty|]. exact (Hfalsy VNone eq_refl).
Defined.

End Samples.

(** ** The calendar: a day number and its date *)

Section Calendar.

Lemma month_day_checked (leapyear : bool) :
  forallb (fun k => month_day_ok leapyear (Z.of_nat k)) (seq 0 365) = true.
Proof. destruct leapyear; vm_compute; reflexivity. Qed.

Lemma month_day_spec (leapyear : bool) (n : Z) :
  0 <= n < 365 ->
  let '(m, d) := month_day leapyear n in
  1 <= m <= 12
  /\ 1 <= d <= month_length leapyear m
  /\ days_before_month_common m + (if ((2 <? m) && leapyear)%bool then 1 else 0) + d = n + 1.
Proof.
  intros Hn.
  pose proof (proj1 (forallb_forall _ _) (month_day_checked leapyear) (Z.to_nat n)) as H.
  cbv beta in H. rewrite Z2Nat.id in H by lia.
  specialize (H ltac:(apply in_seq; lia)).
  unfold month_day_ok in H. destruct (month_day leapyear n) as [m d].
  repeat (apply andb_prop in H as [H ?]).
  repeat match goal with
         | H : (_ <=? _) = true |- _ => apply Z.leb_le in H
         | H : (_ =? _) = true |- _ => apply Z.eqb_eq in H
         end.
  lia.
Qed.

Lemma ord2ymd_unfold (n : Z) :
  ord2ymd n =
  let n0 := n - 1 in
  let n400 := n0 / 146097 in
  let r400 := n0 mod 146097 in
  let n100 := r400 / 36524 in
  let r100 := r400 mod 36524 in
  let n4 := r100 / 1461 in
  let r4 := r100 mod 1461 in
  let n1 := r4 / 365 in
  let r1 := r4 mod 365 in
  let year := n400 * 400 + 1 + n100 * 100 + n4 * 4 + n1 in
  if ((n1 =? 4) || (n100 =? 4))%bool then (year - 1, 12, 31)
  else
    let '(m, d) := month_day ((n1 =? 3) && (negb (n4 =? 24) || (n100 =? 3)))%bool r1 in
    (year, m, d).
Proof.
  unfold ord2ymd, month_day. cbv zeta.
  destruct (_ || _)%bool; [reflexivity|].
  match goal with |- context [?a <? ?b] => destruct (a <? b) end; reflexivity.
Qed.

Lemma is_leap_spec (year : Z) :
  is_leap year = true <-> (year mod 4 = 0 /\ (year mod 100 <> 0 \/ year mod 400 = 0)).
Proof.
  unfold is_leap. rewrite andb_true_iff, orb_true_iff, negb_true_iff.
  rewrite !Z.eqb_eq, Z.eqb_neq. tauto.
Qed.

Lemma days_in_month_length (year m : Z) :
  days_in_month year m = month_length (is_leap year) m.
Proof. reflexivity. Qed.

Lemma ord2ymd_spec (n : Z) :
  1 <= n <= MAXORDINAL ->
  let '(y, m, d) := ord2ymd n in
  1 <= y <= 9999 /\ 1 <= m <= 12 /\ 1 <= d <= days_in_month y m /\ ymd2ord y m d = n.
Proof.
  unfold MAXORDINAL. intros Hn. rewrite ord2ymd_unfold. cbv zeta.
  set (n0 := n - 1).
  set (n400 := n0 / 146097). set (r400 := n0 mod 146097).
  set (n100 := r400 / 36524). set (r100 := r400 mod 36524).
  set (n4 := r100 / 1461). set (r4 := r100 mod 1461).
  set (n1 := r4 / 365). set (r1 := r4 mod 365).
  assert (H400 : n0 = 146097 * n400 + r400 /\ 0 <= r400 < 146097 /\ 0 <= n400 <= 24).
  { subst n400 r400 n0. Z.div_mod_to_equations. lia. }
  assert (H100 : r400 = 36524 * n100 + r100 /\ 0 <= r100 < 36524 /\ 0 <= n100 <= 4).
  { subst n100 r100. Z.div_mod_to_equations. lia. }
  assert (H4 : r100 = 1461 * n4 + r4 /\ 0 <= r4 < 1461 /\ 0 <= n4 <= 24).
  { subst n4 r4. Z.div_mod_to_equations. lia. }
  assert (H1 : r4 = 365 * n1 + r1 /\ 0 <= r1 < 365 /\ 0 <= n1 <= 4).
  { subst n1 r1. Z.div_mod_to_equations. lia. }
  clearbody n400 r400 n100 r100 n4 r4 n1 r1. subst n0.
  destruct H400 as (E400 & B400 & Q400). destruct H100 as (E100 & B100 & Q100).
  destruct H4 as (E4 & B4 & Q4). destruct H1 as (E1 & B1 & Q1).
  assert (Hn100 : n100 = 4 -> r100 = 0) by lia.
  assert (Hn4 : n100 < 4 \/ n4 = 0) by lia.
  set (year := n400 * 400 + 1 + n100 * 100 + n4 * 4 + n1).
  destruct ((n1 =? 4) || (n100 =? 4))%bool eqn:Especial.
  - (* the last day of a leap year *)
    apply orb_true_iff in Especial. rewrite !Z.eqb_eq in Especial.
    assert (Hleap : is_leap (year - 1) = true).
    { apply is_leap_spec. subst year. Z.div_mod_to_equations. lia. }
    rewrite days_in_month_length, Hleap.
    unfold ymd2ord, days_before_month, days_before_year. rewrite Hleap.
    change (days_before_month_common 12) with 334.
    change (month_length true 12) with 31.
    change ((2 <? 12) && true)%bool with true. cbv iota.
    subst year. split; [lia|]. split; [lia|]. split; [lia|].
    Z.div_mod_to_equations. lia.
  - apply orb_false_iff in Especial. rewrite !Z.eqb_neq in Especial.
    assert (Hleap : is_leap year = ((n1 =? 3) && (negb (n4 =? 24) || (n100 =? 3)))%bool).
    { apply eq_true_iff_eq. rewrite is_leap_spec.
      rewrite andb_true_iff, orb_true_iff, negb_true_iff, !Z.eqb_eq, Z.eqb_neq.
      subst year. Z.div_mod_to_equations. lia. }
    rewrite <- Hleap.
    pose proof (month_day_spec (is_leap year) r1 ltac:(lia)) as Hmd.
    destruct (month_day (is_leap year) r1) as [m d].
    destruct Hmd as (Hm & Hd & Hsum).
    rewrite days_in_month_length.
    unfold ymd2ord, days_before_month, days_before_year.
    split; [subst year; lia|]. split; [lia|]. split; [lia|].
    subst year. Z.div_mod_to_equations. lia.
Qed.


Lemma digit_cases (k : Z) :
  0 <= k <= 9 ->
  k = 0 \/ k = 1 \/ k = 2 \/ k = 3 \/ k = 4 \/ k = 5 \/ k = 6 \/ k = 7 \/ k = 8 \/ k = 9.
Proof. lia. Qed.

Lemma digit_digit_char (k : Z) :
  0 <= k <= 9 ->
  digit (digit_char k) = Some k
  /\ Ascii.eqb (digit_char k) "-" = false
  /\ Ascii.eqb (digit_char k) " " = false.
Proof.
  intros Hk. destruct (digit_cases k Hk) as [->|[->|[->|[->|[->|[->|[->|[->|[->| ->]]]]]]]]];
    repeat split.
Qed.

Lemma parse_fields_pad (y m d : Z) :
  0 <= y <= 9999 -> 1 <= m <= 12 -> 1 <= d <= 31 ->
  parse_fields (pad4 y ++ String "-" (pad2 m ++ String "-" (pad2 d)))%string = Some (y, m, d).
Proof.
  intros Hy Hm Hd. unfold parse_fields, pad4, pad2.
  cbv [String.append list_ascii_of_string].
  destruct (digit_digit_char (y / 1000 mod 10)) as (-> & _ & _); [Z.div_mod_to_equations; lia|].
  destruct (digit_digit_char (y / 100 mod 10)) as (-> & _ & _); [Z.div_mod_to_equations; lia|].
  destruct (digit_digit_char (y / 10 mod 10)) as (-> & _ & _); [Z.div_mod_to_equations; lia|].
  destruct (digit_digit_char (y mod 10)) as (-> & _ & _); [Z.div_mod_to_equations; lia|].
  cbn [mbind option_bind negb Ascii.eqb Bool.eqb].
  destruct (digit_digit_char (m / 10 mod 10)) as (Em1 & _ & _); [Z.div_mod_to_equations; lia|].
  destruct (digit_digit_char (m mod 10)) as (Em2 & Em2' & _); [Z.div_mod_to_equations; lia|].
  destruct (digit_digit_char (d / 10 mod 10)) as (Ed1 & _ & Ed1'); [Z.div_mod_to_equations; lia|].
  destruct (digit_digit_char (d mod 10)) as (Ed2 & _ & _); [Z.div_mod_to_equations; lia|].
  rewrite Em2'. unfold parse_month, parse_day. rewrite Em1, Em2, Ed1, Ed2, Ed1'.
  cbn [mbind option_bind].
  replace (10 * (m / 10 mod 10) + m mod 10) with m by (Z.div_mod_to_equations; lia).
  replace (10 * (d / 10 mod 10) + d mod 10) with d by (Z.div_mod_to_equations; lia).
  replace (1000 * (y / 1000 mod 10) + 100 * (y / 100 mod 10) + 10 * (y / 10 mod 10) + y mod 10)
    with y by (Z.div_mod_to_equations; lia).
  rewrite (proj2 (Z.leb_le 1 m)), (proj2 (Z.leb_le m 12)) by lia.
  rewrite (proj2 (Z.leb_le 1 d)), (proj2 (Z.leb_le d 31)) by lia.
  reflexivity.
Qed.

Lemma days_in_month_le_31 (y m : Z) : days_in_month y m <= 31.
Proof.
  unfold days_in_month.
  destruct (m =? 2); [destruct (is_leap y); lia|].
  destruct (_ || _)%bool; lia.
Qed.

Lemma strptime_strftime (dt : datetime) :
  1 <= ordinal dt <= MAXORDINAL ->
  strptime (VStr (strftime dt)) = Ok {| ordinal := ordinal dt; usec := 0 |}.
Proof.
  intros Hord. pose proof (ord2ymd_spec (ordinal dt) Hord) as Hspec.
  unfold strptime, strftime. destruct (ord2ymd (ordinal dt)) as [[y m] d].
  destruct Hspec as (Hy & Hm & Hd & Hback).
  pose proof (days_in_month_le_31 y m).
  rewrite parse_fields_pad by lia.
  rewrite (proj2 (Z.leb_le 1 y)), (proj2 (Z.leb_le d _)) by lia.
  cbn. now rewrite Hback.
Qed.

End Calendar.

(** ** The store: adding, and what the file holds *)

Section Mutations.
Import FitnessTracker.

Lemma add_activity_spec (w : world) (a : FitnessActivity.t) :
  add_activity a w =
  (Ok tt,
   {| self := {| data_file := data_file (self w);
                 activities := activities (self w) ++ [a] |};
      files := <[data_file (self w) :=
                 Document (VList (map FitnessActivity.to_dict (activities (self w) ++ [a])))]>
               (files w);
      clock := clock w |}).
Proof. reflexivity. Qed.

Lemma delete_activity_spec (w : world) (k : Z) :
  0 <= k < Z.of_nat (length (activities (self w))) ->
  delete_activity k w =
  (Ok true,
   {| self := {| data_file := data_file (self w);
                 activities := delete (Z.to_nat k) (activities (self w)) |};
      files := <[data_file (self w) :=
                 Document (VList (map FitnessActivity.to_dict
                                    (delete (Z.to_nat k) (activities (self w)))))]>
               (files w);
      clock := clock w |}).
Proof.
  intros [Hlo Hhi]. unfold delete_activity, mbind, M_mbind, M_bind, get_activities.
  rewrite (proj2 (Z.leb_le 0 k)), (proj2 (Z.ltb_lt k _)) by lia. reflexivity.
Qed.

Lemma delete_activity_refused (w : world) (k : Z) :
  ~ 0 <= k < Z.of_nat (length (activities (self w))) ->
  delete_activity k w = (Ok false, w).
Proof.
  intros Hout. unfold delete_activity, mbind, M_mbind, M_bind, get_activities.
  destruct (Z.leb_spec 0 k); [|reflexivity].
  destruct (Z.ltb_spec k (Z.of_nat (length (activities (self w))))); [lia|reflexivity].
Qed.

Lemma delete_last {A} (l : list A) (x : A) : delete (length l) (l ++ [x]) = l.
Proof. rewrite delete_middle. apply app_nil_r. Qed.


(** X1: adding an activity and then deleting the position it was given
    brings back the sequence as it was, and the file holds that sequence
    again. *)
Theorem add_then_delete_last :
  forall (w : world) (a : FitnessActivity.t),
    exists w',
      (add_activity a;; delete_activity (Z.of_nat (length (activities (self w))))) w
      = (Ok true, w')
      /\ activities (self w') = activities (self w)
      /\ files w' =
         <[data_file (self w) :=
           Document (VList (map FitnessActivity.to_dict (activities (self w))))]> (files w)
      /\ data_file (self w') = data_file (self w)
      /\ clock w' = clock w.
Proof.
  intros w a. unfold mbind at 1, M_mbind, M_bind. rewrite add_activity_spec.
  rewrite delete_activity_spec
    by (cbn [self activities]; rewrite length_app; cbn [length]; lia).
  cbn [self activities data_file files clock]. rewrite Nat2Z.id, delete_last.
  eexists. split; [reflexivity|]. cbn [self activities data_file files clock].
  repeat split. apply insert_insert_eq.
Qed.

(** X2: after [add_activity] a query by date answers what it answered
    before, followed by the new activity if its date is the one asked
    for. *)
Theorem add_activity_extends_by_date :
  forall (w : world) (a : FitnessActivity.t) (date : string),
    exists before,
      get_activities_by_date date w = (Ok before, w)
      /\ fst ((add_activity a;; get_activities_by_date date) w)
         = Ok (before ++ if eq_str (FitnessActivity.date a) date then [a] else []).
Proof.
  intros w a date. eexists. split; [reflexivity|].
  unfold mbind at 1, M_mbind, M_bind. rewrite add_activity_spec.
  unfold get_activities_by_date, mbind, M_mbind, M_bind, get_activities, mret, M_mret, M_ret.
  cbn [fst self activities]. rewrite List.filter_app. cbn [List.filter].
  now destruct (eq_str (FitnessActivity.date a) date).
Qed.

(** X3: the file never lags behind the memory: it holds the sequence in
    memory after every [add_activity] and every [delete_activity] that
    deletes, and a refused deletion leaves a matching file matching. *)
Theorem mutations_keep_file_mirrored :
  forall (w : world) (a : FitnessActivity.t) (index : Z),
    mirrored (snd (add_activity a w))
    /\ (fst (delete_activity index w) = Ok true -> mirrored (snd (delete_activity index w)))
    /\ (mirrored w -> mirrored (snd (delete_activity index w))).
Proof.
  intros w a index.
  assert (Hin : 0 <= index < Z.of_nat (length (activities (self w))) ->
                mirrored (snd (delete_activity index w))).
  { intros Hr. rewrite delete_activity_spec by exact Hr. apply lookup_insert_eq. }
  split; [|split].
  - rewrite add_activity_spec. apply lookup_insert_eq.
  - intros Hdel. apply Hin.
    destruct (Z.le_gt_cases 0 index);
      [destruct (Z.lt_ge_cases index (Z.of_nat (length (activities (self w)))))|];
      [lia| |]; rewrite delete_activity_refused in Hdel by lia; discriminate.
  - intros Hw.
    destruct (Z.le_gt_cases 0 index);
      [destruct (Z.lt_ge_cases index (Z.of_nat (length (activities (self w)))))|];
      [apply Hin; lia| |]; rewrite delete_activity_refused by lia; exact Hw.
Qed.


End Mutations.

(** ** The store: what loading does to the world *)

Section Loading.
Import FitnessTracker.

(** [load_data], outcome by outcome. *)
Lemma load_data_cases (w : world) :
  (files w !! data_file (self w) = None /\ load_data w = (Ok tt, w))
  \/ (exists e, is_Some (files w !! data_file (self w)) /\ load_data w = (Raise e, w))
  \/ (exists v items acts,
        files w !! data_file (self w) = Some (Document v)
        /\ iterate v = Ok items
        /\ collect (FitnessActivity.from_dict (clock w)) items = Ok acts
        /\ load_data w =
           (Ok tt,
            {| self := {| data_file := data_file (self w); activities := acts |};
               files := files w;
               clock := clock w |})).
Proof.
  unfold load_data, mbind, M_mbind, M_bind, mret, M_mret, M_ret, get_self,
    path_exists, read_json, now, eval, set_activities.
  destruct (files w !! data_file (self w)) as [[v|]|] eqn:Efile.
  - rewrite bool_decide_eq_true_2 by eauto. rewrite Efile.
    unfold result_mbind, result_bind.
    destruct (iterate v) as [items|e] eqn:Eit; [|right; left; eexists; eauto].
    destruct (collect _ items) as [acts|e] eqn:Ecol; [|right; left; eexists; eauto].
    right. right. by exists v, items, acts.
  - rewrite bool_decide_eq_true_2 by eauto. rewrite Efile. right. left. eexists; eauto.
  - rewrite bool_decide_eq_false_2 by (intros [? ?]; discriminate). by left.
Qed.

(** X5: [load_data] is all or nothing, and reads only: when it raises, the
    world is as before; when it returns, nothing but the sequence in memory
    has changed; the files are never touched; and where there is no file
    it does nothing at all. *)
Theorem load_data_all_or_nothing :
  forall (w : world),
    files (snd (load_data w)) = files w
    /\ data_file (self (snd (load_data w))) = data_file (self w)
    /\ clock (snd (load_data w)) = clock w
    /\ (forall e, fst (load_data w) = Raise e -> snd (load_data w) = w)
    /\ (files w !! data_file (self w) = None -> load_data w = (Ok tt, w)).
Proof.
  intros w.
  destruct (load_data_cases w)
    as [[Hnone ->]|[(e & [c Hfile] & ->)|(v & items & acts & Hfile & _ & _ & ->)]];
    cbn [fst snd self files clock data_file];
    (split; [reflexivity|]); (split; [reflexivity|]); (split; [reflexivity|]); split;
    try done; intros Hnone; rewrite Hnone in Hfile; discriminate.
Qed.

Lemma from_dict_not_dict today (v : value) :
  (forall d, v <> VDict d) -> FitnessActivity.from_dict today v = Raise TypeError.
Proof. intros Hv. destruct v; try reflexivity. by destruct (Hv d). Qed.

Lemma utf8_decode_nonempty (c : ascii) (cs : list ascii) :
  utf8_decode (c :: cs) <> Some [].
Proof.
  cbn [utf8_decode]. repeat case_match; try discriminate;
    unfold mbind, option_bind in *; repeat case_match; discriminate.
Qed.

(** A string that is not empty yields a first character, a string. *)
Lemma iterate_str_nonempty (s : string) :
  s <> ""%string -> exists item rest, iterate (VStr s) = Ok (VStr item :: rest).
Proof.
  destruct s as [|c s]; [done|]. intros _. unfold iterate, code_points.
  cbn [list_ascii_of_string].
  destruct (utf8_decode (c :: list_ascii_of_string s)) as [[|cp cps]|] eqn:E.
  - by apply utf8_decode_nonempty in E.
  - by eexists _, _.
  - by eexists _, _.
Qed.

(** X6: what [load_data] makes of a file that does not hold a list of
    records.  Text that is no JSON raises [JSONDecodeError]; a document that
    is [null], a truth value or a number, a non-empty object or a non-empty
    string raises [TypeError]; an empty object or an empty string, like an
    empty list, is taken for an empty store. *)
Theorem load_data_other_documents :
  forall (w : world),
    (files w !! data_file (self w) = Some Garbage ->
     load_data w = (Raise JSONDecodeError, w))
    /\ (forall v,
          files w !! data_file (self w) = Some (Document v) ->
          v = VNone \/ (exists b, v = VBool b) \/ (exists n, v = VInt n)
          \/ (exists x, v = VFloat x)
          \/ (exists d, v = VDict d /\ d <> ∅)
          \/ (exists s, v = VStr s /\ s <> ""%string) ->
          load_data w = (Raise TypeError, w))
    /\ (forall v,
          files w !! data_file (self w) = Some (Document v) ->
          v = VList [] \/ v = VDict ∅ \/ v = VStr "" ->
          load_data w =
          (Ok tt,
           {| self := {| data_file := data_file (self w); activities := [] |};
              files := files w;
              clock := clock w |})).
Proof.
  intros w.
  assert (Hrun : forall v,
            files w !! data_file (self w) = Some (Document v) ->
            load_data w =
            match items ← iterate v; collect (FitnessActivity.from_dict (clock w)) items with
            | Ok acts =>
                (Ok tt,
                 {| self := {| data_file := data_file (self w); activities := acts |};
                    files := files w;
                    clock := clock w |})
            | Raise e => (Raise e, w)
            end).
  { intros v Hfile.
    unfold load_data, mbind at 1 2 3 4 5, M_mbind, M_bind, mret, M_mret, M_ret, get_self,
      path_exists, read_json, now, eval, set_activities.
    rewrite bool_decide_eq_true_2 by eauto. rewrite Hfile.
    by destruct (_ ≫= _). }
  split; [|split].
  - intros Hfile.
    unfold load_data, mbind, M_mbind, M_bind, get_self, path_exists, read_json.
    rewrite bool_decide_eq_true_2 by eauto. by rewrite Hfile.
  - intros v Hfile Hv. rewrite (Hrun v Hfile).
    destruct Hv as [->|[[b ->]|[[n ->]|[[x ->]|[(d & -> & Hd)|(s & -> & Hs)]]]]];
      try reflexivity.
    + cbn [iterate mbind result_mbind result_bind].
      destruct (map_to_list d) as [|[key v] rest] eqn:Elist.
      * by apply map_to_list_empty_iff in Elist.
      * reflexivity.
    + destruct (iterate_str_nonempty s Hs) as (item & rest & ->). reflexivity.
  - intros v Hfile [->|[->| ->]]; rewrite (Hrun _ Hfile); reflexivity.
Qed.

(** X7: keys other than the six of a record play no part in rebuilding
    it: a dictionary with one more such key gives the same activity, or the
    same exception. *)
Theorem from_dict_ignores_other_keys :
  forall (today : datetime) (d : gmap string value) (key : string) (v : value),
    key ∉ known_keys ->
    FitnessActivity.from_dict today (VDict (<[key := v]> d))
    = FitnessActivity.from_dict today (VDict d).
Proof.
  intros today d key v Hkey. unfold known_keys in Hkey.
  rewrite !not_elem_of_cons in Hkey.
  destruct Hkey as (H1 & H2 & H3 & H4 & H5 & H6 & _).
  unfold FitnessActivity.from_dict, subscript, dict_get.
  by rewrite !lookup_insert_ne by done.
Qed.

(** The dictionary of an activity, key by key. *)
Lemma to_dict_lookup (a : FitnessActivity.t) :
  exists d,
    FitnessActivity.to_dict a = VDict d
    /\ d !! "activity_type"%string = Some (FitnessActivity.activity_type a)
    /\ d !! "duration"%string = Some (FitnessActivity.duration a)
    /\ d !! "calories"%string = Some (FitnessActivity.calories a)
    /\ d !! "distance"%string = Some (FitnessActivity.distance a)
    /\ d !! "date"%string = Some (FitnessActivity.date a)
    /\ d !! "notes"%string = Some (FitnessActivity.notes a)
    /\ (forall key, key ∉ known_keys -> d !! key = None).
Proof.
  eexists. split; [reflexivity|]. repeat split.
  intros key Hkey. unfold known_keys in Hkey. rewrite !not_elem_of_cons in Hkey.
  destruct Hkey as (H1 & H2 & H3 & H4 & H5 & H6 & _).
  cbn [list_to_map foldr uncurry fst snd].
  rewrite !lookup_insert_ne by done. apply lookup_empty.
Qed.

(** X8: the dictionary of an activity has the six keys and no other, each
    with the field as it is (an unset [distance] or [notes] as [None], not
    left out), so that two activities with the same dictionary are the same
    activity. *)
Theorem to_dict_six_keys_injective :
  forall (a : FitnessActivity.t),
    (exists d,
       FitnessActivity.to_dict a = VDict d
       /\ (forall key, is_Some (d !! key) <-> key ∈ known_keys)
       /\ d !! "distance"%string = Some (FitnessActivity.distance a)
       /\ d !! "notes"%string = Some (FitnessActivity.notes a))
    /\ (forall b, FitnessActivity.to_dict a = FitnessActivity.to_dict b -> a = b).
Proof.
  intros a. split.
  - destruct (to_dict_lookup a) as (d & Hd & H1 & H2 & H3 & H4 & H5 & H6 & Hother).
    exists d. split; [exact Hd|]. split; [|by split].
    intros key. split.
    + intros Hsome. destruct (decide (key ∈ known_keys)) as [|Hout]; [done|].
      rewrite (Hother key Hout) in Hsome. by destruct Hsome.
    + unfold known_keys. rewrite !elem_of_cons, elem_of_nil.
      intros [->|[->|[->|[->|[->|[->|[]]]]]]]; eauto.
  - intros b Hab.
    destruct (to_dict_lookup a) as (d & Hd & A1 & A2 & A3 & A4 & A5 & A6 & _).
    destruct (to_dict_lookup b) as (d' & Hd' & B1 & B2 & B3 & B4 & B5 & B6 & _).
    rewrite Hd, Hd' in Hab. injection Hab as <-.
    destruct a, b. cbn in *. congruence.
Qed.

(** X9: whatever a file held, once [load_data] has read it a save and a
    later load change nothing: the sequence in memory is the one the first
    load built. *)
Theorem load_save_load_is_stable :
  forall (w : world) (later : datetime),
    is_Some (files w !! data_file (self w)) ->
    fst (load_data w) = Ok tt ->
    exists w1 w2 w3,
      load_data w = (Ok tt, w1)
      /\ save_data w1 = (Ok tt, w2)
      /\ load_data (at_clock later w2) = (Ok tt, w3)
      /\ activities (self w3) = activities (self w1).
Proof.
  intros w later [c Hfile] Hok.
  destruct (load_data_cases w)
    as [[Hnone _]|[[e He]|(v & items & acts & _ & _ & Hcol & Hload)]].
  - rewrite Hnone in Hfile. discriminate.
  - destruct He as [_ He]. rewrite He in Hok. discriminate.
  - rewrite Hload. eexists. eexists. eexists. split; [reflexivity|].
    rewrite save_data_spec. split; [reflexivity|].
    erewrite load_data_list by (cbn; apply lookup_insert_eq).
    cbn [clock self activities at_clock].
    rewrite collect_from_dict_to_dict by (eapply collect_from_dict_date_is_set, Hcol).
    split; reflexivity.
Qed.

(** X10: rebuilding a record reads the clock only when the dictionary has
    no date or one that counts as false; with a date it gives the same
    result at any time. *)
Theorem from_dict_reads_clock_only_without_date :
  forall (today later : datetime) (d : gmap string value),
    (truthy (default VNone (d !! "date"%string)) = true ->
     FitnessActivity.from_dict today (VDict d) = FitnessActivity.from_dict later (VDict d))
    /\ (truthy (default VNone (d !! "date"%string)) = false ->
        forall a,
          FitnessActivity.from_dict today (VDict d) = Ok a ->
          FitnessActivity.date a = VStr (strftime today)
          /\ exists b,
               FitnessActivity.from_dict later (VDict d) = Ok b
               /\ FitnessActivity.date b = VStr (strftime later)).
Proof.
  intros today later d.
  unfold FitnessActivity.from_dict, subscript, dict_get.
  destruct (d !! "activity_type"%string) as [ty|]; [|split; [done|discriminate]].
  destruct (d !! "duration"%string) as [dur|]; [|split; [done|discriminate]].
  destruct (d !! "calories"%string) as [cal|]; [|split; [done|discriminate]].
  cbn [mbind result_mbind result_bind]. unfold FitnessActivity.__init__. split.
  - intros ->. reflexivity.
  - intros Hfalse a Ha. rewrite Hfalse in Ha |- *. injection Ha as <-.
    split; [reflexivity|]. eexists. split; reflexivity.
Qed.

End Loading.

(** ** The store: queries by date and totals *)

Section Totals.
Import FitnessTracker.

(** X11: a query by date never raises, whatever the fields hold: its
    answer is the stored sequence with the activities left out whose date
    is not the very string asked for, so that an activity is answered as
    often and in the order it is stored. *)
Theorem get_activities_by_date_exact :
  forall (w : world) (date : string),
    exists found,
      get_activities_by_date date w = (Ok found, w)
      /\ found = List.filter (dated date) (activities (self w))
      /\ (forall a, dated date a = true <-> FitnessActivity.date a = VStr date)
      /\ found `sublist_of` activities (self w)
      /\ (forall a, a ∈ found <-> a ∈ activities (self w) /\ FitnessActivity.date a = VStr date)
      /\ (forall (i j : nat) x y,
            (i < j)%nat -> found !! i = Some x -> found !! j = Some y ->
            exists i' j',
              (i' < j')%nat
              /\ activities (self w) !! i' = Some x
              /\ activities (self w) !! j' = Some y).
Proof.
  intros w date.
  assert (Hdated : forall a, dated date a = true <-> FitnessActivity.date a = VStr date).
  { intros a. unfold dated. split.
    - destruct (FitnessActivity.date a); try discriminate.
      intros Heq. f_equal. by apply String.eqb_eq.
    - intros ->. apply String.eqb_refl. }
  exists (List.filter (dated date) (activities (self w))).
  split; [reflexivity|]. split; [reflexivity|]. split; [exact Hdated|].
  split; [apply List_filter_sublist|]. split.
  - intros a. rewrite elem_of_List_filter. by rewrite Hdated.
  - apply sublist_order, List_filter_sublist.
Qed.

Lemma sum_from_ints (ns : list Z) :
  forall acc, sum_from (NInt acc) (map VInt ns) = Ok (NInt (acc + foldr Z.add 0 ns)).
Proof.
  induction ns as [|n ns IH]; intros acc; cbn [map sum_from foldr].
  - f_equal. f_equal. lia.
  - cbn [num_add as_number mbind result_mbind result_bind]. rewrite IH.
    f_equal. f_equal. lia.
Qed.

(** X12: when every amount is an integer the totals are exact: the
    integer sum, and the integer [0] for an empty store. *)
Theorem totals_of_integers :
  forall (w : world) (ns : list Z),
    (map FitnessActivity.calories (activities (self w)) = map VInt ns ->
     get_total_calories w = (Ok (VInt (foldr Z.add 0 ns)), w))
    /\ (map FitnessActivity.duration (activities (self w)) = map VInt ns ->
        get_total_duration w = (Ok (VInt (foldr Z.add 0 ns)), w))
    /\ (activities (self w) = [] ->
        get_total_calories w = (Ok (VInt 0), w)
        /\ get_total_duration w = (Ok (VInt 0), w)).
Proof.
  intros w ns.
  unfold get_total_calories, get_total_duration, mbind, M_mbind, M_bind,
    get_activities, eval, sum.
  split; [|split].
  - intros ->. by rewrite sum_from_ints.
  - intros ->. by rewrite sum_from_ints.
  - intros ->. split; reflexivity.
Qed.

Lemma num_add_errors acc v e :
  num_add acc v = Raise e -> e = TypeError \/ e = OverflowError.
Proof.
  unfold num_add, float_of_int.
  destruct acc, (as_number v) as [[|]|];
    repeat match goal with |- context [if ?c then _ else _] => destruct c end;
    cbn; intros [= <-]; auto.
Qed.

Lemma num_add_not_number acc v :
  as_number v = None -> num_add acc v = Raise TypeError.
Proof. intros E. unfold num_add. rewrite E. by destruct acc. Qed.

Lemma sum_from_not_number (items : list value) (v : value) :
  v ∈ items -> as_number v = None ->
  forall acc, exists e,
    sum_from acc items = Raise e /\ (e = TypeError \/ e = OverflowError).
Proof.
  intros Hin Hv. induction items as [|y items IH]; intros acc.
  - by apply elem_of_nil in Hin.
  - cbn [sum_from]. destruct (num_add acc y) as [acc'|e] eqn:Eadd.
    + apply elem_of_cons in Hin as [->|Hin].
      * rewrite num_add_not_number in Eadd by exact Hv. discriminate.
      * apply (IH Hin).
    + exists e. split; [reflexivity|]. eapply num_add_errors, Eadd.
Qed.

Lemma sum_not_number (items : list value) (v : value) :
  v ∈ items -> as_number v = None ->
  exists e, sum items = Raise e /\ (e = TypeError \/ e = OverflowError).
Proof.
  intros Hin Hv. unfold sum.
  destruct (sum_from_not_number items v Hin Hv (NInt 0)) as (e & -> & He).
  by exists e.
Qed.

(** X13: one amount that is no number (a [None], a string, a list) makes
    the total raise: no partial total is returned, and the store stays as
    it is. *)
Theorem totals_raise_on_a_non_number :
  forall (w : world) (a : FitnessActivity.t),
    a ∈ activities (self w) ->
    (~ is_number (FitnessActivity.calories a) ->
     exists e, get_total_calories w = (Raise e, w) /\ (e = TypeError \/ e = OverflowError))
    /\ (~ is_number (FitnessActivity.duration a) ->
        exists e, get_total_duration w = (Raise e, w) /\ (e = TypeError \/ e = OverflowError)).
Proof.
  intros w a Hin.
  unfold get_total_calories, get_total_duration, mbind, M_mbind, M_bind,
    get_activities, eval, is_number.
  split; intros Hnot.
  - destruct (sum_not_number (map FitnessActivity.calories (activities (self w)))
                (FitnessActivity.calories a)) as (e & -> & He).
    + apply list_elem_of_fmap. by exists a.
    + destruct (as_number _); [destruct Hnot; by eexists | reflexivity].
    + by exists e.
  - destruct (sum_not_number (map FitnessActivity.duration (activities (self w)))
                (FitnessActivity.duration a)) as (e & -> & He).
    + apply list_elem_of_fmap. by exists a.
    + destruct (as_number _); [destruct Hnot; by eexists | reflexivity].
    + by exists e.
Qed.

Lemma sum_from_floats_float (items : list value) :
  Forall (fun v => exists x, v = VFloat x) items ->
  forall acc, exists total, sum_from (NFloat acc) items = Ok (NFloat total).
Proof.
  induction 1 as [|v items [x ->] _ IH]; intros acc; [by eexists|].
  cbn. apply IH.
Qed.

Lemma sum_floats_float (items : list value) :
  Forall (fun v => exists x, v = VFloat x) items ->
  items <> [] -> exists total, sum items = Ok (VFloat total).
Proof.
  intros Hfl Hne. unfold sum. destruct Hfl as [|v items [x ->] Hrest]; [done|].
  cbn [sum_from num_add as_number]. rewrite float_of_int_0.
  cbn [mbind result_mbind result_bind].
  destruct (sum_from_floats_float items Hrest (PrimFloat.add 0 x)) as [total ->].
  by eexists.
Qed.

(** X14: with float amounts, as the menu records them, the totals never
    raise, and they are floats as soon as there is one activity. *)
Theorem totals_of_floats :
  forall (w : world),
    Forall amounts_are_float (activities (self w)) ->
    activities (self w) <> [] ->
    exists calories minutes,
      get_total_calories w = (Ok (VFloat calories), w)
      /\ get_total_duration w = (Ok (VFloat minutes), w).
Proof.
  intros w Hfl Hne.
  unfold get_total_calories, get_total_duration, mbind, M_mbind, M_bind,
    get_activities, eval.
  destruct (sum_floats_float (map FitnessActivity.calories (activities (self w))))
    as [calories ->].
  { apply Forall_fmap. eapply Forall_impl; [exact Hfl|]. intros a (c & d & Hc & _). by exists c. }
  { by destruct (activities (self w)). }
  destruct (sum_floats_float (map FitnessActivity.duration (activities (self w))))
    as [minutes ->].
  { apply Forall_fmap. eapply Forall_impl; [exact Hfl|]. intros a (c & d & _ & Hd). by exists d. }
  { by destruct (activities (self w)). }
  by exists calories, minutes.
Qed.

End Totals.

(** ** The store: more on the weekly summary *)

Section Weeks.
Import FitnessTracker.

(** [get_weekly_summary] once the bounds of the week are known. *)
Lemma get_weekly_summary_run (w : world) (weeks_ago : Z) :
  get_weekly_summary weeks_ago w =
  (bounds ← week_bounds (clock w) weeks_ago;
   chosen ← select (in_week bounds.1 bounds.2) (activities (self w));
   total_calories ← sum (map FitnessActivity.calories chosen);
   total_duration ← sum (map FitnessActivity.duration chosen);
   Ok {| start_date := strftime bounds.1;
         end_date := strftime bounds.2;
         total_calories := total_calories;
         total_duration := total_duration;
         activity_count := Z.of_nat (length chosen) |},
   w).
Proof.
  unfold get_weekly_summary, mbind, M_mbind, M_bind, result_mbind, now, eval,
    get_activities.
  destruct (week_bounds (clock w) weeks_ago) as [[s e]|]; [|reflexivity].
  cbn [result_bind fst snd].
  destruct (select (in_week s e) (activities (self w))) as [chosen|]; [|reflexivity].
  cbn [result_bind].
  destruct (sum (map FitnessActivity.calories chosen)); [|reflexivity].
  cbn [result_bind].
  destruct (sum (map FitnessActivity.duration chosen)); reflexivity.
Qed.

Lemma strptime_errors (v : value) (e : exn) :
  strptime v = Raise e -> e = ValueError \/ e = TypeError.
Proof.
  unfold strptime. destruct v; try (intros [= <-]; auto).
  destruct (parse_fields s) as [[[year month] day]|]; [|intros [= <-]; auto].
  destruct (_ && _)%bool; [discriminate|intros [= <-]; auto].
Qed.

Lemma select_raises {A} (cond : A -> result bool) (P : exn -> Prop) (items : list A) x e :
  (forall y e', cond y = Raise e' -> P e') ->
  x ∈ items -> cond x = Raise e ->
  exists e', select cond items = Raise e' /\ P e'.
Proof.
  intros HP Hin Hx. induction items as [|y items IH]; [by apply elem_of_nil in Hin|].
  cbn [select]. destruct (cond y) as [keep|e1] eqn:Ey.
  - apply elem_of_cons in Hin as [->|Hin]; [congruence|].
    destruct (IH Hin) as (e' & -> & He'). by exists e'.
  - exists e1. split; [reflexivity|]. eapply HP, Ey.
Qed.

(** X15: the constructor takes any date as given, and one activity whose
    date does not read as [YYYY-MM-DD] makes the summary of every week
    raise, with no summary of the others. *)
Theorem get_weekly_summary_bad_date :
  forall (w : world) (weeks_ago : Z) (a : FitnessActivity.t),
    0 <= weeks_ago -> valid (clock w) -> 7 * weeks_ago + 7 < ordinal (clock w) ->
    a ∈ activities (self w) ->
    ~ date_parses a ->
    exists e,
      get_weekly_summary weeks_ago w = (Raise e, w)
      /\ (e = ValueError \/ e = TypeError).
Proof.
  intros w weeks_ago a Hw Hnow Hfit Hin Hbad.
  rewrite get_weekly_summary_run, week_bounds_spec by assumption.
  cbn [mbind result_mbind result_bind fst snd].
  match goal with |- context [select (in_week ?from ?to) _] =>
    destruct (select_raises (in_week from to)
                (fun err => err = ValueError \/ err = TypeError)
                (activities (self w)) a
                match strptime (FitnessActivity.date a) with
                | Raise err => err | Ok _ => ValueError end)
      as (e' & -> & He')
  end.
  - intros y e'. unfold in_week.
    destruct (strptime (FitnessActivity.date y)) eqn:Ey; [discriminate|].
    intros [= <-]. eapply strptime_errors, Ey.
  - exact Hin.
  - unfold in_week. destruct (strptime (FitnessActivity.date a)) eqn:Ea; [|reflexivity].
    destruct Hbad. by eexists.
  - by exists e'.
Qed.

Lemma week_bounds_before_calendar (today : datetime) (weeks_ago : Z) :
  valid today -> 0 <= weeks_ago -> ordinal today <= 7 * weeks_ago + 7 ->
  week_bounds today weeks_ago = Raise OverflowError.
Proof.
  intros [[Hlo Hhi] _] Hw Hout. unfold MAXORDINAL in Hhi.
  unfold week_bounds, timedelta_weeks, timedelta_days.
  destruct (Z.le_gt_cases (Z.abs (7 * weeks_ago)) 999999999) as [Hsmall|Hbig].
  2:{ rewrite (proj2 (Z.leb_gt (Z.abs (7 * weeks_ago)) 999999999)) by lia. reflexivity. }
  rewrite (proj2 (Z.leb_le (Z.abs (7 * weeks_ago)) _)) by lia.
  cbn [mbind result_mbind result_bind]. unfold Datetime.sub, MAXORDINAL.
  cbn [days ordinal usec].
  destruct (Z.le_gt_cases 1 (ordinal today - 7 * weeks_ago)) as [Hend|Hend].
  2:{ rewrite (proj2 (Z.leb_gt 1 (ordinal today - 7 * weeks_ago))) by lia. reflexivity. }
  rewrite (proj2 (Z.leb_le 1 (ordinal today - 7 * weeks_ago))) by lia.
  rewrite (proj2 (Z.leb_le (ordinal today - 7 * weeks_ago) _)) by lia.
  cbn [andb mbind result_mbind result_bind].
  rewrite (proj2 (Z.leb_le (Z.abs 7) _)) by lia.
  cbn [mbind result_mbind result_bind days ordinal usec].
  rewrite (proj2 (Z.leb_gt 1 (ordinal today - 7 * weeks_ago - 7))) by lia.
  reflexivity.
Qed.

(** X16: a week that would begin before the first day of the calendar is
    not answered with an empty summary: the subtraction of dates raises
    [OverflowError], whatever the store holds. *)
Theorem get_weekly_summary_before_calendar :
  forall (w : world) (weeks_ago : Z),
    valid (clock w) -> 0 <= weeks_ago -> ordinal (clock w) <= 7 * weeks_ago + 7 ->
    get_weekly_summary weeks_ago w = (Raise OverflowError, w).
Proof.
  intros w weeks_ago Hnow Hw Hout.
  by rewrite get_weekly_summary_run, week_bounds_before_calendar.
Qed.

Lemma counted_in_week_spec (today : datetime) (weeks_ago : Z) (a : FitnessActivity.t) d :
  0 <= weeks_ago -> valid today -> 7 * weeks_ago + 7 < ordinal today ->
  strptime (FitnessActivity.date a) = Ok d ->
  counted_in_week today weeks_ago a =
  Ok (Datetime.le {| ordinal := ordinal today - 7 * weeks_ago - 7; usec := usec today |} d
      && Datetime.le d {| ordinal := ordinal today - 7 * weeks_ago; usec := usec today |})%bool.
Proof.
  intros Hw Hnow Hfit Hd. unfold counted_in_week.
  rewrite week_bounds_spec by assumption.
  cbn [mbind result_mbind result_bind]. unfold in_week. rewrite Hd. cbn.
  by destruct (Datetime.le _ d).
Qed.

(** X17: unless the clock reads midnight exactly, the weeks do not
    overlap: an activity is counted in at most one of them, and in the one
    its distance in days from today, divided by seven, names.  At midnight
    the day on the boundary is counted twice, in the week that ends on it
    and in the week that begins on it. *)
Theorem weeks_tile_the_past :
  forall (today : datetime) (a : FitnessActivity.t) (d : datetime) (k k' : Z),
    valid today ->
    strptime (FitnessActivity.date a) = Ok d ->
    0 <= k -> 7 * k + 7 < ordinal today ->
    0 <= k' -> 7 * k' + 7 < ordinal today ->
    (0 < usec today ->
     (counted_in_week today k a = Ok true <->
      ordinal d <= ordinal today /\ k = (ordinal today - ordinal d) / 7)
     /\ (counted_in_week today k a = Ok true ->
         counted_in_week today k' a = Ok true -> k = k'))
    /\ (usec today = 0 ->
        ordinal d = ordinal today - 7 * k - 7 ->
        k' = k + 1 ->
        counted_in_week today k a = Ok true /\ counted_in_week today k' a = Ok true).
Proof.
  intros today a d k k' Hnow Hd Hk Hfit Hk' Hfit'.
  pose proof (strptime_midnight _ _ Hd) as Hmid.
  rewrite !(counted_in_week_spec today _ a d) by assumption.
  unfold Datetime.le. cbn [ordinal usec]. rewrite Hmid.
  destruct Hnow as [_ [Hus _]].
  assert (Hweek : forall j, 0 < usec today ->
            ((ordinal today - 7 * j - 7 <? ordinal d)
             || (ordinal today - 7 * j - 7 =? ordinal d) && (usec today <=? 0))
            && ((ordinal d <? ordinal today - 7 * j)
                || (ordinal d =? ordinal today - 7 * j) && (0 <=? usec today)) = true
            <-> ordinal today - 7 * j - 7 < ordinal d <= ordinal today - 7 * j).
  { intros j Hpos.
    rewrite andb_true_iff, !orb_true_iff, !andb_true_iff, !Z.ltb_lt, !Z.eqb_eq, !Z.leb_le.
    lia. }
  split.
  - intros Hpos. split.
    + split.
      * intros [= Hin]. apply (Hweek k Hpos) in Hin.
        split; [lia|]. Z.div_mod_to_equations. lia.
      * intros [Hle ->]. f_equal. apply (Hweek _ Hpos). Z.div_mod_to_equations. lia.
    + intros [= Hin] [= Hin']. apply (Hweek k Hpos) in Hin. apply (Hweek k' Hpos) in Hin'.
      lia.
  - intros Hzero Hord ->. rewrite Hzero, Hord. split; f_equal.
    + rewrite andb_true_iff, !orb_true_iff, !andb_true_iff, !Z.ltb_lt, !Z.eqb_eq, !Z.leb_le.
      lia.
    + rewrite andb_true_iff, !orb_true_iff, !andb_true_iff, !Z.ltb_lt, !Z.eqb_eq, !Z.leb_le.
      lia.
Qed.

(** X18: an activity recorded without a date gets a date that the summary
    can read, the day of the recording, and the summary of the current week
    counts it on that day and on the six days after it. *)
Theorem undated_activity_is_in_the_current_week :
  forall (recorded later : datetime)
         (activity_type duration calories date distance notes : value),
    valid recorded -> valid later ->
    truthy date = false ->
    7 < ordinal later ->
    ordinal recorded <= ordinal later <= ordinal recorded + 6 ->
    let a := FitnessActivity.__init__ recorded activity_type duration calories
               date distance notes in
    strptime (FitnessActivity.date a) = Ok {| ordinal := ordinal recorded; usec := 0 |}
    /\ counted_in_week later 0 a = Ok true.
Proof.
  intros recorded later ty dur cal date dist notes Hrec Hlater Hfalse Hfit Hdays a.
  assert (Hd : strptime (FitnessActivity.date a)
               = Ok {| ordinal := ordinal recorded; usec := 0 |}).
  { subst a. unfold FitnessActivity.__init__. cbn [FitnessActivity.date].
    rewrite Hfalse. apply strptime_strftime. apply Hrec. }
  split; [exact Hd|].
  rewrite (counted_in_week_spec later 0 a _ ltac:(lia) Hlater ltac:(lia) Hd).
  f_equal. unfold Datetime.le. cbn [ordinal usec].
  destruct Hrec as [_ [Hus _]]. destruct Hlater as [_ [Hus' _]].
  rewrite andb_true_iff, !orb_true_iff, !andb_true_iff, !Z.ltb_lt, !Z.eqb_eq, !Z.leb_le.
  lia.
Qed.

(** X19: for a week that begins in the year 1000 or later, the two dates
    a summary names read back as the days of its bounds: the end is today
    moved back by the weeks asked for, and the start is the seventh day
    before it.  (Before the year 1000 the C library decides whether the
    year is padded, and a year that is not padded does not read back.) *)
Theorem get_weekly_summary_names_its_bounds :
  forall (w : world) (weeks_ago : Z) (s : summary),
    0 <= weeks_ago -> valid (clock w) ->
    ymd2ord 1000 1 1 <= ordinal (clock w) - 7 * weeks_ago - 7 ->
    fst (get_weekly_summary weeks_ago w) = Ok s ->
    strptime (VStr (end_date s))
    = Ok {| ordinal := ordinal (clock w) - 7 * weeks_ago; usec := 0 |}
    /\ strptime (VStr (start_date s))
       = Ok {| ordinal := ordinal (clock w) - 7 * weeks_ago - 7; usec := 0 |}.
Proof.
  intros w weeks_ago s Hw Hnow Hyear.
  assert (Hfit : 7 * weeks_ago + 7 < ordinal (clock w)).
  { change (ymd2ord 1000 1 1) with 364878 in Hyear. lia. }
  rewrite get_weekly_summary_run, week_bounds_spec by assumption.
  unfold mbind, result_mbind. cbn [fst result_bind snd].
  destruct (select _ _) as [chosen|]; [|discriminate]. cbn [result_bind].
  destruct (sum (map FitnessActivity.calories chosen)); [|discriminate]. cbn [result_bind].
  destruct (sum (map FitnessActivity.duration chosen)); [|discriminate]. cbn [result_bind].
  intros [= <-]. cbn [start_date end_date].
  destruct Hnow as [[Hlo Hhi] _].
  split; rewrite strptime_strftime; cbn [ordinal]; try reflexivity; lia.
Qed.

End Weeks.

(** ** The further theorems at work on samples *)

Section MoreSamples.
Import FitnessTracker.

Lemma noon_valid : valid noon.
Proof. repeat split; vm_compute; congruence. Qed.

Lemma known_key_cases (key : string) :
  key ∉ known_keys <->
  key <> "activity_type"%string /\ key <> "duration"%string /\ key <> "calories"%string
  /\ key <> "distance"%string /\ key <> "date"%string /\ key <> "notes"%string.
Proof. unfold known_keys. rewrite !not_elem_of_cons. pose proof (not_elem_of_nil key). tauto. Qed.

Lemma mutations_keep_file_mirrored_witness :
  fst (delete_activity 1 (sample_at noon)) = Ok true
  /\ mirrored (snd (delete_activity 1 (sample_at noon)))
  /\ mirrored (snd (add_activity run_today (sample_at noon))).
Proof.
  destruct (mutations_keep_file_mirrored (sample_at noon) run_today 1) as (Hadd & Hdel & _).
  split; [reflexivity|]. split; [exact (Hdel eq_refl) | exact Hadd].
Defined.


Lemma load_data_all_or_nothing_witness :
  fst (load_data broken_file) = Raise (KeyError "calories")
  /\ snd (load_data broken_file) = broken_file
  /\ files (sample_at noon) !! data_file (self (sample_at noon)) = None
  /\ load_data (sample_at noon) = (Ok tt, sample_at noon).
Proof.
  destruct (load_data_all_or_nothing broken_file) as (_ & _ & _ & Hraise & _).
  destruct (load_data_all_or_nothing (sample_at noon)) as (_ & _ & _ & _ & Hnone).
  split; [reflexivity|]. split; [exact (Hraise _ eq_refl)|].
  split; [reflexivity | exact (Hnone eq_refl)].
Defined.

Lemma load_data_other_documents_witness :
  load_data (tracker_with [run_today] (Some Garbage) noon)
  = (Raise JSONDecodeError, tracker_with [run_today] (Some Garbage) noon)
  /\ load_data (tracker_with [run_today] (Some (Document (VInt 7))) noon)
     = (Raise TypeError, tracker_with [run_today] (Some (Document (VInt 7))) noon)
  /\ load_data (tracker_with [run_today] (Some (Document (VDict ∅))) noon)
     = (Ok tt, tracker_with [] (Some (Document (VDict ∅))) noon).
Proof.
  split; [|split].
  - exact (proj1 (load_data_other_documents (tracker_with [run_today] (Some Garbage) noon))
             eq_refl).
  - refine (proj1 (proj2 (load_data_other_documents
                            (tracker_with [run_today] (Some (Document (VInt 7))) noon)))
              (VInt 7) eq_refl _).
    right. right. left. by exists 7.
  - refine (proj2 (proj2 (load_data_other_documents
                            (tracker_with [run_today] (Some (Document (VDict ∅))) noon)))
              (VDict ∅) eq_refl _).
    right. by left.
Defined.

Lemma from_dict_ignores_other_keys_witness :
  ("heart_rate"%string ∉ known_keys)
  /\ FitnessActivity.from_dict noon (VDict foreign_record)
     = FitnessActivity.from_dict noon (VDict (delete "heart_rate"%string foreign_record)).
Proof.
  assert (Hkey : "heart_rate"%string ∉ known_keys)
    by (apply known_key_cases; repeat split; discriminate).
  split; [exact Hkey|].
  rewrite <- (from_dict_ignores_other_keys noon
                (delete "heart_rate"%string foreign_record) "heart_rate" (VInt 140) Hkey).
  reflexivity.
Defined.

Lemma to_dict_six_keys_injective_witness :
  FitnessActivity.to_dict run_day7 = FitnessActivity.to_dict run_day7
  /\ run_day7 = run_day7.
Proof.
  split; [reflexivity|].
  exact (proj2 (to_dict_six_keys_injective run_day7) run_day7 eq_refl).
Defined.

Lemma load_save_load_is_stable_witness :
  (is_Some (files foreign_file !! data_file (self foreign_file))
   /\ fst (load_data foreign_file) = Ok tt)
  /\ exists w1 w2 w3,
      load_data foreign_file = (Ok tt, w1)
      /\ save_data w1 = (Ok tt, w2)
      /\ load_data (at_clock midnight w2) = (Ok tt, w3)
      /\ activities (self w3) = activities (self w1).
Proof.
  assert (Hfile : is_Some (files foreign_file !! data_file (self foreign_file)))
    by (eexists; reflexivity).
  assert (Hok : fst (load_data foreign_file) = Ok tt) by reflexivity.
  split; [by split|].
  exact (load_save_load_is_stable foreign_file midnight Hfile Hok).
Defined.

Lemma from_dict_reads_clock_only_without_date_witness :
  truthy (default VNone (foreign_record !! "date"%string)) = false
  /\ exists b,
      FitnessActivity.from_dict midnight (VDict foreign_record) = Ok b
      /\ FitnessActivity.date b = VStr (strftime midnight).
Proof.
  split; [reflexivity|].
  destruct (from_dict_reads_clock_only_without_date noon midnight foreign_record)
    as [_ Hwithout].
  destruct (FitnessActivity.from_dict noon (VDict foreign_record)) as [a|] eqn:Ea;
    [|discriminate Ea].
  exact (proj2 (Hwithout eq_refl a eq_refl)).
Defined.

Lemma get_activities_by_date_exact_witness :
  exists found,
    get_activities_by_date "2024-01-08" (tracker_with [run_today; run_day7; run_today] None noon)
    = (Ok found, tracker_with [run_today; run_day7; run_today] None noon)
    /\ found = [run_today; run_today]
    /\ (run_today ∈ found
        <-> run_today ∈ activities (self (tracker_with [run_today; run_day7; run_today] None noon))
            /\ FitnessActivity.date run_today = VStr "2024-01-08").
Proof.
  destruct (get_activities_by_date_exact
              (tracker_with [run_today; run_day7; run_today] None noon) "2024-01-08")
    as (found & Hrun & Hfound & _ & _ & Hmem & _).
  exists found. split; [exact Hrun|]. split; [exact Hfound | exact (Hmem run_today)].
Defined.

Lemma totals_of_integers_witness :
  map FitnessActivity.calories
    (activities (self (tracker_with [walk 100; walk 250; walk 0] None noon)))
  = map VInt [100; 250; 0]
  /\ get_total_calories (tracker_with [walk 100; walk 250; walk 0] None noon)
     = (Ok (VInt 350), tracker_with [walk 100; walk 250; walk 0] None noon).
Proof.
  split; [reflexivity|].
  exact (proj1 (totals_of_integers (tracker_with [walk 100; walk 250; walk 0] None noon)
                  [100; 250; 0]) eq_refl).
Defined.

Lemma totals_raise_on_a_non_number_witness :
  (no_amount ∈ activities (self (tracker_with [walk 100; no_amount] None noon))
   /\ ~ is_number (FitnessActivity.calories no_amount))
  /\ exists e,
      get_total_calories (tracker_with [walk 100; no_amount] None noon)
      = (Raise e, tracker_with [walk 100; no_amount] None noon)
      /\ (e = TypeError \/ e = OverflowError).
Proof.
  assert (Hin : no_amount ∈ activities (self (tracker_with [walk 100; no_amount] None noon)))
    by (cbn; rewrite !elem_of_cons; auto).
  assert (Hnot : ~ is_number (FitnessActivity.calories no_amount))
    by (intros [n Hn]; discriminate Hn).
  split; [by split|].
  exact (proj1 (totals_raise_on_a_non_number
                  (tracker_with [walk 100; no_amount] None noon) no_amount Hin) Hnot).
Defined.

Lemma sample_amounts_float clock : Forall amounts_are_float (activities (self (sample_at clock))).
Proof. repeat constructor; eexists; eexists; split; reflexivity. Qed.

Lemma totals_of_floats_witness :
  (Forall amounts_are_float (activities (self (sample_at noon)))
   /\ activities (self (sample_at noon)) <> [])
  /\ exists calories minutes,
      get_total_calories (sample_at noon) = (Ok (VFloat calories), sample_at noon)
      /\ get_total_duration (sample_at noon) = (Ok (VFloat minutes), sample_at noon).
Proof.
  assert (Hne : activities (self (sample_at noon)) <> []) by discriminate.
  split; [split; [apply sample_amounts_float | exact Hne]|].
  exact (totals_of_floats (sample_at noon) (sample_amounts_float noon) Hne).
Defined.

Lemma get_weekly_summary_bad_date_witness :
  (0 <= 3 /\ valid noon /\ 7 * 3 + 7 < ordinal noon
   /\ dated_in_words ∈ activities (self (tracker_with [run_today; dated_in_words] None noon))
   /\ ~ date_parses dated_in_words)
  /\ exists e,
      get_weekly_summary 3 (tracker_with [run_today; dated_in_words] None noon)
      = (Raise e, tracker_with [run_today; dated_in_words] None noon)
      /\ (e = ValueError \/ e = TypeError).
Proof.
  assert (H7 : 7 * 3 + 7 < ordinal noon) by reflexivity.
  assert (Hin : dated_in_words
                ∈ activities (self (tracker_with [run_today; dated_in_words] None noon)))
    by (cbn; rewrite !elem_of_cons; auto).
  assert (Hbad : ~ date_parses dated_in_words) by (intros [d Hd]; discriminate Hd).
  split; [split; [lia|]; split; [exact noon_valid|]; by repeat split|].
  exact (get_weekly_summary_bad_date (tracker_with [run_today; dated_in_words] None noon)
           3 dated_in_words ltac:(lia) noon_valid H7 Hin Hbad).
Defined.

Lemma get_weekly_summary_before_calendar_witness :
  (valid noon /\ 0 <= 105556 /\ ordinal noon <= 7 * 105556 + 7)
  /\ get_weekly_summary 105556 (sample_at noon) = (Raise OverflowError, sample_at noon).
Proof.
  assert (Hout : ordinal noon <= 7 * 105556 + 7) by (vm_compute; congruence).
  split; [split; [exact noon_valid|]; split; [lia | exact Hout]|].
  exact (get_weekly_summary_before_calendar (sample_at noon) 105556
           noon_valid ltac:(lia) Hout).
Defined.

Lemma weeks_tile_the_past_witness :
  (valid midnight
   /\ strptime (FitnessActivity.date run_day7)
      = Ok {| ordinal := ordinal midnight - 7; usec := 0 |}
   /\ 7 * 0 + 7 < ordinal midnight /\ 7 * 1 + 7 < ordinal midnight
   /\ usec midnight = 0)
  /\ counted_in_week midnight 0 run_day7 = Ok true
  /\ counted_in_week midnight 1 run_day7 = Ok true.
Proof.
  assert (H0 : 7 * 0 + 7 < ordinal midnight) by reflexivity.
  assert (H1 : 7 * 1 + 7 < ordinal midnight) by reflexivity.
  split; [split; [exact midnight_valid|]; by repeat split|].
  exact (proj2 (weeks_tile_the_past midnight run_day7
                  {| ordinal := ordinal midnight - 7; usec := 0 |} 0 1
                  midnight_valid eq_refl ltac:(lia) H0 ltac:(lia) H1)
           eq_refl eq_refl eq_refl).
Defined.

Lemma undated_activity_is_in_the_current_week_witness :
  (valid noon /\ valid midnight /\ truthy VNone = false /\ 7 < ordinal midnight
   /\ ordinal noon <= ordinal midnight <= ordinal noon + 6)
  /\ strptime (FitnessActivity.date run_today)
     = Ok {| ordinal := ordinal noon; usec := 0 |}
  /\ counted_in_week midnight 0 run_today = Ok true.
Proof.
  assert (H7 : 7 < ordinal midnight) by reflexivity.
  assert (Hdays : ordinal noon <= ordinal midnight <= ordinal noon + 6)
    by (split; vm_compute; congruence).
  split; [split; [exact noon_valid|]; split; [exact midnight_valid|]; by repeat split|].
  exact (undated_activity_is_in_the_current_week noon midnight
           (VStr "running") (VFloat 20) (VFloat 250) VNone (VFloat 5) VNone
           noon_valid midnight_valid eq_refl H7 Hdays).
Defined.

Lemma get_weekly_summary_names_its_bounds_witness :
  (0 <= 0 /\ valid noon /\ ymd2ord 1000 1 1 <= ordinal noon - 7 * 0 - 7)
  /\ exists s,
      fst (get_weekly_summary 0 (sample_at noon)) = Ok s
      /\ strptime (VStr (start_date s))
         = Ok {| ordinal := ordinal noon - 7 * 0 - 7; usec := 0 |}.
Proof.
  assert (H7 : ymd2ord 1000 1 1 <= ordinal noon - 7 * 0 - 7) by (vm_compute; discriminate).
  split; [split; [lia|]; split; [exact noon_valid | exact H7]|].
  assert (Es : fst (get_weekly_summary 0 (sample_at noon))
               = Ok {| start_date := "2024-01-01";
                       end_date := "2024-01-08";
                       total_calories := VFloat 250;
                       total_duration := VFloat 20;
                       activity_count := 1 |}) by (vm_compute; reflexivity).
  eexists. split; [exact Es|].
  exact (proj2 (get_weekly_summary_names_its_bounds (sample_at noon) 0 _
                  ltac:(lia) noon_valid H7 Es)).
Defined.

End MoreSamples.

(** ** The console: what is written *)

Section Display.
Import Console.

(** Unfolds the plumbing of [IO]. *)
Ltac io :=
  unfold mbind, mret, IO_mbind, IO_mret, IO_bind, IO_ret, print, input, call, fail;
  cbn [world stdin stdout fst snd].

Lemma display_from_spec (acts : list FitnessActivity.t) :
  forall i p,
    display_from i acts p =
    (Returned tt,
     {| world := world p; stdin := stdin p;
        stdout := stdout p ++ display_lines i acts |}).
Proof.
  induction acts as [|a acts IH]; intros i p; cbn [display_from display_lines].
  - destruct p. io. by rewrite app_nil_r.
  - unfold display_block. io.
    destruct (truthy (FitnessActivity.distance a)), (truthy (FitnessActivity.notes a));
      io; rewrite IH; cbn [world stdin stdout];
      do 2 f_equal; by rewrite <- !app_assoc.
Qed.

Lemma display_all_activities_spec (p : process) :
  display_all_activities p =
  (Returned tt,
   {| world := world p; stdin := stdin p;
      stdout := stdout p ++ display_heading ++ display_lines 1 (activities_of p) |}).
Proof.
  unfold display_all_activities, FitnessTracker.get_activities. io.
  rewrite display_from_spec.
  cbn [world stdin stdout]. unfold display_heading, activities_of.
  do 2 f_equal. by rewrite <- !app_assoc.
Qed.

(** The numbers of the blocks follow the positions. *)
Lemma display_lines_numbered (acts : list FitnessActivity.t) :
  forall i,
    display_lines i acts
    = concat (imap (fun k a => display_block (i + Z.of_nat k) a) acts).
Proof.
  induction acts as [|a acts IH]; intros i; [reflexivity|].
  cbn [display_lines]. rewrite IH, imap_cons. cbn [concat].
  replace (i + Z.of_nat 0) with i by lia. do 2 f_equal.
  apply imap_ext. intros k b _. unfold compose. f_equal. lia.
Qed.

(** X20: [display_all_activities] only writes: the tracker, the files and
    the input are as before.  After the two lines of the heading it writes
    one block per activity, in the order of the store, the block of
    position [k] under the number [k + 1]; a block has a line for the
    distance only if the distance counts as true, so that a distance of 0
    is not shown, and likewise for the notes. *)
Theorem display_all_activities_writes :
  forall (p : process),
    display_all_activities p =
    (Returned tt,
     {| world := world p; stdin := stdin p;
        stdout :=
          stdout p ++ display_heading
          ++ concat (imap (fun k a => display_block (Z.of_nat k + 1) a) (activities_of p)) |})
    /\ (forall (i : Z) (a : FitnessActivity.t) (v : value),
          Printed [Text "   Distance: "; Shown v; Text " km"] ∈ display_block i a
          <-> v = FitnessActivity.distance a /\ truthy v = true)
    /\ (forall (i : Z) (a : FitnessActivity.t) (v : value),
          Printed [Text "   Notes: "; Shown v] ∈ display_block i a
          <-> v = FitnessActivity.notes a /\ truthy v = true).
Proof.
  intros p. split; [|split].
  - rewrite display_all_activities_spec, display_lines_numbered.
    do 5 f_equal. apply imap_ext. intros k a _. f_equal. lia.
  - intros i a v. unfold display_block.
    rewrite !elem_of_app, !elem_of_cons, !elem_of_nil. split.
    + intros [[H|[H|[]]]|[H|[H|[H|[]]]]]; try discriminate H.
      * destruct (truthy (FitnessActivity.distance a)) eqn:Ed;
          [|by apply elem_of_nil in H].
        apply list_elem_of_singleton in H. injection H as ->. by split.
      * destruct (truthy (FitnessActivity.notes a)); [|by apply elem_of_nil in H].
        apply list_elem_of_singleton in H. discriminate H.
    + intros [-> ->]. right. left. apply list_elem_of_here.
  - intros i a v. unfold display_block.
    rewrite !elem_of_app, !elem_of_cons, !elem_of_nil. split.
    + intros [[H|[H|[]]]|[H|[H|[H|[]]]]]; try discriminate H.
      * destruct (truthy (FitnessActivity.distance a)); [|by apply elem_of_nil in H].
        apply list_elem_of_singleton in H. discriminate H.
      * destruct (truthy (FitnessActivity.notes a)) eqn:En;
          [|by apply elem_of_nil in H].
        apply list_elem_of_singleton in H. injection H as ->. by split.
    + intros [-> ->]. right. right. left. apply list_elem_of_here.
Qed.

End Display.

(** ** The console: the menu *)

Section MenuProofs.
Import Console.

Variable to_float : string -> option float.
Variable to_int : string -> option Z.

Ltac io :=
  unfold mbind, mret, IO_mbind, IO_mret, IO_bind, IO_ret, print, input, call, fail;
  cbn [world stdin stdout fst snd].

(** *** Commands that only write *)

Lemma only_writes_print text : only_writes (print text).
Proof. intros p. by exists tt, [Printed text]. Qed.

Lemma only_writes_ret {A} (a : A) : only_writes (mret a : IO A).
Proof. intros [w i o]. exists a, []. io. by rewrite app_nil_r. Qed.

Lemma only_writes_bind {A B} (m : IO A) (f : A -> IO B) :
  only_writes m -> (forall a, only_writes (f a)) -> only_writes (m ≫= f).
Proof.
  intros Hm Hf p. destruct (Hm p) as (a & out & Ea).
  destruct (Hf a {| world := world p; stdin := stdin p; stdout := stdout p ++ out |})
    as (b & out' & Eb).
  exists b, (out ++ out'). unfold mbind, IO_mbind, IO_bind. rewrite Ea, Eb.
  cbn [world stdin stdout]. by rewrite app_assoc.
Qed.

Lemma only_writes_display : only_writes display_all_activities.
Proof. intros p. eexists tt, _. apply display_all_activities_spec. Qed.

Lemma only_writes_list_by_date acts : forall i, only_writes (list_by_date i acts).
Proof.
  induction acts as [|a acts IH]; intros i; cbn [list_by_date].
  - apply only_writes_ret.
  - apply only_writes_bind; [apply only_writes_print | intros _; apply IH].
Qed.

Lemma only_writes_list_by_type acts : forall i, only_writes (list_by_type i acts).
Proof.
  induction acts as [|a acts IH]; intros i; cbn [list_by_type].
  - apply only_writes_ret.
  - apply only_writes_bind; [apply only_writes_print | intros _; apply IH].
Qed.

Lemma only_writes_reads {A} (m : IO A) : only_writes m -> reads m.
Proof. intros Hm p. destruct (Hm p) as (a & out & ->). reflexivity. Qed.

Lemma only_writes_quiet {A} (m : IO A) : only_writes m -> quiet m.
Proof. intros Hm p. destruct (Hm p) as (a & out & ->). reflexivity. Qed.

Lemma only_writes_keeps {A} (m : IO A) : only_writes m -> keeps m.
Proof.
  intros Hm p Hp. destruct (Hm p) as (a & out & ->). cbn [fst snd stdin].
  split; [exact Hp|]. split; [reflexivity | discriminate].
Qed.

(** *** Commands that only consume input *)

Lemma reads_bind {A B} (m : IO A) (f : A -> IO B) :
  reads m -> (forall a, reads (f a)) -> reads (m ≫= f).
Proof.
  intros Hm Hf p. unfold mbind, IO_mbind, IO_bind.
  specialize (Hm p). destruct (m p) as [[a|e] p']; cbn [snd] in *; [|exact Hm].
  specialize (Hf a p'). lia.
Qed.

Lemma reads_input prompt : reads (input prompt).
Proof. intros p. unfold input. destruct (stdin p); cbn; lia. Qed.

Lemma reads_call {A} (m : FitnessTracker.M A) : reads (call m).
Proof. intros p. unfold call. by destruct (m (world p)). Qed.

Lemma reads_fail {A} f : reads (fail f : IO A).
Proof. intros p. reflexivity. Qed.

(** *** Commands that leave the tracker alone *)

Lemma quiet_bind {A B} (m : IO A) (f : A -> IO B) :
  quiet m -> (forall a, quiet (f a)) -> quiet (m ≫= f).
Proof.
  intros Hm Hf p. unfold mbind, IO_mbind, IO_bind.
  specialize (Hm p). destruct (m p) as [[a|e] p']; cbn [snd] in *; [|exact Hm].
  specialize (Hf a p'). congruence.
Qed.

Lemma quiet_input prompt : quiet (input prompt).
Proof. intros p. unfold input. by destruct (stdin p). Qed.

Lemma quiet_call {A} (m : FitnessTracker.M A) : read_only m -> quiet (call m).
Proof.
  intros Hm p. unfold call. specialize (Hm (world p)).
  by destruct (m (world p)).
Qed.

Lemma quiet_fail {A} f : quiet (fail f : IO A).
Proof. intros p. reflexivity. Qed.

Ltac step_reads :=
  first
    [ apply reads_input
    | apply reads_call
    | apply reads_fail
    | apply only_writes_reads;
      first [ apply only_writes_print | apply only_writes_ret | apply only_writes_display
            | apply only_writes_list_by_date | apply only_writes_list_by_type ]
    | apply reads_bind; [|intros ?]
    | match goal with
      | |- reads (if ?c then _ else _) => destruct c
      | |- reads (match ?x with _ => _ end) => destruct x
      end ].

Ltac step_quiet :=
  first
    [ apply quiet_input
    | apply quiet_fail
    | apply quiet_call;
      first [ apply read_only_get_activities | apply read_only_get_activities_by_date
            | apply read_only_get_activities_by_type | apply read_only_get_total_calories
            | apply read_only_get_total_duration | apply read_only_get_weekly_summary ]
    | apply only_writes_quiet;
      first [ apply only_writes_print | apply only_writes_ret | apply only_writes_display
            | apply only_writes_list_by_date | apply only_writes_list_by_type ]
    | apply quiet_bind; [|intros ?]
    | match goal with
      | |- quiet (if ?c then _ else _) => destruct c
      | |- quiet (match ?x with _ => _ end) => destruct x
      end ].

Lemma reads_choice_add : reads (choice_add to_float).
Proof. unfold choice_add, float_of. repeat step_reads. Qed.

Lemma reads_choice_by_date : reads choice_by_date.
Proof. unfold choice_by_date. repeat step_reads. Qed.

Lemma reads_choice_by_type : reads choice_by_type.
Proof. unfold choice_by_type. repeat step_reads. Qed.

Lemma reads_choice_week : reads (choice_week to_int).
Proof. unfold choice_week, int_of. repeat step_reads. Qed.

Lemma reads_choice_delete : reads (choice_delete to_int).
Proof. unfold choice_delete, int_of. repeat step_reads. Qed.

Lemma reads_choice_totals : reads choice_totals.
Proof. unfold choice_totals. repeat step_reads. Qed.

Lemma quiet_choice_by_date : quiet choice_by_date.
Proof. unfold choice_by_date. repeat step_quiet. Qed.

Lemma quiet_choice_by_type : quiet choice_by_type.
Proof. unfold choice_by_type. repeat step_quiet. Qed.

Lemma quiet_choice_week : quiet (choice_week to_int).
Proof. unfold choice_week, int_of. repeat step_quiet. Qed.

Lemma quiet_choice_totals : quiet choice_totals.
Proof. unfold choice_totals. repeat step_quiet. Qed.

(** *** A turn, once the choice is read *)

Lemma bind_returned {A B} (m : IO A) (f : A -> IO B) p a p' :
  m p = (Returned a, p') -> (m ≫= f) p = f a p'.
Proof. intros E. unfold mbind, IO_mbind, IO_bind. by rewrite E. Qed.

Lemma bind_failed {A B} (m : IO A) (f : A -> IO B) p e p' :
  m p = (Failed e, p') -> (m ≫= f) p = (Failed e, p').
Proof. intros E. unfold mbind, IO_mbind, IO_bind. by rewrite E. Qed.

Lemma print_menu_spec (p : process) :
  print_menu p =
  (Returned tt,
   {| world := world p; stdin := stdin p; stdout := stdout p ++ take 9 menu_lines |}).
Proof. unfold print_menu. io. by rewrite <- !app_assoc. Qed.

Lemma menu_turn_eof (p : process) :
  stdin p = [] ->
  menu_turn to_float to_int p =
  (Failed EOFError, after_choice p []).
Proof.
  intros Hin. unfold menu_turn.
  erewrite bind_returned by apply print_menu_spec.
  erewrite bind_failed; [reflexivity|].
  unfold input, after_choice. cbn [world stdin stdout]. rewrite Hin.
  by rewrite <- app_assoc.
Qed.

Lemma menu_turn_choice (p : process) (choice : string) (rest : list string) :
  stdin p = choice :: rest ->
  menu_turn to_float to_int p =
  (if String.eqb choice "1" then choice_add to_float;; mret true
   else if String.eqb choice "2" then display_all_activities;; mret true
   else if String.eqb choice "3" then choice_by_date;; mret true
   else if String.eqb choice "4" then choice_by_type;; mret true
   else if String.eqb choice "5" then choice_week to_int;; mret true
   else if String.eqb choice "6" then choice_delete to_int;; mret true
   else if String.eqb choice "7" then choice_totals;; mret true
   else if String.eqb choice "8" then
     print [Text "Exiting Fitness Tracker. Goodbye!"];; mret false
   else
     print [Text "Invalid choice. Please enter a number between 1 and 8."];; mret true)
    (after_choice p rest).
Proof.
  intros Hin. unfold menu_turn.
  erewrite bind_returned by apply print_menu_spec.
  erewrite bind_returned; [reflexivity|].
  unfold input, after_choice. cbn [world stdin stdout]. rewrite Hin.
  by rewrite <- app_assoc.
Qed.

(** X21: only choices 1 and 6 can change anything: after a turn with any
    other line typed as the choice (a listing, a summary, the totals, the
    exit, a choice that does not exist) or with no input left, the tracker,
    its sequence, the files and the clock are as before, also when the turn
    ends in an exception. *)
Theorem other_choices_change_nothing :
  forall (p : process),
    head (stdin p) <> Some "1"%string ->
    head (stdin p) <> Some "6"%string ->
    world (snd (menu_turn to_float to_int p)) = world p.
Proof.
  intros p H1 H6. destruct (stdin p) as [|choice rest] eqn:Hin.
  - by rewrite menu_turn_eof.
  - rewrite (menu_turn_choice p choice rest Hin). cbn [head] in H1, H6.
    assert (Hquiet : forall (h : IO unit) (b : bool),
              quiet h -> world (snd ((h;; mret b) (after_choice p rest))) = world p).
    { intros h b Hh.
      assert (Hseq : quiet (h;; (mret b : IO bool)))
        by (apply quiet_bind; [exact Hh | intros _; apply only_writes_quiet, only_writes_ret]).
      exact (Hseq (after_choice p rest)). }
    destruct (String.eqb_spec choice "1"); [congruence|].
    destruct (String.eqb_spec choice "2");
      [apply Hquiet, only_writes_quiet, only_writes_display|].
    destruct (String.eqb_spec choice "3"); [apply Hquiet, quiet_choice_by_date|].
    destruct (String.eqb_spec choice "4"); [apply Hquiet, quiet_choice_by_type|].
    destruct (String.eqb_spec choice "5"); [apply Hquiet, quiet_choice_week|].
    destruct (String.eqb_spec choice "6"); [congruence|].
    destruct (String.eqb_spec choice "7"); [apply Hquiet, quiet_choice_totals|].
    destruct (String.eqb_spec choice "8");
      apply Hquiet, only_writes_quiet, only_writes_print.
Qed.

(** *** The loop *)

(** A turn that returns has read at least the choice. *)
Lemma menu_turn_reads_a_line (p : process) (again : bool) (p' : process) :
  menu_turn to_float to_int p = (Returned again, p') ->
  (length (stdin p') < length (stdin p))%nat.
Proof.
  destruct (stdin p) as [|choice rest] eqn:Hin.
  - rewrite menu_turn_eof by exact Hin. discriminate.
  - rewrite (menu_turn_choice p choice rest Hin). intros Hturn.
    assert (Hreads : forall (h : IO unit) (b : bool),
              reads h -> (h;; mret b) (after_choice p rest) = (Returned again, p') ->
              (length (stdin p') <= length rest)%nat).
    { intros h b Hh Hrun.
      assert (Hseq : reads (h;; (mret b : IO bool)))
        by (apply reads_bind; [exact Hh | intros _; apply only_writes_reads, only_writes_ret]).
      specialize (Hseq (after_choice p rest)). by rewrite Hrun in Hseq. }
    cbn [length]. apply Nat.lt_succ_r. revert Hturn.
    destruct (String.eqb choice "1"); [apply Hreads, reads_choice_add|].
    destruct (String.eqb choice "2");
      [apply Hreads, only_writes_reads, only_writes_display|].
    destruct (String.eqb choice "3"); [apply Hreads, reads_choice_by_date|].
    destruct (String.eqb choice "4"); [apply Hreads, reads_choice_by_type|].
    destruct (String.eqb choice "5"); [apply Hreads, reads_choice_week|].
    destruct (String.eqb choice "6"); [apply Hreads, reads_choice_delete|].
    destruct (String.eqb choice "7"); [apply Hreads, reads_choice_totals|].
    destruct (String.eqb choice "8");
      apply Hreads, only_writes_reads, only_writes_print.
Qed.

Lemma menu_loop_enough (n : nat) :
  forall (m : nat) (p : process),
    (length (stdin p) < n)%nat -> (length (stdin p) < m)%nat ->
    menu_loop to_float to_int n p = menu_loop to_float to_int m p
    /\ fst (menu_loop to_float to_int n p) <> Returned false.
Proof.
  induction n as [|n IH]; intros m p Hn Hm; [lia|].
  destruct m as [|m]; [lia|]. cbn [menu_loop].
  unfold mbind, IO_mbind, IO_bind.
  destruct (menu_turn to_float to_int p) as [[again|f] p'] eqn:Hturn.
  - destruct again.
    + apply menu_turn_reads_a_line in Hturn. apply IH; lia.
    + split; [reflexivity | discriminate].
  - split; [reflexivity | discriminate].
Qed.

(** X22: the loop of [main] never stops for lack of turns: with any number
    of turns above the number of lines left to read it runs as with any
    other such number, and it ends only by the exit of choice 8 or by an
    exception. *)
Theorem main_loop_runs_to_the_end :
  forall (p : process),
    (forall turns : nat,
       (length (stdin p) < turns)%nat ->
       menu_loop to_float to_int turns p = menu_forever to_float to_int p)
    /\ fst (menu_forever to_float to_int p) <> Returned false
    /\ fst (main to_float to_int p) <> Returned false.
Proof.
  intros p. split; [|split].
  - intros turns Hturns. unfold menu_forever. apply menu_loop_enough; lia.
  - unfold menu_forever. apply (menu_loop_enough _ (S (length (stdin p)))); lia.
  - unfold main, mbind, IO_mbind, IO_bind.
    destruct (call _ p) as [[[]|f] p1]; [|discriminate].
    unfold menu_forever. apply (menu_loop_enough _ (S (length (stdin p1)))); lia.
Qed.

(** *** Choice 6: deleting by the number shown *)

Lemma menu_turn_6 (p : process) (rest : list string) :
  stdin p = "6"%string :: rest ->
  menu_turn to_float to_int p
  = (choice_delete to_int;; mret true) (after_choice p rest).
Proof. intros Hin. by rewrite (menu_turn_choice p _ _ Hin). Qed.

(** X23: choice 6 with a number typed.  On a store that is not empty the
    turn shows the store, asks for a number and goes on to the next turn.
    A number from 1 to the length of the store deletes the activity shown
    under that number, the one at the position one below, and the file
    holds the shorter sequence; any other number, 0 and the negative ones
    too, changes nothing and is answered by the message of an invalid
    number. *)
Theorem menu_delete_by_number :
  forall (p : process) (line : string) (rest : list string) (number : Z),
    stdin p = "6"%string :: line :: rest ->
    activities_of p <> [] ->
    to_int line = Some number ->
    let shown :=
      stdout p ++ menu_lines ++ display_heading ++ display_lines 1 (activities_of p)
      ++ [Prompted "Enter activity number to delete: "] in
    exists p',
      menu_turn to_float to_int p = (Returned true, p')
      /\ stdin p' = rest
      /\ (1 <= number <= Z.of_nat (length (activities_of p)) ->
          activities_of p' = delete (Z.to_nat (number - 1)) (activities_of p)
          /\ mirrored (world p')
          /\ FitnessTracker.clock (world p') = FitnessTracker.clock (world p)
          /\ stdout p' = shown ++ [Printed [Text "Activity deleted successfully!"]])
      /\ (~ 1 <= number <= Z.of_nat (length (activities_of p)) ->
          world p' = world p
          /\ stdout p' = shown ++ [Printed [Text "Invalid activity number."]]).
Proof.
  intros p line rest number Hin Hsome Hint shown. subst shown.
  rewrite (menu_turn_6 p _ Hin). unfold choice_delete.
  unfold mbind, IO_mbind, IO_bind. rewrite display_all_activities_spec.
  unfold call at 1. unfold FitnessTracker.get_activities at 1.
  cbn [world stdin stdout after_choice].
  change (FitnessTracker.activities (FitnessTracker.self (world p)))
    with (activities_of p).
  change (activities_of (after_choice p (line :: rest))) with (activities_of p).
  destruct (activities_of p) as [|a acts] eqn:Hacts; [done|].
  unfold input. cbn [world stdin stdout]. unfold int_of. rewrite Hint.
  unfold mret at 1. unfold IO_mret, IO_ret. unfold call. cbn [world stdin stdout].
  unfold activities_of in Hacts.
  destruct (decide (1 <= number <= Z.of_nat (length (a :: acts)))) as [Hin_range|Hout].
  - rewrite delete_activity_spec by (rewrite Hacts; lia).
    eexists. split; [reflexivity|]. split; [reflexivity|]. split; [|done].
    intros _. unfold activities_of, mirrored.
    cbn [world stdin stdout
         FitnessTracker.self FitnessTracker.files FitnessTracker.clock
         FitnessTracker.activities FitnessTracker.data_file].
    rewrite Hacts. split; [reflexivity|]. split; [by rewrite lookup_insert_eq|].
    split; [reflexivity|]. by rewrite <- !app_assoc.
  - rewrite delete_activity_refused by (rewrite Hacts; lia).
    eexists. split; [reflexivity|]. split; [reflexivity|]. split; [done|].
    intros _. cbn [world stdin stdout]. split; [reflexivity|].
    by rewrite <- !app_assoc.
Qed.

(** X24: choice 6 on an empty store shows the empty listing and asks for no
    number: nothing is read after the choice, so that the next line typed
    is taken as the next choice, and nothing changes. *)
Theorem menu_delete_on_empty_store :
  forall (p : process) (rest : list string),
    stdin p = "6"%string :: rest ->
    activities_of p = [] ->
    menu_turn to_float to_int p =
    (Returned true,
     {| world := world p; stdin := rest;
        stdout := stdout p ++ menu_lines ++ display_heading |}).
Proof.
  intros p rest Hin Hnone.
  rewrite (menu_turn_6 p _ Hin). unfold choice_delete.
  unfold mbind, IO_mbind, IO_bind. rewrite display_all_activities_spec.
  unfold call at 1. unfold FitnessTracker.get_activities at 1.
  cbn [world stdin stdout after_choice].
  change (FitnessTracker.activities (FitnessTracker.self (world p)))
    with (activities_of p).
  change (activities_of (after_choice p rest)) with (activities_of p).
  rewrite Hnone. cbn [display_lines]. unfold mret, IO_mret, IO_ret.
  by rewrite app_nil_r, <- app_assoc.
Qed.

(** *** Choice 1: adding what was typed *)

Lemma menu_turn_1 (p : process) (rest : list string) :
  stdin p = "1"%string :: rest ->
  menu_turn to_float to_int p
  = (choice_add to_float;; mret true) (after_choice p rest).
Proof. intros Hin. by rewrite (menu_turn_choice p _ _ Hin). Qed.

(** X25: choice 1 with its five lines typed, the duration and the calories
    spelling numbers, and the distance left empty or spelling a number.
    The turn appends one activity and goes on: its type is the line as
    typed, its amounts are the numbers read, a distance or notes left empty
    are [None], its date is the day of the clock.  The file then holds the
    longer sequence. *)
Theorem menu_add_records :
  forall (p : process) (activity_type duration_line calories_line distance_line notes : string)
         (rest : list string) (duration calories : float) (distance : value),
    stdin p = "1"%string :: activity_type :: duration_line :: calories_line
              :: distance_line :: notes :: rest ->
    to_float duration_line = Some duration ->
    to_float calories_line = Some calories ->
    (distance_line = ""%string /\ distance = VNone
     \/ distance_line <> ""%string
        /\ exists x, to_float distance_line = Some x /\ distance = VFloat x) ->
    exists p',
      menu_turn to_float to_int p = (Returned true, p')
      /\ stdin p' = rest
      /\ activities_of p' =
         activities_of p
         ++ [ {| FitnessActivity.activity_type := VStr activity_type;
                 FitnessActivity.duration := VFloat duration;
                 FitnessActivity.calories := VFloat calories;
                 FitnessActivity.distance := distance;
                 FitnessActivity.notes :=
                   if String.eqb notes "" then VNone else VStr notes;
                 FitnessActivity.date :=
                   VStr (strftime (FitnessTracker.clock (world p))) |} ]
      /\ mirrored (world p')
      /\ FitnessTracker.clock (world p') = FitnessTracker.clock (world p)
      /\ last (stdout p') = Some (Printed [Text "Activity added successfully!"]).
Proof.
  intros p ty dl cl distl notes rest d c dist Hin Hd Hc Hdist.
  rewrite (menu_turn_1 p _ Hin). unfold choice_add, after_choice.
  unfold float_of. io. rewrite Hd. io. rewrite Hc. io.
  assert (Hread :
    (if String.eqb distl "" then Some VNone
     else match to_float distl with Some x => Some (VFloat x) | None => None end)
    = Some dist).
  { destruct Hdist as [[-> ->]|[Hne (x & Hx & ->)]]; [reflexivity|].
    apply String.eqb_neq in Hne. by rewrite Hne, Hx. }
  destruct (String.eqb distl "");
    [|destruct (to_float distl); [|discriminate Hread]];
    injection Hread as <-; io.
  all: unfold FitnessTracker.now; cbn [world stdin stdout].
  all: rewrite add_activity_spec; cbn [world stdin stdout].
  all: eexists; split; [reflexivity|]; split; [reflexivity|].
  all: unfold activities_of, mirrored, FitnessActivity.__init__.
  all: cbn [world stdin stdout truthy
            FitnessTracker.self FitnessTracker.files FitnessTracker.clock
            FitnessTracker.activities FitnessTracker.data_file].
  all: split; [reflexivity|]; split; [by rewrite lookup_insert_eq|].
  all: split; [reflexivity|]; apply last_snoc.
Qed.

(** X26: choice 1 stores all or nothing.  When the turn ends early, because
    the input ends before the five lines are typed or because a line for
    the duration, the calories or the distance spells no number, the
    tracker, its sequence and the file are as before the turn: the activity
    is built and stored only after every line is read.  It ends early in
    no other way. *)
Theorem menu_add_all_or_nothing :
  forall (p : process) (rest : list string) (f : failure),
    stdin p = "1"%string :: rest ->
    fst (menu_turn to_float to_int p) = Failed f ->
    world (snd (menu_turn to_float to_int p)) = world p
    /\ (f = EOFError \/ f = Uncaught ValueError).
Proof.
  intros p rest f Hin. rewrite (menu_turn_1 p _ Hin).
  unfold choice_add, float_of, after_choice. io.
  repeat
    (first
       [ progress io
       | match goal with
         | |- context [match ?l with [] => _ | _ :: _ => _ end] => is_var l; destruct l
         | |- context [to_float ?s] => destruct (to_float s)
         | |- context [String.eqb ?a ""] => destruct (String.eqb a "")
         end ]).
  all: try (intros [= <-]; split; [reflexivity | tauto]).
  all: unfold FitnessTracker.now; cbn [world stdin stdout];
    rewrite add_activity_spec; cbn [fst]; discriminate.
Qed.

(** *** Sound stores stay sound *)

Lemma date_parses_is_set (a : FitnessActivity.t) : date_parses a -> date_is_set a.
Proof.
  unfold date_parses, date_is_set, is_Ok.
  intros [d Hd]. destruct (FitnessActivity.date a) as [| | | |s| |]; try discriminate Hd.
  destruct s; [discriminate Hd | reflexivity].
Qed.

Lemma menu_made_new (today : datetime) (ty : string) (d c : float) (dist nt : value) :
  valid today ->
  menu_made (FitnessActivity.__init__ today (VStr ty) (VFloat d) (VFloat c) VNone dist nt).
Proof.
  intros [Hord _]. split; [by eexists|]. split; [by eexists _, _|].
  unfold date_parses, FitnessActivity.__init__. cbn [FitnessActivity.date truthy].
  rewrite strptime_strftime by exact Hord. by eexists.
Qed.

Lemma sound_same_world (p p' : process) : world p' = world p -> sound p -> sound p'.
Proof. unfold sound, activities_of. by intros ->. Qed.

Lemma keeps_bind_post {A B} (m : IO A) (f : A -> IO B) (Q : A -> Prop) :
  keeps m ->
  (forall p a, sound p -> fst (m p) = Returned a -> Q a) ->
  (forall a, Q a -> keeps (f a)) ->
  keeps (m ≫= f).
Proof.
  intros Hm HQ Hf p Hp. unfold mbind, IO_mbind, IO_bind.
  destruct (Hm p Hp) as (Hs & Hl & Hfail). specialize (HQ p).
  destruct (m p) as [[a|e] p'] eqn:E; cbn [fst snd] in *.
  - destruct (Hf a (HQ a Hp eq_refl) p' Hs) as (Hs' & Hl' & Hfail').
    split; [exact Hs'|]. split; [lia | exact Hfail'].
  - split; [exact Hs|]. split; [exact Hl|].
    intros f' [= <-]. by apply Hfail.
Qed.

Lemma keeps_bind {A B} (m : IO A) (f : A -> IO B) :
  keeps m -> (forall a, keeps (f a)) -> keeps (m ≫= f).
Proof. intros Hm Hf. apply (keeps_bind_post m f (fun _ => True)); auto. Qed.

Lemma keeps_input prompt : keeps (input prompt).
Proof.
  intros p Hp. unfold input, expected.
  destruct (stdin p) as [|line rest] eqn:E; cbn [fst snd stdin length].
  - split; [by eapply sound_same_world, Hp|]. split; [lia|]. intros f [= <-]. auto.
  - split; [by eapply sound_same_world, Hp|]. split; [lia|]. discriminate.
Qed.

Lemma keeps_fail {A} (f : failure) : expected f -> keeps (fail f : IO A).
Proof.
  intros Hf p Hp. unfold fail. cbn [fst snd].
  split; [exact Hp|]. split; [lia|]. by intros f' [= <-].
Qed.

Lemma keeps_float_of (s : string) : keeps (float_of to_float s).
Proof.
  unfold float_of. destruct (to_float s).
  - apply only_writes_keeps, only_writes_ret.
  - apply keeps_fail. unfold expected. auto.
Qed.

Lemma keeps_int_of (s : string) : keeps (int_of to_int s).
Proof.
  unfold int_of. destruct (to_int s).
  - apply only_writes_keeps, only_writes_ret.
  - apply keeps_fail. unfold expected. auto.
Qed.

(** A method that keeps the store as the menu builds it, and raises only
    what the menu expects. *)
Lemma keeps_call {A} (m : FitnessTracker.M A) :
  (forall w,
     valid (FitnessTracker.clock w) ->
     Forall menu_made (FitnessTracker.activities (FitnessTracker.self w)) ->
     (valid (FitnessTracker.clock (snd (m w)))
      /\ Forall menu_made (FitnessTracker.activities (FitnessTracker.self (snd (m w)))))
     /\ (forall e, fst (m w) = Raise e -> e = ValueError \/ e = OverflowError)) ->
  keeps (call m).
Proof.
  intros Hm p [Hc Ha]. unfold call. specialize (Hm (world p) Hc Ha).
  destruct (m (world p)) as [r w]. cbn [fst snd stdin] in *.
  destruct Hm as [Hs He]. split; [exact Hs|]. split; [lia|].
  intros f. destruct r as [a|e]; [discriminate|]. intros [= <-].
  unfold expected. destruct (He e eq_refl) as [-> | ->]; auto.
Qed.

Lemma keeps_call_read_only {A} (m : FitnessTracker.M A) :
  read_only m ->
  (forall w,
     valid (FitnessTracker.clock w) ->
     Forall menu_made (FitnessTracker.activities (FitnessTracker.self w)) ->
     forall e, fst (m w) = Raise e -> e = ValueError \/ e = OverflowError) ->
  keeps (call m).
Proof.
  intros Hread Hm. apply keeps_call. intros w Hc Ha.
  rewrite (Hread w). split; [by split|]. by apply Hm.
Qed.

Lemma keeps_get_activities : keeps (call FitnessTracker.get_activities).
Proof. apply keeps_call_read_only; [apply read_only_get_activities | discriminate]. Qed.

Lemma keeps_now : keeps (call FitnessTracker.now).
Proof. apply keeps_call. intros w Hc Ha. split; [by split | discriminate]. Qed.

Lemma keeps_add_activity (a : FitnessActivity.t) :
  menu_made a -> keeps (call (FitnessTracker.add_activity a)).
Proof.
  intros Hnew. apply keeps_call. intros w Hc Ha. rewrite add_activity_spec.
  cbn [fst snd FitnessTracker.self FitnessTracker.activities FitnessTracker.clock].
  split; [|discriminate]. split; [exact Hc|].
  apply Forall_app. split; [exact Ha | by constructor].
Qed.

Lemma keeps_delete_activity (index : Z) :
  keeps (call (FitnessTracker.delete_activity index)).
Proof.
  apply keeps_call. intros w Hc Ha.
  destruct (decide (0 <= index
                    < Z.of_nat (length (FitnessTracker.activities (FitnessTracker.self w)))))
    as [Hin|Hout].
  - rewrite delete_activity_spec by exact Hin.
    cbn [fst snd FitnessTracker.self FitnessTracker.activities FitnessTracker.clock].
    split; [|discriminate]. split; [exact Hc|]. by apply Forall_delete.
  - rewrite delete_activity_refused by exact Hout. split; [by split | discriminate].
Qed.

Lemma keeps_get_activities_by_date (date : string) :
  keeps (call (FitnessTracker.get_activities_by_date date)).
Proof.
  apply keeps_call_read_only; [apply read_only_get_activities_by_date | discriminate].
Qed.

Lemma keeps_get_activities_by_type (activity_type : string) :
  keeps (call (FitnessTracker.get_activities_by_type activity_type)).
Proof.
  apply keeps_call_read_only; [apply read_only_get_activities_by_type|].
  intros w _ Ha e. rewrite get_activities_by_type_filter; [discriminate|].
  eapply Forall_impl; [exact Ha|]. by intros a [Hty _].
Qed.

Lemma floats_of_menu_made (field : FitnessActivity.t -> value) (acts : list FitnessActivity.t) :
  (forall a, amounts_are_float a -> exists x, field a = VFloat x) ->
  Forall menu_made acts ->
  Forall (fun v => exists x, v = VFloat x) (map field acts).
Proof.
  intros Hfield Ha. apply Forall_map. eapply Forall_impl; [exact Ha|].
  intros a (_ & Hfl & _). by apply Hfield.
Qed.

Lemma calories_float a : amounts_are_float a -> exists x, FitnessActivity.calories a = VFloat x.
Proof. intros (c & d & Hc & Hd). by exists c. Qed.

Lemma duration_float a : amounts_are_float a -> exists x, FitnessActivity.duration a = VFloat x.
Proof. intros (c & d & Hc & Hd). by exists d. Qed.

Lemma keeps_get_total_calories : keeps (call FitnessTracker.get_total_calories).
Proof.
  apply keeps_call_read_only; [apply read_only_get_total_calories|].
  intros w _ Ha e.
  unfold FitnessTracker.get_total_calories, mbind, FitnessTracker.M_mbind,
    FitnessTracker.M_bind, FitnessTracker.get_activities, FitnessTracker.eval.
  cbn [fst].
  destruct (sum_floats _ (floats_of_menu_made _ _ calories_float Ha)) as [total ->].
  discriminate.
Qed.

Lemma keeps_get_total_duration : keeps (call FitnessTracker.get_total_duration).
Proof.
  apply keeps_call_read_only; [apply read_only_get_total_duration|].
  intros w _ Ha e.
  unfold FitnessTracker.get_total_duration, mbind, FitnessTracker.M_mbind,
    FitnessTracker.M_bind, FitnessTracker.get_activities, FitnessTracker.eval.
  cbn [fst].
  destruct (sum_floats _ (floats_of_menu_made _ _ duration_float Ha)) as [total ->].
  discriminate.
Qed.

Lemma timedelta_days_errors (n : Z) (e : exn) :
  timedelta_days n = Raise e -> e = OverflowError.
Proof. unfold timedelta_days. destruct (_ <=? _); [discriminate | by intros [= <-]]. Qed.

Lemma sub_errors (dt : datetime) (td : timedelta) (e : exn) :
  Datetime.sub dt td = Raise e -> e = OverflowError.
Proof. unfold Datetime.sub. destruct (_ && _)%bool; [discriminate | by intros [= <-]]. Qed.

Lemma week_bounds_errors (today : datetime) (weeks_ago : Z) (e : exn) :
  FitnessTracker.week_bounds today weeks_ago = Raise e -> e = OverflowError.
Proof.
  unfold FitnessTracker.week_bounds, timedelta_weeks.
  destruct (timedelta_days (7 * weeks_ago)) as [weeks|e1] eqn:E1;
    cbn [mbind result_mbind result_bind];
    [|intros [= <-]; eapply timedelta_days_errors, E1].
  destruct (Datetime.sub today weeks) as [end_date|e2] eqn:E2;
    cbn [mbind result_mbind result_bind];
    [|intros [= <-]; eapply sub_errors, E2].
  destruct (timedelta_days 7) as [seven|e3] eqn:E3;
    cbn [mbind result_mbind result_bind];
    [|intros [= <-]; eapply timedelta_days_errors, E3].
  destruct (Datetime.sub end_date seven) as [start_date|e4] eqn:E4;
    cbn [mbind result_mbind result_bind];
    [discriminate|intros [= <-]; eapply sub_errors, E4].
Qed.

Lemma Forall_List_filter {A} (P : A -> Prop) (f : A -> bool) (l : list A) :
  Forall P l -> Forall P (List.filter f l).
Proof.
  induction 1 as [|x l Hx Hl IH]; cbn [List.filter]; [constructor|].
  destruct (f x); [by constructor | exact IH].
Qed.

Lemma keeps_get_weekly_summary (weeks_ago : Z) :
  keeps (call (FitnessTracker.get_weekly_summary weeks_ago)).
Proof.
  apply keeps_call_read_only; [apply read_only_get_weekly_summary|].
  intros w _ Ha e. rewrite get_weekly_summary_run. cbn [fst].
  destruct (FitnessTracker.week_bounds (FitnessTracker.clock w) weeks_ago)
    as [[start_date end_date]|e1] eqn:Eb;
    cbn [mbind result_mbind result_bind fst snd];
    [|intros [= <-]; right; eapply week_bounds_errors, Eb].
  rewrite (select_filter _ (within start_date end_date)).
  2:{ eapply Forall_impl; [exact Ha|]. intros a (_ & _ & Hdate).
      by apply in_week_within. }
  cbn [mbind result_mbind result_bind].
  assert (Hchosen : Forall menu_made
            (List.filter (within start_date end_date)
               (FitnessTracker.activities (FitnessTracker.self w))))
    by (by apply Forall_List_filter).
  destruct (sum_floats _ (floats_of_menu_made _ _ calories_float Hchosen)) as [tc ->].
  destruct (sum_floats _ (floats_of_menu_made _ _ duration_float Hchosen)) as [td ->].
  discriminate.
Qed.

Ltac step_keeps :=
  first
    [ apply keeps_input
    | apply keeps_float_of
    | apply keeps_int_of
    | apply keeps_get_activities
    | apply keeps_delete_activity
    | apply keeps_get_activities_by_date
    | apply keeps_get_activities_by_type
    | apply keeps_get_total_calories
    | apply keeps_get_total_duration
    | apply keeps_get_weekly_summary
    | apply only_writes_keeps;
      first [ apply only_writes_print | apply only_writes_ret | apply only_writes_display
            | apply only_writes_list_by_date | apply only_writes_list_by_type ]
    | apply keeps_bind; [|intros ?]
    | match goal with
      | |- keeps (if ?c then _ else _) => destruct c
      | |- keeps (match ?x with _ => _ end) => destruct x
      end ].

Lemma keeps_choice_add : keeps (choice_add to_float).
Proof.
  unfold choice_add.
  do 9 (apply keeps_bind; [repeat step_keeps | intros ?]).
  apply (keeps_bind_post _ _ valid); [apply keeps_now | |].
  - intros p today [Hc _]. unfold call, FitnessTracker.now. cbn [fst]. by intros [= <-].
  - intros today Htoday.
    apply keeps_bind; [|intros ?; repeat step_keeps].
    by apply keeps_add_activity, menu_made_new.
Qed.

Lemma keeps_choice_by_date : keeps choice_by_date.
Proof. unfold choice_by_date. repeat step_keeps. Qed.

Lemma keeps_choice_by_type : keeps choice_by_type.
Proof. unfold choice_by_type. repeat step_keeps. Qed.

Lemma keeps_choice_week : keeps (choice_week to_int).
Proof. unfold choice_week. repeat step_keeps. Qed.

Lemma keeps_choice_delete : keeps (choice_delete to_int).
Proof. unfold choice_delete. repeat step_keeps. Qed.

Lemma keeps_choice_totals : keeps choice_totals.
Proof. unfold choice_totals. repeat step_keeps. Qed.

Lemma keeps_print_menu : keeps print_menu.
Proof. apply only_writes_keeps. intros p. eexists tt, _. apply print_menu_spec. Qed.

Lemma keeps_menu_turn : keeps (menu_turn to_float to_int).
Proof.
  unfold menu_turn.
  apply keeps_bind; [apply keeps_print_menu | intros _].
  apply keeps_bind; [apply keeps_input | intros choice].
  repeat match goal with
         | |- keeps (if ?c then _ else _) => destruct c
         end;
    (apply keeps_bind; [|intros _; apply only_writes_keeps, only_writes_ret]).
  - apply keeps_choice_add.
  - apply only_writes_keeps, only_writes_display.
  - apply keeps_choice_by_date.
  - apply keeps_choice_by_type.
  - apply keeps_choice_week.
  - apply keeps_choice_delete.
  - apply keeps_choice_totals.
  - apply only_writes_keeps, only_writes_print.
  - apply only_writes_keeps, only_writes_print.
Qed.

Lemma keeps_menu_loop (turns : nat) : keeps (menu_loop to_float to_int turns).
Proof.
  induction turns as [|turns IH]; cbn [menu_loop].
  - apply only_writes_keeps, only_writes_ret.
  - apply keeps_bind; [apply keeps_menu_turn | intros again].
    destruct again; [exact IH | apply only_writes_keeps, only_writes_ret].
Qed.

Lemma keeps_menu_forever : keeps (menu_forever to_float to_int).
Proof. intros p Hp. unfold menu_forever. by apply keeps_menu_loop. Qed.

(** X27: a turn of the menu on a store that the menu built, under a clock
    that shows a date of the calendar, leaves such a store, whatever is
    typed.  It ends early only because the input ends, because a line
    spells no number, or because the week asked for lies outside the
    calendar: no listing, summary, total, addition or deletion raises for
    what the store holds.  A turn never puts input back. *)
Theorem menu_turn_keeps_the_store_sound :
  forall (p : process),
    sound p ->
    sound (snd (menu_turn to_float to_int p))
    /\ (length (stdin (snd (menu_turn to_float to_int p))) <= length (stdin p))%nat
    /\ (forall f : failure,
          fst (menu_turn to_float to_int p) = Failed f ->
          f = EOFError \/ f = Uncaught ValueError \/ f = Uncaught OverflowError).
Proof. intros p Hp. exact (keeps_menu_turn p Hp). Qed.

(** *** Starting on the file of an earlier session *)

Lemma init_own_file (w : FitnessTracker.world) :
  own_file w ->
  exists acts,
    FitnessTracker.__init__ "fitness_data.json" w =
    (Ok tt,
     {| FitnessTracker.self :=
          {| FitnessTracker.data_file := "fitness_data.json";
             FitnessTracker.activities := acts |};
        FitnessTracker.files := FitnessTracker.files w;
        FitnessTracker.clock := FitnessTracker.clock w |})
    /\ Forall menu_made acts.
Proof.
  intros [Hnone | (acts & Hfile & Hacts)]; unfold FitnessTracker.__init__.
  - exists []. split; [|constructor].
    match goal with |- FitnessTracker.load_data ?w0 = _ =>
      destruct (load_data_cases w0)
        as [[_ ->] | [(e & Hsome & _) | (v & items & acts & Hfile & _)]]
    end; [reflexivity | |];
      cbn [FitnessTracker.self FitnessTracker.files FitnessTracker.data_file] in *.
    + rewrite Hnone in Hsome. by destruct Hsome.
    + by rewrite Hnone in Hfile.
  - exists acts. split; [|exact Hacts].
    erewrite load_data_list by exact Hfile.
    cbn [FitnessTracker.self FitnessTracker.files FitnessTracker.data_file
         FitnessTracker.clock].
    rewrite collect_from_dict_to_dict; [reflexivity|].
    eapply Forall_impl; [exact Hacts|]. intros a (_ & _ & Hdate).
    by apply date_parses_is_set.
Qed.

(** X28: [main] started where the file is absent, or holds what an earlier
    session of the menu stored, loads it and runs the menu to the end of
    the input without an exception from the tracker's own data: it ends
    with the exit of choice 8, or early for one of the three reasons of a
    turn, and the store it leaves is again one the menu built. *)
Theorem main_runs_on_its_own_file :
  forall (p : process),
    valid (FitnessTracker.clock (world p)) ->
    own_file (world p) ->
    sound (snd (main to_float to_int p))
    /\ (fst (main to_float to_int p) = Returned true
        \/ exists f : failure,
             fst (main to_float to_int p) = Failed f
             /\ (f = EOFError \/ f = Uncaught ValueError \/ f = Uncaught OverflowError)).
Proof.
  intros p Hclock Hfile. destruct (init_own_file (world p) Hfile) as (acts & Hinit & Hacts).
  unfold main.
  erewrite bind_returned by (unfold call; rewrite Hinit; reflexivity).
  match goal with |- context [menu_forever _ _ ?q] => set (p1 := q) end.
  assert (Hp1 : sound p1) by (by split).
  destruct (keeps_menu_forever p1 Hp1) as (Hsound & _ & Hfail).
  split; [exact Hsound|].
  destruct (fst (menu_forever to_float to_int p1)) as [[]|f] eqn:Hend.
  - by left.
  - exfalso. revert Hend. unfold menu_forever.
    apply (menu_loop_enough _ (S (length (stdin p1)))); lia.
  - right. exists f. split; [reflexivity|]. by apply Hfail.
Qed.

End MenuProofs.

(** ** The menu at work on samples *)

Section MenuSamples.
Import Console.

Lemma sample_menu_made clock :
  Forall menu_made (FitnessTracker.activities (FitnessTracker.self (sample_at clock))).
Proof.
  repeat first [apply Forall_cons_2 | apply Forall_nil_2];
    (split; [eexists; reflexivity|]);
    (split; [eexists _, _; split; reflexivity | eexists; reflexivity]).
Qed.

Lemma typing_sound (lines : list string) : sound (typing lines (sample_at noon)).
Proof. split; [exact noon_valid | apply sample_menu_made]. Qed.

Lemma other_choices_change_nothing_witness :
  (head (stdin (typing ["7"%string; "8"%string] (sample_at noon))) <> Some "1"%string
   /\ head (stdin (typing ["7"%string; "8"%string] (sample_at noon))) <> Some "6"%string)
  /\ world (snd (menu_turn sample_float sample_int
                   (typing ["7"%string; "8"%string] (sample_at noon))))
     = sample_at noon.
Proof.
  assert (H1 : head (stdin (typing ["7"%string; "8"%string] (sample_at noon)))
               <> Some "1"%string) by discriminate.
  assert (H6 : head (stdin (typing ["7"%string; "8"%string] (sample_at noon)))
               <> Some "6"%string) by discriminate.
  split; [by split|].
  exact (other_choices_change_nothing sample_float sample_int _ H1 H6).
Defined.

Lemma menu_delete_by_number_witness :
  (stdin (typing ["6"%string; "2"%string; "8"%string] (sample_at noon))
   = ["6"%string; "2"%string; "8"%string]
   /\ activities_of (typing ["6"%string; "2"%string; "8"%string] (sample_at noon)) <> []
   /\ sample_int "2" = Some 2
   /\ 1 <= 2 <= Z.of_nat (length (activities_of
                                    (typing ["6"%string; "2"%string; "8"%string]
                                       (sample_at noon)))))
  /\ exists p',
       menu_turn sample_float sample_int
         (typing ["6"%string; "2"%string; "8"%string] (sample_at noon))
       = (Returned true, p')
       /\ stdin p' = ["8"%string]
       /\ activities_of p' = [run_day7; run_today].
Proof.
  assert (Hsome : activities_of (typing ["6"%string; "2"%string; "8"%string] (sample_at noon))
                  <> []) by discriminate.
  assert (Hrange : 1 <= 2 <= Z.of_nat (length (activities_of
                     (typing ["6"%string; "2"%string; "8"%string] (sample_at noon)))))
    by (cbn; lia).
  destruct (menu_delete_by_number sample_float sample_int
              (typing ["6"%string; "2"%string; "8"%string] (sample_at noon))
              "2" ["8"%string] 2 eq_refl Hsome eq_refl)
    as (p' & Hturn & Hin & Hdel & _).
  destruct (Hdel Hrange) as (Hacts & _).
  split; [by repeat split|]. exists p'. split; [exact Hturn|]. split; [exact Hin | exact Hacts].
Defined.

Lemma menu_delete_on_empty_store_witness :
  (stdin (typing ["6"%string; "8"%string] fresh_store) = ["6"%string; "8"%string]
   /\ activities_of (typing ["6"%string; "8"%string] fresh_store) = [])
  /\ menu_turn sample_float sample_int (typing ["6"%string; "8"%string] fresh_store)
     = (Returned true,
        {| world := fresh_store; stdin := ["8"%string];
           stdout := menu_lines ++ display_heading |}).
Proof.
  split; [by split|].
  exact (menu_delete_on_empty_store sample_float sample_int
           (typing ["6"%string; "8"%string] fresh_store) ["8"%string] eq_refl eq_refl).
Defined.

Lemma menu_add_records_witness :
  (sample_float "40" = Some 40%float /\ sample_float "350" = Some 350%float)
  /\ exists p',
       menu_turn sample_float sample_int
         (typing ["1"; "Cycling"; "40"; "350"; ""; "hills"; "8"]%string fresh_store)
       = (Returned true, p')
       /\ stdin p' = ["8"%string]
       /\ activities_of p' =
          [ {| FitnessActivity.activity_type := VStr "Cycling";
               FitnessActivity.duration := VFloat 40;
               FitnessActivity.calories := VFloat 350;
               FitnessActivity.distance := VNone;
               FitnessActivity.notes := VStr "hills";
               FitnessActivity.date := VStr "2024-01-08" |} ]
       /\ mirrored (world p').
Proof.
  assert (Hd : sample_float "40" = Some 40%float) by (vm_compute; reflexivity).
  assert (Hc : sample_float "350" = Some 350%float) by (vm_compute; reflexivity).
  destruct (menu_add_records sample_float sample_int
              (typing ["1"; "Cycling"; "40"; "350"; ""; "hills"; "8"]%string fresh_store)
              "Cycling" "40" "350" "" "hills" ["8"%string] 40%float 350%float VNone
              eq_refl Hd Hc (or_introl (conj eq_refl eq_refl)))
    as (p' & Hturn & Hin & Hacts & Hfile & _).
  split; [by split|]. exists p'. split; [exact Hturn|]. split; [exact Hin|].
  split; [exact Hacts | exact Hfile].
Defined.

Lemma menu_add_all_or_nothing_witness :
  (stdin (typing ["1"; "Cycling"; "forty"; "350"]%string (sample_at noon))
   = ["1"; "Cycling"; "forty"; "350"]%string
   /\ fst (menu_turn sample_float sample_int
             (typing ["1"; "Cycling"; "forty"; "350"]%string (sample_at noon)))
      = Failed (Uncaught ValueError))
  /\ world (snd (menu_turn sample_float sample_int
                   (typing ["1"; "Cycling"; "forty"; "350"]%string (sample_at noon))))
     = sample_at noon.
Proof.
  assert (Hfail : fst (menu_turn sample_float sample_int
                         (typing ["1"; "Cycling"; "forty"; "350"]%string (sample_at noon)))
                  = Failed (Uncaught ValueError)) by (vm_compute; reflexivity).
  split; [by split|].
  exact (proj1 (menu_add_all_or_nothing sample_float sample_int
                  (typing ["1"; "Cycling"; "forty"; "350"]%string (sample_at noon))
                  ["Cycling"; "forty"; "350"]%string (Uncaught ValueError) eq_refl Hfail)).
Defined.

Lemma menu_turn_keeps_the_store_sound_witness :
  sound (typing ["5"; "0"; "8"]%string (sample_at noon))
  /\ sound (snd (menu_turn sample_float sample_int
                   (typing ["5"; "0"; "8"]%string (sample_at noon)))).
Proof.
  split; [apply typing_sound|].
  exact (proj1 (menu_turn_keeps_the_store_sound sample_float sample_int _
                  (typing_sound ["5"; "0"; "8"]%string))).
Defined.

Lemma main_runs_on_its_own_file_witness :
  (valid (FitnessTracker.clock
            (world (typing ["7"; "8"]%string
                      (tracker_with []
                         (Some (FitnessTracker.Document
                                  (VList (map FitnessActivity.to_dict [run_day7; swim_day8]))))
                         noon))))
   /\ own_file
        (world (typing ["7"; "8"]%string
                  (tracker_with []
                     (Some (FitnessTracker.Document
                              (VList (map FitnessActivity.to_dict [run_day7; swim_day8]))))
                     noon))))
  /\ sound (snd (main sample_float sample_int
                   (typing ["7"; "8"]%string
                      (tracker_with []
                         (Some (FitnessTracker.Document
                                  (VList (map FitnessActivity.to_dict [run_day7; swim_day8]))))
                         noon)))).
Proof.
  assert (Hfile : own_file
            (world (typing ["7"; "8"]%string
                      (tracker_with []
                         (Some (FitnessTracker.Document
                                  (VList (map FitnessActivity.to_dict [run_day7; swim_day8]))))
                         noon)))).
  { right. exists [run_day7; swim_day8]. split; [reflexivity|].
    repeat first [apply Forall_cons_2 | apply Forall_nil_2];
      (split; [eexists; reflexivity|]);
      (split; [eexists _, _; split; reflexivity | eexists; reflexivity]). }
  split; [split; [exact noon_valid | exact Hfile]|].
  exact (proj1 (main_runs_on_its_own_file sample_float sample_int
                  (typing ["7"; "8"]%string
                     (tracker_with []
                        (Some (FitnessTracker.Document
                                 (VList (map FitnessActivity.to_dict [run_day7; swim_day8]))))
                        noon))
                  noon_valid Hfile)).
Defined.

End MenuSamples.
